(** * ARP server (arp_sdk/server.py): session layer, invocation engine,
      constraint evaluator and subscription engine.

    The development embeds [ARPServer] of [arp_sdk/server.py] together with
    the models of [arp_sdk/types.py] it serialises, and proves properties of
    the request dispatcher, the tool invocation pipeline, the constraint
    evaluator, the context subscription handlers and the emergency stop. *)

From Stdlib Require Import ZArith QArith.
From stdpp Require Import gmap strings pretty list fin_maps.

Local Open Scope Z_scope.
Set Warnings "-register-all".

(** ** Python values *)

(** Python [int] is [Z].  A Python [float] is read as an extended rational:
    every finite float is a rational number, and the three special floats are
    kept apart.  Comparisons between [int] and [float] are exact in Python, so
    this reading loses nothing for [<], [>] and truthiness. *)
Inductive num : Type :=
| NInf
| Fin (q : Q)
| PInf
| NaN.

(** The values that travel in [dict[str, Any]] payloads (tool arguments,
    constraint parameters, handler results): what [json.loads] produces.
    A JSON object is an insertion-ordered list of pairs.  Strings are read
    one character per code point. *)
Inductive value : Type :=
| VNone
| VBool (b : bool)
| VInt (z : Z)
| VFloat (f : num)
| VStr (s : string)
| VList (l : list value)
| VDict (d : list (string * value)).

(** The exceptions that the modelled code can raise.  [ARPError] is the class
    at the end of server.py.  [TypeError], [IndexError], [KeyError],
    [AttributeError], [OverflowError] and [ZeroDivisionError] are the Python
    built-ins raised by comparisons, subscripts, attribute access,
    conversions and divisions on ill-typed payloads.  [Exception] is any other [Exception], kept by its [str];
    [BaseException] is an exception that is not an [Exception]
    ([asyncio.CancelledError], [KeyboardInterrupt], [SystemExit]), kept by
    the name of its class. *)
Inductive exn : Type :=
| ARPError (code : Z) (message : string) (data : value)
| TypeError
| IndexError
| KeyError
| AttributeError
| OverflowError
| ZeroDivisionError
| Exception (message : string)
| BaseException (name : string).

Inductive outcome (A : Type) : Type :=
| Ret (a : A)
| Raise (e : exn).
Arguments Ret {A} a.
Arguments Raise {A} e.

(** ** Insertion-ordered dictionaries keyed by strings *)

Section odict.
Context {A : Type}.

(** [d.get(k)] *)
Fixpoint dict_get (k : string) (d : list (string * A)) : option A :=
  match d with
  | [] => None
  | (k', v) :: d' => if String.eqb k k' then Some v else dict_get k d'
  end.

(** [d[k] = v]: an existing key keeps its position, a new key goes last. *)
Fixpoint dict_set (k : string) (v : A) (d : list (string * A))
  : list (string * A) :=
  match d with
  | [] => [(k, v)]
  | (k', v') :: d' =>
      if String.eqb k k' then (k, v) :: d' else (k', v') :: dict_set k v d'
  end.

(** [k in d] *)
Definition dict_mem (k : string) (d : list (string * A)) : bool :=
  match dict_get k d with Some _ => true | None => false end.

(** [d.values()] *)
Definition dict_values (d : list (string * A)) : list A := map snd d.
End odict.

(** [d.get(k)] and [d.get(k, default)] on a payload: a missing key reads as
    [None], respectively as the default. *)
Definition py_get (k : string) (d : list (string * value)) : value :=
  match dict_get k d with Some v => v | None => VNone end.

Definition py_get_default (k : string) (default : value)
  (d : list (string * value)) : value :=
  match dict_get k d with Some v => v | None => default end.

(** ** Python operators used by the server *)

(** [bool(v)] *)
Definition truthy (v : value) : bool :=
  match v with
  | VNone => false
  | VBool b => b
  | VInt z => negb (z =? 0)
  | VFloat (Fin q) => negb (Qeq_bool q 0)
  | VFloat _ => true
  | VStr s => negb (String.eqb s "")
  | VList l => match l with [] => false | _ => true end
  | VDict d => match d with [] => false | _ => true end
  end.

(** [a or b] *)
Definition py_or (a b : value) : value := if truthy a then a else b.

(** [isinstance(v, (int, float))]: [bool] is a subclass of [int]. *)
Definition as_num (v : value) : option num :=
  match v with
  | VBool b => Some (Fin (if b then 1 else 0)%Q)
  | VInt z => Some (Fin (inject_Z z))
  | VFloat f => Some f
  | _ => None
  end.

Definition is_number (v : value) : bool :=
  match as_num v with Some _ => true | None => false end.

Definition num_ltb (a b : num) : bool :=
  match a, b with
  | NaN, _ | _, NaN => false
  | NInf, NInf => false
  | NInf, _ => true
  | _, NInf => false
  | PInf, _ => false
  | Fin _, PInf => true
  | Fin p, Fin q => negb (Qle_bool q p)
  end.

Definition num_eqb (a b : num) : bool :=
  match a, b with
  | NInf, NInf | PInf, PInf => true
  | Fin p, Fin q => Qeq_bool p q
  | _, _ => false
  end.

(** [a == b] on payload values. *)
Fixpoint py_eq (a b : value) {struct a} : bool :=
  match a, b with
  | VNone, VNone => true
  | VStr s, VStr t => String.eqb s t
  | VList xs, VList ys =>
      (fix all2 (xs ys : list value) : bool :=
         match xs, ys with
         | [], [] => true
         | x :: xs', y :: ys' => py_eq x y && all2 xs' ys'
         | _, _ => false
         end) xs ys
  | VDict d, VDict e =>
      Nat.eqb (length d) (length e) &&
      (fix all (d : list (string * value)) : bool :=
         match d with
         | [] => true
         | (k, v) :: d' =>
             match dict_get k e with
             | Some w => py_eq v w
             | None => false
             end && all d'
         end) d
  | _, _ =>
      match as_num a, as_num b with
      | Some x, Some y => num_eqb x y
      | _, _ => false
      end
  end.

(** [a < b]: numbers by value, strings and lists lexicographically, anything
    else is a [TypeError]. *)
Fixpoint py_lt (a b : value) {struct a} : outcome bool :=
  match a, b with
  | VStr s, VStr t => Ret (String.ltb s t)
  | VList xs, VList ys =>
      (fix lex (xs ys : list value) : outcome bool :=
         match xs, ys with
         | [], [] => Ret false
         | [], _ :: _ => Ret true
         | _ :: _, [] => Ret false
         | x :: xs', y :: ys' => if py_eq x y then lex xs' ys' else py_lt x y
         end) xs ys
  | _, _ =>
      match as_num a, as_num b with
      | Some x, Some y => Ret (num_ltb x y)
      | _, _ => Raise TypeError
      end
  end.

(** [a > b] is the mirrored comparison for these built-in types. *)
Definition py_gt (a b : value) : outcome bool := py_lt b a.

(** [v[i]] for a non-negative index. *)
Definition py_getitem (v : value) (i : nat) : outcome value :=
  match v with
  | VList l =>
      match l !! i with Some x => Ret x | None => Raise IndexError end
  | VStr s =>
      match String.get i s with
      | Some c => Ret (VStr (String c EmptyString))
      | None => Raise IndexError
      end
  | VDict _ => Raise KeyError
  | _ => Raise TypeError
  end.

(** ** types.py: enumerations *)

Inductive SafetyLevel : Type := NORMAL | ELEVATED | CRITICAL.

Inductive ToolState : Type := IDLE | RUNNING | COMPLETED | FAILED | CANCELLED.

Inductive ContextDataType : Type :=
| POSE | JOINTS | POINTCLOUD | IMAGE | IMU | CUSTOM.

Inductive ConstraintType : Type :=
| VELOCITY_LIMIT | WORKSPACE_BOUND | FORCE_LIMIT | COLLISION_ZONE
| EMERGENCY_STOP | RATE_LIMIT.

Inductive ViolationAction : Type := REJECT | CLAMP | ACTION_EMERGENCY_STOP.

Global Instance ToolState_eq_dec : EqDecision ToolState.
Proof. solve_decision. Defined.

Global Instance ConstraintType_eq_dec : EqDecision ConstraintType.
Proof. solve_decision. Defined.

(** The [.value] of each enumeration member. *)
Definition SafetyLevel_value (l : SafetyLevel) : string :=
  match l with
  | NORMAL => "normal" | ELEVATED => "elevated" | CRITICAL => "critical"
  end.

Definition ToolState_value (s : ToolState) : string :=
  match s with
  | IDLE => "idle" | RUNNING => "running" | COMPLETED => "completed"
  | FAILED => "failed" | CANCELLED => "cancelled"
  end.

Definition ContextDataType_value (t : ContextDataType) : string :=
  match t with
  | POSE => "pose" | JOINTS => "joints" | POINTCLOUD => "pointcloud"
  | IMAGE => "image" | IMU => "imu" | CUSTOM => "custom"
  end.

Definition ConstraintType_value (t : ConstraintType) : string :=
  match t with
  | VELOCITY_LIMIT => "velocity_limit" | WORKSPACE_BOUND => "workspace_bound"
  | FORCE_LIMIT => "force_limit" | COLLISION_ZONE => "collision_zone"
  | EMERGENCY_STOP => "emergency_stop" | RATE_LIMIT => "rate_limit"
  end.

Definition ViolationAction_value (a : ViolationAction) : string :=
  match a with
  | REJECT => "reject" | CLAMP => "clamp"
  | ACTION_EMERGENCY_STOP => "emergency_stop"
  end.

(** [class ARPErrorCode] *)
Module ARPErrorCode.
Definition SAFETY_VIOLATION : Z := -40001.
Definition PRECONDITION_FAILED : Z := -40002.
Definition TOOL_NOT_FOUND : Z := -40003.
Definition TOOL_BUSY : Z := -40004.
Definition CONFIRMATION_TIMEOUT : Z := -40005.
Definition CONFIRMATION_DENIED : Z := -40006.
Definition EMERGENCY_STOPPED : Z := -40007.
Definition CONTEXT_NOT_FOUND : Z := -40008.
Definition NOT_INITIALIZED : Z := -40009.
End ARPErrorCode.

(** ** types.py: models *)

Record SafetyMetadata : Type := {
  safety_level : SafetyLevel;
  requires_confirmation : bool;
  reversible : bool;
  safety_description : string
}.

Record Condition : Type := {
  condition_field : string;
  condition_operator : string;
  condition_value : value
}.

Record Effect : Type := {
  effect_field : string;
  effect_action : string;
  effect_value : value
}.

Record PhysicalTool : Type := {
  tool_name : string;
  tool_description : string;
  tool_parameters : list (string * value);
  safety : SafetyMetadata;
  preconditions : list Condition;
  effects : list Effect;
  estimated_duration : option num
}.

Record ContextSource : Type := {
  source_name : string;
  source_description : string;
  data_type : ContextDataType;
  coordinate_frame : option string;
  update_rate : option num;
  schema_def : option (list (string * value))
}.

Record SafetyConstraint : Type := {
  constraint_name : string;
  constraint_type : ConstraintType;
  enabled : bool;
  priority : Z;
  constraint_parameters : list (string * value);
  violation_action : ViolationAction
}.

Record ServerInfo : Type := {
  info_name : string;
  info_version : string;
  robot_model : option string;
  robot_type : option string
}.

Record Capabilities : Type := {
  cap_tools : bool;
  cap_context : bool;
  cap_constraints : bool;
  cap_planning : bool;
  cap_confirmation : bool
}.

Record CallToolResult : Type := {
  result_call_id : string;
  result_state : ToolState;
  result : value;
  error : option string;
  duration : option num
}.

Record ToolProgressParams : Type := {
  progress_call_id : string;
  progress : option num;
  progress_message : string;
  progress_state : ToolState
}.

Record ContextUpdateParams : Type := {
  update_name : string;
  timestamp : string;
  data : value
}.

Record InitializeResult : Type := {
  protocol_version : string;
  server_info_of : ServerInfo;
  capabilities_of : Capabilities
}.

(** ** [model_dump(by_alias=True, ...)]

    Optional fields are dumped as [None] when unset.  With
    [exclude_none=True] the fields that are [None] are left out of the
    dictionary.  Open payloads ([dict[str, Any]], [Any]) are dumped as they
    are. *)

Definition opt_str (o : option string) : value :=
  match o with Some s => VStr s | None => VNone end.

Definition opt_float (o : option num) : value :=
  match o with Some f => VFloat f | None => VNone end.

Definition opt_dict (o : option (list (string * value))) : value :=
  match o with Some d => VDict d | None => VNone end.

Definition is_none (v : value) : bool :=
  match v with VNone => true | _ => false end.

Definition model_fields (exclude_none : bool) (fields : list (string * value))
  : value :=
  VDict (if exclude_none
         then List.filter (fun kv => negb (is_none (snd kv))) fields
         else fields).

Definition dump_SafetyMetadata (exclude_none : bool) (m : SafetyMetadata)
  : value :=
  model_fields exclude_none
    [ ("level", VStr (SafetyLevel_value (safety_level m)));
      ("requiresConfirmation", VBool (requires_confirmation m));
      ("reversible", VBool (reversible m));
      ("description", VStr (safety_description m)) ].

Definition dump_Condition (exclude_none : bool) (c : Condition) : value :=
  model_fields exclude_none
    [ ("field", VStr (condition_field c));
      ("operator", VStr (condition_operator c));
      ("value", condition_value c) ].

Definition dump_Effect (exclude_none : bool) (e : Effect) : value :=
  model_fields exclude_none
    [ ("field", VStr (effect_field e));
      ("action", VStr (effect_action e));
      ("value", effect_value e) ].

Definition dump_PhysicalTool (exclude_none : bool) (t : PhysicalTool)
  : value :=
  model_fields exclude_none
    [ ("name", VStr (tool_name t));
      ("description", VStr (tool_description t));
      ("parameters", VDict (tool_parameters t));
      ("safety", dump_SafetyMetadata exclude_none (safety t));
      ("preconditions",
        VList (map (dump_Condition exclude_none) (preconditions t)));
      ("effects", VList (map (dump_Effect exclude_none) (effects t)));
      ("estimatedDuration", opt_float (estimated_duration t)) ].

Definition dump_ContextSource (exclude_none : bool) (s : ContextSource)
  : value :=
  model_fields exclude_none
    [ ("name", VStr (source_name s));
      ("description", VStr (source_description s));
      ("dataType", VStr (ContextDataType_value (data_type s)));
      ("coordinateFrame", opt_str (coordinate_frame s));
      ("updateRate", opt_float (update_rate s));
      ("schema", opt_dict (schema_def s)) ].

Definition dump_SafetyConstraint (exclude_none : bool) (c : SafetyConstraint)
  : value :=
  model_fields exclude_none
    [ ("name", VStr (constraint_name c));
      ("type", VStr (ConstraintType_value (constraint_type c)));
      ("enabled", VBool (enabled c));
      ("priority", VInt (priority c));
      ("parameters", VDict (constraint_parameters c));
      ("violationAction", VStr (ViolationAction_value (violation_action c))) ].

Definition dump_ServerInfo (exclude_none : bool) (i : ServerInfo) : value :=
  model_fields exclude_none
    [ ("name", VStr (info_name i));
      ("version", VStr (info_version i));
      ("robotModel", opt_str (robot_model i));
      ("robotType", opt_str (robot_type i)) ].

Definition dump_Capabilities (exclude_none : bool) (c : Capabilities)
  : value :=
  model_fields exclude_none
    [ ("tools", VBool (cap_tools c));
      ("context", VBool (cap_context c));
      ("constraints", VBool (cap_constraints c));
      ("planning", VBool (cap_planning c));
      ("confirmation", VBool (cap_confirmation c)) ].

Definition dump_CallToolResult (exclude_none : bool) (r : CallToolResult)
  : value :=
  model_fields exclude_none
    [ ("callId", VStr (result_call_id r));
      ("state", VStr (ToolState_value (result_state r)));
      ("result", result r);
      ("error", opt_str (error r));
      ("duration", opt_float (duration r)) ].

Definition dump_ToolProgressParams (exclude_none : bool)
  (p : ToolProgressParams) : value :=
  model_fields exclude_none
    [ ("callId", VStr (progress_call_id p));
      ("progress", opt_float (progress p));
      ("message", VStr (progress_message p));
      ("state", VStr (ToolState_value (progress_state p))) ].

Definition dump_ContextUpdateParams (exclude_none : bool)
  (u : ContextUpdateParams) : value :=
  model_fields exclude_none
    [ ("name", VStr (update_name u));
      ("timestamp", VStr (timestamp u));
      ("data", data u) ].

Definition dump_InitializeResult (exclude_none : bool) (r : InitializeResult)
  : value :=
  model_fields exclude_none
    [ ("protocolVersion", VStr (protocol_version r));
      ("serverInfo", dump_ServerInfo exclude_none (server_info_of r));
      ("capabilities", dump_Capabilities exclude_none (capabilities_of r)) ].

(** ** The world outside the server

    One [Env] is what a single request sees of the Python runtime and of the
    robot: the string an f-string produces for a value that is not a [str],
    the identifier [uuid.uuid4()] draws, what awaiting the registered handler
    yields on the given arguments, and the two readings of
    [time.monotonic()].  It is also what one turn of a subscription task
    sees: what awaiting the registered provider yields, the text of
    [datetime.now(timezone.utc).isoformat()], and the float nearest to a
    rational number ([PInf] beyond the range of floats).

    Awaiting a handler or a provider ends in one of three ways: it returns a
    value, it raises an [Exception] [e], recorded by [str(e)], or it is left
    by an exception that is not an [Exception], which [except Exception]
    does not catch, recorded by the name of its class. *)

Inductive HandlerOutcome : Type :=
| Returned (result : value)
| Raised (message : string)
| Escaped (name : string).

Record Env : Type := {
  py_repr : value -> string;
  uuid4 : string;
  await_handler : string -> list (string * value) -> HandlerOutcome;
  monotonic_start : Q;
  monotonic_end : Q;
  await_provider : string -> HandlerOutcome;
  utc_now : string;
  nearest_float : Q -> num
}.

(** [f"{v}"] *)
Definition py_format (env : Env) (v : value) : string :=
  match v with
  | VStr s => s
  | _ => py_repr env v
  end.

(** ** Wire messages

    A request or notification after [json.loads].  A [Params] is a [params]
    that is a JSON object: it holds the fields the handlers read, each
    possibly absent, typed as the parameter models of types.py declare them
    ([CallToolParams], [SubscribeContextParams], [EmergencyStopParams]).
    The server does not validate [params] against these models; an object
    whose fields have other types (a [callId] that is not a string, say) is
    not a [Params], and what the server does with it is not described
    here. *)

Record Params : Type := {
  p_name : option string;
  p_callId : option string;
  p_arguments : option (list (string * value));
  p_maxRate : option value;
  p_reason : option string
}.

Definition empty_params : Params :=
  {| p_name := None; p_callId := None; p_arguments := None;
     p_maxRate := None; p_reason := None |}.

Record Message : Type := {
  msg_id : option value;
  msg_method : option string;
  msg_params : option Params
}.

(** What the member [params] of a decoded frame can be: an object, or a JSON
    value of another kind ([null], a boolean, a number, a string, an
    array).  The handlers read an object with [params.get(...)], which the
    other kinds do not have. *)
Inductive payload : Type :=
| Object (members : Params)
| NotObject.

Coercion Object : Params >-> payload.

(** A decoded frame as the server receives it, its [params] of any kind. *)
Record WireMessage : Type := {
  wire_id : option value;
  wire_method : option string;
  wire_params : option payload
}.

(** A [Message] is a frame whose [params], if present, is an object. *)
Definition on_wire (message : Message) : WireMessage :=
  {| wire_id := msg_id message;
     wire_method := msg_method message;
     wire_params := Object <$> msg_params message |}.

Coercion on_wire : Message >-> WireMessage.

(** ** Server state *)

(** An [asyncio.Task] running [_context_stream_loop(name, rate)]. *)
Record Task : Type := {
  task_name : string;
  task_rate : value;
  task_cancelled : bool
}.

(** Where the coroutine of a task stands once the event loop has run it:
    suspended in [asyncio.sleep(interval)], or finished, by returning or by
    the exception [raised]. *)
Inductive Coroutine : Type :=
| Suspended (interval : num)
| Finished (raised : option exn).

(** The attributes of [ARPServer].  [_tool_handlers] and
    [_context_providers] always have the keys of [_tools] and
    [_context_sources] (the decorators fill both at once); their bodies live
    in [Env].  [event_loop] holds the tasks made by [asyncio.create_task], in
    creation order, and [_context_tasks] refers to them by position.
    [_transport] records the frames handed to [broadcast].  [coroutines]
    holds, by position, the coroutines of the tasks the event loop has run
    at least once; a task without an entry has not started yet. *)
Record ARPServer : Type := {
  server_info : ServerInfo;
  capabilities : Capabilities;
  _tools : list (string * PhysicalTool);
  _context_sources : list (string * ContextSource);
  _constraints : list (string * SafetyConstraint);
  _active_calls : gmap string ToolState;
  _initialized : bool;
  _emergency_stopped : bool;
  _context_tasks : gmap string nat;
  event_loop : list Task;
  _transport : list value;
  coroutines : gmap nat Coroutine
}.

Definition set_tools (f : list (string * PhysicalTool) -> list (string * PhysicalTool))
  (self : ARPServer) : ARPServer :=
  {| server_info := server_info self; capabilities := capabilities self;
     _tools := f (_tools self); _context_sources := _context_sources self;
     _constraints := _constraints self; _active_calls := _active_calls self;
     _initialized := _initialized self;
     _emergency_stopped := _emergency_stopped self;
     _context_tasks := _context_tasks self; event_loop := event_loop self;
     _transport := _transport self; coroutines := coroutines self |}.

Definition set_context_sources
  (f : list (string * ContextSource) -> list (string * ContextSource))
  (self : ARPServer) : ARPServer :=
  {| server_info := server_info self; capabilities := capabilities self;
     _tools := _tools self; _context_sources := f (_context_sources self);
     _constraints := _constraints self; _active_calls := _active_calls self;
     _initialized := _initialized self;
     _emergency_stopped := _emergency_stopped self;
     _context_tasks := _context_tasks self; event_loop := event_loop self;
     _transport := _transport self; coroutines := coroutines self |}.

Definition set_constraints
  (f : list (string * SafetyConstraint) -> list (string * SafetyConstraint))
  (self : ARPServer) : ARPServer :=
  {| server_info := server_info self; capabilities := capabilities self;
     _tools := _tools self; _context_sources := _context_sources self;
     _constraints := f (_constraints self); _active_calls := _active_calls self;
     _initialized := _initialized self;
     _emergency_stopped := _emergency_stopped self;
     _context_tasks := _context_tasks self; event_loop := event_loop self;
     _transport := _transport self; coroutines := coroutines self |}.

Definition set_active_calls (f : gmap string ToolState -> gmap string ToolState)
  (self : ARPServer) : ARPServer :=
  {| server_info := server_info self; capabilities := capabilities self;
     _tools := _tools self; _context_sources := _context_sources self;
     _constraints := _constraints self; _active_calls := f (_active_calls self);
     _initialized := _initialized self;
     _emergency_stopped := _emergency_stopped self;
     _context_tasks := _context_tasks self; event_loop := event_loop self;
     _transport := _transport self; coroutines := coroutines self |}.

Definition set_initialized (b : bool) (self : ARPServer) : ARPServer :=
  {| server_info := server_info self; capabilities := capabilities self;
     _tools := _tools self; _context_sources := _context_sources self;
     _constraints := _constraints self; _active_calls := _active_calls self;
     _initialized := b;
     _emergency_stopped := _emergency_stopped self;
     _context_tasks := _context_tasks self; event_loop := event_loop self;
     _transport := _transport self; coroutines := coroutines self |}.

Definition set_emergency_stopped (b : bool) (self : ARPServer) : ARPServer :=
  {| server_info := server_info self; capabilities := capabilities self;
     _tools := _tools self; _context_sources := _context_sources self;
     _constraints := _constraints self; _active_calls := _active_calls self;
     _initialized := _initialized self;
     _emergency_stopped := b;
     _context_tasks := _context_tasks self; event_loop := event_loop self;
     _transport := _transport self; coroutines := coroutines self |}.

Definition set_context_tasks (f : gmap string nat -> gmap string nat)
  (self : ARPServer) : ARPServer :=
  {| server_info := server_info self; capabilities := capabilities self;
     _tools := _tools self; _context_sources := _context_sources self;
     _constraints := _constraints self; _active_calls := _active_calls self;
     _initialized := _initialized self;
     _emergency_stopped := _emergency_stopped self;
     _context_tasks := f (_context_tasks self); event_loop := event_loop self;
     _transport := _transport self; coroutines := coroutines self |}.

Definition set_event_loop (f : list Task -> list Task) (self : ARPServer)
  : ARPServer :=
  {| server_info := server_info self; capabilities := capabilities self;
     _tools := _tools self; _context_sources := _context_sources self;
     _constraints := _constraints self; _active_calls := _active_calls self;
     _initialized := _initialized self;
     _emergency_stopped := _emergency_stopped self;
     _context_tasks := _context_tasks self; event_loop := f (event_loop self);
     _transport := _transport self; coroutines := coroutines self |}.

Definition set_transport (f : list value -> list value) (self : ARPServer)
  : ARPServer :=
  {| server_info := server_info self; capabilities := capabilities self;
     _tools := _tools self; _context_sources := _context_sources self;
     _constraints := _constraints self; _active_calls := _active_calls self;
     _initialized := _initialized self;
     _emergency_stopped := _emergency_stopped self;
     _context_tasks := _context_tasks self; event_loop := event_loop self;
     _transport := f (_transport self); coroutines := coroutines self |}.

Definition set_coroutines (f : gmap nat Coroutine -> gmap nat Coroutine)
  (self : ARPServer) : ARPServer :=
  {| server_info := server_info self; capabilities := capabilities self;
     _tools := _tools self; _context_sources := _context_sources self;
     _constraints := _constraints self; _active_calls := _active_calls self;
     _initialized := _initialized self;
     _emergency_stopped := _emergency_stopped self;
     _context_tasks := _context_tasks self; event_loop := event_loop self;
     _transport := _transport self; coroutines := f (coroutines self) |}.

(** [ARPServer.__init__] *)
Definition __init__ (name version : string) (robot_model robot_type : option string)
  : ARPServer :=
  {| server_info :=
       {| info_name := name; info_version := version;
          robot_model := robot_model; robot_type := robot_type |};
     capabilities :=
       {| cap_tools := true; cap_context := true; cap_constraints := true;
          cap_planning := false; cap_confirmation := false |};
     _tools := []; _context_sources := []; _constraints := [];
     _active_calls := ∅; _initialized := false; _emergency_stopped := false;
     _context_tasks := ∅; event_loop := []; _transport := [];
     coroutines := ∅ |}.

(** The [@server.tool(...)] decorator applied to a function named [name]. *)
Definition tool (name description : string) (safety : SafetyMetadata)
  (parameters : list (string * value)) (preconditions : list Condition)
  (effects : list Effect) (estimated_duration : option num)
  (self : ARPServer) : ARPServer :=
  set_tools
    (dict_set name
       {| tool_name := name; tool_description := description;
          tool_parameters := parameters; safety := safety;
          preconditions := preconditions; effects := effects;
          estimated_duration := estimated_duration |})
    self.

(** The [@server.context(...)] decorator. *)
Definition context (name description : string) (data_type : ContextDataType)
  (coordinate_frame : option string) (update_rate : option num)
  (self : ARPServer) : ARPServer :=
  set_context_sources
    (dict_set name
       {| source_name := name; source_description := description;
          data_type := data_type; coordinate_frame := coordinate_frame;
          update_rate := update_rate; schema_def := None |})
    self.

Definition add_constraint (constraint : SafetyConstraint) (self : ARPServer)
  : ARPServer :=
  set_constraints (dict_set (constraint_name constraint) constraint) self.

(** ** Exceptions and state threading *)

Definition obind {A B : Type} (m : outcome A) (k : A -> outcome B)
  : outcome B :=
  match m with
  | Ret a => k a
  | Raise e => Raise e
  end.

Notation "'let?' x := m 'in' k" := (obind m (fun x => k))
  (at level 10, x name, m at level 100, k at level 200).

(** A method of the server: it may change [self] and it returns or raises.
    Changes made before an exception is raised stay. *)
Definition M (A : Type) : Type := ARPServer -> ARPServer * outcome A.

Definition ret {A : Type} (a : A) : M A := fun self => (self, Ret a).

Definition raise {A : Type} (e : exn) : M A := fun self => (self, Raise e).

Definition bind {A B : Type} (m : M A) (k : A -> M B) : M B :=
  fun self =>
    match m self with
    | (self', Ret a) => k a self'
    | (self', Raise e) => (self', Raise e)
    end.

Definition get : M ARPServer := fun self => (self, Ret self).

Definition modify (f : ARPServer -> ARPServer) : M unit :=
  fun self => (f self, Ret tt).

Definition lift {A : Type} (o : outcome A) : M A := fun self => (self, o).

Notation "'do' x <- m ;; k" := (bind m (fun x => k))
  (at level 10, x name, m at level 99, k at level 200).
Notation "'run' m ;; k" := (bind m (fun _ => k))
  (at level 10, m at level 99, k at level 200).

(** ** Constraint evaluator: [ARPServer._check_constraints] *)

Definition is_list (v : value) : bool :=
  match v with VList _ => true | _ => false end.

(** [len(v)], read only behind [isinstance(v, (list, tuple))]. *)
Definition py_len (v : value) : nat :=
  match v with VList l => length l | _ => 0%nat end.

Definition workspace_message (env : Env) (target : value) (name : string)
  : string :=
  "Position " +:+ py_format env target +:+ " exceeds workspace boundary "
  +:+ name.

Definition velocity_message (env : Env) (velocity max_vel : value) : string :=
  "Velocity " +:+ py_format env velocity +:+ " exceeds limit "
  +:+ py_format env max_vel.

(** [for i in range(3): if target[i] < mins[i] or target[i] > maxs[i]:
    return ...], over the indices still to visit. *)
Fixpoint check_coordinates (env : Env) (constraint : SafetyConstraint)
  (target mins maxs : value) (range : list nat) : outcome (option string) :=
  match range with
  | [] => Ret None
  | i :: rest =>
      let? t := py_getitem target i in
      let? lo := py_getitem mins i in
      let? below := py_lt t lo in
      if below
      then Ret (Some (workspace_message env target (constraint_name constraint)))
      else
        let? t' := py_getitem target i in
        let? hi := py_getitem maxs i in
        let? above := py_gt t' hi in
        if above
        then
          Ret (Some (workspace_message env target (constraint_name constraint)))
        else check_coordinates env constraint target mins maxs rest
  end.

(** The [workspace_bound] block of the loop body. *)
Definition check_workspace_bound (env : Env) (constraint : SafetyConstraint)
  (arguments : list (string * value)) : outcome (option string) :=
  let target := py_get "target" arguments in
  if truthy target && is_list target && (3 <=? py_len target)%nat then
    let bounds := constraint_parameters constraint in
    let mins :=
      py_get_default "min" (VList (replicate 3 (VFloat NInf))) bounds in
    let maxs :=
      py_get_default "max" (VList (replicate 3 (VFloat PInf))) bounds in
    check_coordinates env constraint target mins maxs [0; 1; 2]%nat
  else Ret None.

(** The [velocity_limit] block of the loop body. *)
Definition check_velocity_limit (env : Env) (constraint : SafetyConstraint)
  (arguments : list (string * value)) : outcome (option string) :=
  let velocity :=
    py_or (py_get "velocity" arguments) (py_get "speed" arguments) in
  if negb (is_none velocity) then
    let max_vel :=
      py_get_default "max_linear" (VFloat PInf)
        (constraint_parameters constraint) in
    if is_number velocity then
      let? exceeds := py_gt velocity max_vel in
      if exceeds
      then Ret (Some (velocity_message env velocity max_vel))
      else Ret None
    else Ret None
  else Ret None.

(** One iteration of the loop: [None] stands for falling through to the next
    constraint. *)
Definition check_constraint (env : Env) (constraint : SafetyConstraint)
  (arguments : list (string * value)) : outcome (option string) :=
  if negb (enabled constraint) then Ret None
  else
    let? workspace :=
      if decide (constraint_type constraint = WORKSPACE_BOUND)
      then check_workspace_bound env constraint arguments
      else Ret None in
    match workspace with
    | Some violation => Ret (Some violation)
    | None =>
        if decide (constraint_type constraint = VELOCITY_LIMIT)
        then check_velocity_limit env constraint arguments
        else Ret None
    end.

(** [for constraint in self._constraints.values(): ...; return None] *)
Fixpoint check_each (env : Env) (constraints : list SafetyConstraint)
  (arguments : list (string * value)) : outcome (option string) :=
  match constraints with
  | [] => Ret None
  | constraint :: rest =>
      let? found := check_constraint env constraint arguments in
      match found with
      | Some violation => Ret (Some violation)
      | None => check_each env rest arguments
      end
  end.

Definition _check_constraints (env : Env) (self : ARPServer)
  (tool_name : string) (arguments : list (string * value))
  : outcome (option string) :=
  check_each env (dict_values (_constraints self)) arguments.

(** ** JSON-RPC frames built by the server *)

Definition result_response (msg_id result : value) : value :=
  VDict [("jsonrpc", VStr "2.0"); ("id", msg_id); ("result", result)].

Definition error_response (msg_id : value) (error : list (string * value))
  : value :=
  VDict [("jsonrpc", VStr "2.0"); ("id", msg_id); ("error", VDict error)].

(** ** Method implementations *)

(** [task.cancel()] on the task at position [task] of the event loop. *)
Definition cancel_task (task : nat) (loop : list Task) : list Task :=
  alter
    (fun t =>
       {| task_name := task_name t; task_rate := task_rate t;
          task_cancelled := true |})
    task loop.

(** [asyncio.create_task(self._context_stream_loop(name, rate))] *)
Definition create_task (name : string) (rate : value) (loop : list Task)
  : list Task :=
  loop ++ [{| task_name := name; task_rate := rate; task_cancelled := false |}].

(** The handlers take [params] as it came.  Those that read it start with
    [params.get(...)], which raises [AttributeError] when [params] is not an
    object; the others never look at it. *)
Definition _handle_initialize (params : payload) : M value :=
  run modify (set_initialized true) ;;
  do self <- get ;;
  let result :=
    {| protocol_version := "0.1.0";
       server_info_of := server_info self;
       capabilities_of := capabilities self |} in
  ret (dump_InitializeResult false result).

Definition _handle_shutdown (params : payload) : M value :=
  run modify (fun self =>
    set_event_loop
      (fun loop =>
         map_fold (fun _ task loop => cancel_task task loop) loop
           (_context_tasks self))
      self) ;;
  run modify (set_context_tasks (fun _ => ∅)) ;;
  run modify (set_initialized false) ;;
  ret (VDict [("status", VStr "ok")]).

Definition _handle_list_tools (params : payload) : M value :=
  do self <- get ;;
  let tools := map (dump_PhysicalTool true) (dict_values (_tools self)) in
  ret (VDict [("tools", VList tools)]).

(** [self._transport.broadcast(notification)] built by [_send_progress].
    [ToolProgressParams(...)] validates its fields and raises on a [callId]
    that is not a string; with the string [call_id] of a [Params] it always
    succeeds. *)
Definition _send_progress (call_id : string) (progress : num)
  (message : string) (state : ToolState) : M unit :=
  let notification :=
    VDict
      [ ("jsonrpc", VStr "2.0");
        ("method", VStr "arp.toolProgress");
        ("params",
          dump_ToolProgressParams false
            {| progress_call_id := call_id; progress := Some progress;
               progress_message := message; progress_state := state |}) ] in
  modify (set_transport (fun sent => sent ++ [notification])).

(** [violation] as the condition of [if violation:] *)
Definition violation_truthy (violation : option string) : bool :=
  match violation with
  | Some s => negb (String.eqb s "")
  | None => false
  end.

(** The request runs to completion: what other connections or subscription
    tasks could do to the server while [_send_progress] or the handler is
    awaited is not part of this model, nor what the handler itself does to
    the server.  The [try] around the handler catches [Exception] only:
    an exception that is not one leaves [_handle_call_tool] with the record
    still [RUNNING]. *)
Definition _handle_call_tool (env : Env) (params : payload) : M value :=
  match params with
  | NotObject => raise AttributeError
  | Object params =>
  let tool_name := default "" (p_name params) in
  let call_id := default (uuid4 env) (p_callId params) in
  let arguments := default [] (p_arguments params) in
  do self <- get ;;
  if _emergency_stopped self then
    raise (ARPError ARPErrorCode.EMERGENCY_STOPPED "Emergency stop active" VNone)
  else if negb (dict_mem tool_name (_tools self)) then
    raise (ARPError ARPErrorCode.TOOL_NOT_FOUND
             ("Tool not found: " +:+ tool_name) VNone)
  else if bool_decide (_active_calls self !! call_id = Some RUNNING) then
    raise (ARPError ARPErrorCode.TOOL_BUSY
             ("Tool call " +:+ call_id +:+ " already running") VNone)
  else
    match dict_get tool_name (_tools self) with
    | None => raise KeyError
    | Some tool_def =>
        do violation <- lift (_check_constraints env self tool_name arguments) ;;
        if violation_truthy violation then
          let detail := default "" violation in
          raise (ARPError ARPErrorCode.SAFETY_VIOLATION
                   ("Safety violation: " +:+ detail)
                   (VDict [("constraint", VStr detail)]))
        else if requires_confirmation (safety tool_def) then
          raise (ARPError ARPErrorCode.SAFETY_VIOLATION
                   ("Tool '" +:+ tool_name +:+ "' requires human confirmation")
                   (VDict [("requiresConfirmation", VBool true)]))
        else
          run modify (set_active_calls (insert call_id RUNNING)) ;;
          run _send_progress call_id (Fin 0) "Starting execution" RUNNING ;;
          let start_time := monotonic_start env in
          match await_handler env tool_name arguments with
          | Returned result =>
              let duration := (monotonic_end env - start_time)%Q in
              run modify (set_active_calls (insert call_id COMPLETED)) ;;
              ret (dump_CallToolResult true
                     {| result_call_id := call_id; result_state := COMPLETED;
                        result := result; error := None;
                        duration := Some (Fin duration) |})
          | Raised e =>
              let duration := (monotonic_end env - start_time)%Q in
              run modify (set_active_calls (insert call_id FAILED)) ;;
              ret (dump_CallToolResult true
                     {| result_call_id := call_id; result_state := FAILED;
                        result := VNone; error := Some e;
                        duration := Some (Fin duration) |})
          | Escaped name => raise (BaseException name)
          end
    end
  end.

Definition _handle_cancel_tool (params : payload) : M value :=
  match params with
  | NotObject => raise AttributeError
  | Object params =>
  let call_id := default "" (p_callId params) in
  do self <- get ;;
  if bool_decide (is_Some (_active_calls self !! call_id)) then
    run modify (set_active_calls (insert call_id CANCELLED)) ;;
    ret (VDict [("callId", VStr call_id); ("state", VStr "cancelled")])
  else ret (VDict [("callId", VStr call_id); ("state", VStr "not_found")])
  end.

Definition _handle_list_context (params : payload) : M value :=
  do self <- get ;;
  let sources :=
    map (dump_ContextSource true) (dict_values (_context_sources self)) in
  ret (VDict [("sources", VList sources)]).

Definition _handle_subscribe_context (params : payload) : M value :=
  match params with
  | NotObject => raise AttributeError
  | Object params =>
  let name := default "" (p_name params) in
  let max_rate := default VNone (p_maxRate params) in
  do self <- get ;;
  match dict_get name (_context_sources self) with
  | None =>
      raise (ARPError ARPErrorCode.CONTEXT_NOT_FOUND
               ("Context source not found: " +:+ name) VNone)
  | Some source =>
      run (if bool_decide (is_Some (_context_tasks self !! name)) then ret tt
           else
             let rate :=
               py_or (py_or max_rate (opt_float (update_rate source)))
                 (VFloat (Fin 1)) in
             let task := length (event_loop self) in
             run modify (set_event_loop (create_task name rate)) ;;
             modify (set_context_tasks (insert name task))) ;;
      ret (VDict [("subscribed", VStr name)])
  end
  end.

Definition _handle_unsubscribe_context (params : payload) : M value :=
  match params with
  | NotObject => raise AttributeError
  | Object params =>
  let name := default "" (p_name params) in
  do self <- get ;;
  run (match _context_tasks self !! name with
       | Some task =>
           run modify (set_event_loop (cancel_task task)) ;;
           modify (set_context_tasks (delete name))
       | None => ret tt
       end) ;;
  ret (VDict [("unsubscribed", VStr name)])
  end.

Definition _handle_list_constraints (params : payload) : M value :=
  do self <- get ;;
  let constraints :=
    map (dump_SafetyConstraint true) (dict_values (_constraints self)) in
  ret (VDict [("constraints", VList constraints)]).

Definition _handle_get_constraint (params : payload) : M value :=
  match params with
  | NotObject => raise AttributeError
  | Object params =>
  let name := default "" (p_name params) in
  do self <- get ;;
  match dict_get name (_constraints self) with
  | None =>
      raise (ARPError ARPErrorCode.SAFETY_VIOLATION
               ("Constraint not found: " +:+ name) VNone)
  | Some constraint => ret (dump_SafetyConstraint true constraint)
  end
  end.

Definition _handle_set_workspace (params : payload) : M value :=
  match params with
  | NotObject => raise AttributeError
  | Object params =>
  ret (VDict [("status", VStr "ok");
              ("workspace", VStr (default "" (p_name params)))])
  end.

(** [_handle_emergency_stop] first reads [params.get("reason", "Unknown")]
    for its log line, which raises when [params] is not an object; only then
    does it latch the flag and rewrite the running entries of
    [_active_calls]. *)
Definition _handle_emergency_stop (params : payload) : M unit :=
  match params with
  | NotObject => raise AttributeError
  | Object params =>
  run modify (set_emergency_stopped true) ;;
  modify (set_active_calls
            (fmap (fun state =>
                     if decide (state = RUNNING) then CANCELLED else state)))
  end.

(** ** Request and notification dispatch *)

Definition handlers (env : Env) : list (string * (payload -> M value)) :=
  [ ("arp.initialize", _handle_initialize);
    ("arp.shutdown", _handle_shutdown);
    ("arp.listTools", _handle_list_tools);
    ("arp.callTool", _handle_call_tool env);
    ("arp.cancelTool", _handle_cancel_tool);
    ("arp.listContext", _handle_list_context);
    ("arp.subscribeContext", _handle_subscribe_context);
    ("arp.unsubscribeContext", _handle_unsubscribe_context);
    ("arp.listConstraints", _handle_list_constraints);
    ("arp.getConstraint", _handle_get_constraint);
    ("arp.setWorkspace", _handle_set_workspace) ].

(** The [try] block of [_handle_request]: the reply built from what the
    handler returned or raised.  Only [ARPError] is caught; any other
    exception leaves [_handle_request]. *)
Definition reply_of (msg_id : value) (ran : ARPServer * outcome value)
  : ARPServer * outcome value :=
  match ran with
  | (self', Ret result) => (self', Ret (result_response msg_id result))
  | (self', Raise (ARPError code message data)) =>
      (self',
       Ret (error_response msg_id
              [("code", VInt code); ("message", VStr message); ("data", data)]))
  | (self', Raise e) => (self', Raise e)
  end.

Definition _handle_request (env : Env) (message : WireMessage) : M value :=
  let method := default "" (wire_method message) in
  let msg_id := default VNone (wire_id message) in
  let params := default (Object empty_params) (wire_params message) in
  match dict_get method (handlers env) with
  | None =>
      ret (error_response msg_id
             [ ("code", VInt (-32601));
               ("message", VStr ("Method not found: " +:+ method)) ])
  | Some handler =>
      do self <- get ;;
      if negb (String.eqb method "arp.initialize") && negb (_initialized self)
      then
        ret (error_response msg_id
               [ ("code", VInt ARPErrorCode.NOT_INITIALIZED);
                 ("message", VStr "Not initialized") ])
      else fun self => reply_of msg_id (handler params self)
  end.

Definition _handle_notification (message : WireMessage) : M unit :=
  let method := default "" (wire_method message) in
  let params := default (Object empty_params) (wire_params message) in
  if String.eqb method "arp.emergencyStop"
  then _handle_emergency_stop params
  else ret tt.

(** ** Reading payloads in statements *)

(** The order of Python numbers: [NaN] is unordered, the infinities lie
    outside the rationals. *)
Inductive num_lt : num -> num -> Prop :=
| lt_fin p q : (p < q)%Q -> num_lt (Fin p) (Fin q)
| lt_ninf_fin q : num_lt NInf (Fin q)
| lt_ninf_pinf : num_lt NInf PInf
| lt_fin_pinf p : num_lt (Fin p) PInf.

(** [v] is a sequence whose element [i] is the number [x]. *)
Definition coordinate (v : value) (i : nat) (x : num) : Prop :=
  exists l e, v = VList l /\ l !! i = Some e /\ as_num e = Some x.

(** [parameters.get(key, [default] * 3)] is a sequence whose first three
    elements are the numbers [b 0], [b 1], [b 2]. *)
Definition bound (key : string) (default : num)
  (parameters : list (string * value)) (b : nat -> num) : Prop :=
  (dict_get key parameters = None /\ forall i, b i = default) \/
  (exists v, dict_get key parameters = Some v /\
             forall i, (i < 3)%nat -> coordinate v i (b i)).

(** Coordinate [i] of the target lies outside the box. *)
Definition outside (t lo hi : nat -> num) (i : nat) : Prop :=
  num_lt (t i) (lo i) \/ num_lt (hi i) (t i).

(** [arguments.target] is a sequence of at least three numbers. *)
Definition numeric_target (arguments : list (string * value)) : Prop :=
  exists target t,
    dict_get "target" arguments = Some target /\
    forall i, (i < 3)%nat -> coordinate target i (t i).

(** The constraint leaves the evaluation untouched: it neither reports a
    violation nor raises. *)
Definition no_effect (env : Env) (constraint : SafetyConstraint)
  (arguments : list (string * value)) : Prop :=
  check_constraint env constraint arguments = Ret None.

(** The call identifier and arguments [_handle_call_tool] works with. *)
Definition call_id_of (env : Env) (params : Params) : string :=
  default (uuid4 env) (p_callId params).

Definition arguments_of (params : Params) : list (string * value) :=
  default [] (p_arguments params).

(** All five admission checks of [_handle_call_tool] pass for [params] in
    state [self], the tool being [tool_def]. *)
Definition admitted (env : Env) (self : ARPServer) (params : Params)
  (tool_def : PhysicalTool) : Prop :=
  _emergency_stopped self = false /\
  dict_get (default "" (p_name params)) (_tools self) = Some tool_def /\
  _active_calls self !! call_id_of env params <> Some RUNNING /\
  _check_constraints env self (default "" (p_name params))
    (arguments_of params) = Ret None /\
  requires_confirmation (safety tool_def) = false.


(** [read key frame]: the member [key] of a dumped model, [None] when the
    member was left out. *)
Definition read (key : string) (frame : value) : value :=
  match frame with
  | VDict d => py_get key d
  | _ => VNone
  end.

(** ** Subscription tasks: [ARPServer._context_stream_loop] *)

(** [float(z)] *)
Definition float_of_int (env : Env) (z : Z) : outcome num :=
  if Z.abs z <? 2 ^ 1024 - 2 ^ 970 then Ret (nearest_float env (inject_Z z))
  else Raise OverflowError.

(** [1.0 / rate]: an [int] is converted to a float first, the quotient of
    two floats is the float nearest to it. *)
Definition reciprocal (env : Env) (rate : value) : outcome num :=
  let inverse (f : num) : outcome num :=
    match f with
    | Fin q =>
        if Qeq_bool q 0 then Raise ZeroDivisionError
        else Ret (nearest_float env (/ q))
    | NInf | PInf => Ret (Fin 0)
    | NaN => Ret NaN
    end in
  match rate with
  | VBool b => inverse (Fin (if b then 1 else 0))
  | VInt z => let? f := float_of_int env z in inverse f
  | VFloat f => inverse f
  | _ => Raise TypeError
  end.

(** [interval = 1.0 / rate if rate > 0 else 1.0] *)
Definition stream_interval (env : Env) (rate : value) : outcome num :=
  let? positive := py_gt rate (VInt 0) in
  if positive then reciprocal env rate else Ret (Fin 1).

(** The [contextUpdate] frame of one pass. *)
Definition context_update (env : Env) (name : string) (data : value)
  : value :=
  VDict
    [ ("jsonrpc", VStr "2.0");
      ("method", VStr "arp.contextUpdate");
      ("params",
        dump_ContextUpdateParams false
          {| update_name := name; timestamp := utc_now env; data := data |})
    ].

(** One pass through the body of [while True], up to [asyncio.sleep]: the
    provider is awaited and its data broadcast, and the coroutine is
    suspended in the [sleep]; or the provider raises and the coroutine
    ends, silently on [asyncio.CancelledError], which the [except] clause
    swallows. *)
Definition stream_pass (env : Env) (name : string) (interval : num)
  : M Coroutine :=
  match await_provider env name with
  | Returned data =>
      run modify
        (set_transport (fun sent => sent ++ [context_update env name data])) ;;
      ret (Suspended interval)
  | Raised message => ret (Finished (Some (Exception message)))
  | Escaped class =>
      if String.eqb class "CancelledError" then ret (Finished None)
      else ret (Finished (Some (BaseException class)))
  end.

(** [_context_stream_loop(name, rate)] from its first line to its first
    [sleep]: the two lines before the [try] can raise, which ends the
    coroutine before anything is broadcast. *)
Definition _context_stream_loop (env : Env) (name : string) (rate : value)
  : M Coroutine :=
  do self <- get ;;
  match dict_get name (_context_sources self) with
  | None => ret (Finished (Some KeyError))
  | Some _ =>
      match stream_interval env rate with
      | Raise e => ret (Finished (Some e))
      | Ret interval => stream_pass env name interval
      end
  end.

(** The event loop gives the task at position [task] its turn: a task that
    has not started runs [_context_stream_loop] up to its first [sleep], a
    suspended one makes another pass, a finished one stays finished.  A task
    whose cancellation was requested ends at its turn without another pass
    ([CancelledError] is thrown into the coroutine, or the coroutine never
    starts). *)
Definition resume (env : Env) (task : nat) : M unit :=
  do self <- get ;;
  match event_loop self !! task with
  | None => ret tt
  | Some t =>
      do state <-
        match coroutines self !! task with
        | Some (Finished raised) => ret (Finished raised)
        | Some (Suspended interval) =>
            if task_cancelled t then ret (Finished None)
            else stream_pass env (task_name t) interval
        | None =>
            if task_cancelled t then ret (Finished None)
            else _context_stream_loop env (task_name t) (task_rate t)
        end ;;
      modify (set_coroutines (insert task state))
  end.

(** A task streams [name] and its cancellation has not been requested. *)
Definition uncancelled (name : string) (t : Task) : Prop :=
  task_name t = name /\ task_cancelled t = false.

Definition one_uncancelled_task (name : string) (self : ARPServer) : Prop :=
  exists i t,
    event_loop self !! i = Some t /\ uncancelled name t /\
    forall j t',
      event_loop self !! j = Some t' -> uncancelled name t' -> j = i.

Definition no_uncancelled_task (name : string) (self : ARPServer) : Prop :=
  forall j t, event_loop self !! j = Some t -> ~ uncancelled name t.

(** The coroutine of the task at position [task] has ended: [task.done()]
    for a task the event loop has run. *)
Definition finished (self : ARPServer) (task : nat) : bool :=
  match coroutines self !! task with
  | Some (Finished _) => true
  | _ => false
  end.

(** The task at position [task] streams [name] and is live: its
    cancellation has not been requested and its coroutine has not ended. *)
Definition live (name : string) (self : ARPServer) (task : nat) : Prop :=
  exists t,
    event_loop self !! task = Some t /\ uncancelled name t /\
    finished self task = false.

Definition one_live_task (name : string) (self : ARPServer) : Prop :=
  exists task,
    live name self task /\ forall task', live name self task' -> task' = task.

Definition no_live_task (name : string) (self : ARPServer) : Prop :=
  forall task, ~ live name self task.




(** Only tasks of the event loop have a coroutine. *)
Definition coroutines_ok (self : ARPServer) : Prop :=
  forall task,
    is_Some (coroutines self !! task) ->
    (task < length (event_loop self))%nat.

(** The subscription table and the event loop agree: every entry of
    [_context_tasks] refers to a task streaming that source whose
    cancellation has not been requested, and every such task is the one its
    source's entry refers to. *)
Definition tasks_ok (self : ARPServer) : Prop :=
  (forall name i,
      _context_tasks self !! name = Some i ->
      exists t, event_loop self !! i = Some t /\ uncancelled name t) /\
  (forall i t,
      event_loop self !! i = Some t -> task_cancelled t = false ->
      _context_tasks self !! task_name t = Some i).

(** ** Sample server and environment

    The fixture of tests/test_server.py: three tools, one context source, a
    workspace bound and a velocity limit. *)

Definition request (id : Z) (method : string) (params : Params) : Message :=
  {| msg_id := Some (VInt id); msg_method := Some method;
     msg_params := Some params |}.

Definition notification (method : string) (params : Params) : Message :=
  {| msg_id := None; msg_method := Some method; msg_params := Some params |}.

Definition call_params (name : string) (call_id : option string)
  (arguments : list (string * value)) : Params :=
  {| p_name := Some name; p_callId := call_id; p_arguments := Some arguments;
     p_maxRate := None; p_reason := None |}.

Definition name_params (name : string) : Params :=
  {| p_name := Some name; p_callId := None; p_arguments := None;
     p_maxRate := None; p_reason := None |}.

Definition call_id_params (call_id : string) : Params :=
  {| p_name := None; p_callId := Some call_id; p_arguments := None;
     p_maxRate := None; p_reason := None |}.

Definition reason_params (reason : string) : Params :=
  {| p_name := None; p_callId := None; p_arguments := None;
     p_maxRate := None; p_reason := Some reason |}.

Definition workspace_limits : SafetyConstraint :=
  {| constraint_name := "workspace_limits";
     constraint_type := WORKSPACE_BOUND;
     enabled := true;
     priority := 100;
     constraint_parameters :=
       [ ("min", VList [VInt (-2); VInt (-2); VInt 0]);
         ("max", VList [VInt 2; VInt 2; VInt 3]) ];
     violation_action := REJECT |}.

Definition speed_limit : SafetyConstraint :=
  {| constraint_name := "speed_limit";
     constraint_type := VELOCITY_LIMIT;
     enabled := true;
     priority := 0;
     constraint_parameters := [("max_linear", VFloat (Fin 1))];
     violation_action := REJECT |}.

Definition fixture_server : ARPServer :=
  add_constraint speed_limit
    (add_constraint workspace_limits
       (context "odometry" "Robot odometry" POSE (Some "world")
          (Some (Fin 10))
          (tool "activate_cutter" "Activate a dangerous tool"
             {| safety_level := CRITICAL; requires_confirmation := true;
                reversible := true; safety_description := "" |}
             [] [] [] None
             (tool "pick_up" "Pick up an object"
                {| safety_level := ELEVATED; requires_confirmation := false;
                   reversible := true; safety_description := "" |}
                [("object_id", VDict [("type", VStr "string")])] [] [] None
                (tool "move_to" "Move the arm to a target position"
                   {| safety_level := NORMAL; requires_confirmation := false;
                      reversible := true; safety_description := "" |}
                   [("target",
                      VDict [("type", VStr "array");
                             ("items", VDict [("type", VStr "number")])])]
                   [] [] (Some (Fin 2))
                   (__init__ "test-robot" "0.1.0" (Some "Test Arm")
                      (Some "manipulator"))))))).

(** The bodies of the fixture's handlers.  [fail_tool] stands for a handler
    that raises. *)
Definition fixture_handlers (name : string) (arguments : list (string * value))
  : HandlerOutcome :=
  if String.eqb name "move_to" then
    Returned (VDict [("reached", py_get "target" arguments)])
  else if String.eqb name "pick_up" then
    Returned (VDict [("picked", py_get "object_id" arguments)])
  else if String.eqb name "activate_cutter" then
    Returned (VDict [("active", VBool true)])
  else Raised "boom".

(** A rendering for the sample runs: it agrees with [repr] on [None],
    booleans, integers, whole and special floats, strings without quotes or
    escapes, and lists of these, which is all the samples print. *)
Fixpoint sample_repr (v : value) : string :=
  match v with
  | VNone => "None"
  | VBool true => "True"
  | VBool false => "False"
  | VInt z => pretty z
  | VFloat NInf => "-inf"
  | VFloat PInf => "inf"
  | VFloat NaN => "nan"
  | VFloat (Fin (Qmake n 1)) => pretty n +:+ ".0"
  | VStr s => "'" +:+ s +:+ "'"
  | VList l =>
      "[" +:+
      (fix items (l : list value) : string :=
         match l with
         | [] => ""
         | [x] => sample_repr x
         | x :: rest => sample_repr x +:+ ", " +:+ items rest
         end) l
      +:+ "]"
  | _ => "?"
  end.

(** The providers of the fixture: [get_odometry] returns the origin. *)
Definition fixture_providers (name : string) : HandlerOutcome :=
  if String.eqb name "odometry" then
    Returned
      (VDict
         [("position", VDict [("x", VInt 0); ("y", VInt 0); ("z", VInt 0)])])
  else Raised "boom".

(** A rounding for the sample runs: it is exact on 1/8, 1/2, 1, 2 and 10,
    which are floats, takes 1/10 to the float nearest to it, and answers
    [NaN] elsewhere, where the samples never ask. *)
Definition sample_float (q : Q) : num :=
  if Qeq_bool q (1 # 10) then
    Fin (3602879701896397 # 36028797018963968)
  else if Qeq_bool q (1 # 8) || Qeq_bool q (1 # 2) || Qeq_bool q 1
          || Qeq_bool q 2 || Qeq_bool q 10
  then Fin q
  else NaN.

Definition fixture_env : Env :=
  {| py_repr := sample_repr;
     uuid4 := "6f1c1b1e-0000-4000-8000-000000000001";
     await_handler := fixture_handlers;
     monotonic_start := 10;
     monotonic_end := 12;
     await_provider := fixture_providers;
     utc_now := "2025-01-01T00:00:00+00:00";
     nearest_float := sample_float |}.

(** The sample environment with tool handlers that are cancelled while they
    run: awaiting one ends in [asyncio.CancelledError], which is not an
    [Exception]. *)
Definition cancelled_env : Env :=
  {| py_repr := sample_repr;
     uuid4 := "6f1c1b1e-0000-4000-8000-000000000001";
     await_handler := fun _ _ => Escaped "CancelledError";
     monotonic_start := 10;
     monotonic_end := 12;
     await_provider := fixture_providers;
     utc_now := "2025-01-01T00:00:00+00:00";
     nearest_float := sample_float |}.

(** ** The rest of the server's surface *)

(** [ARPServer.send_progress], the helper tool handlers call. *)
Definition send_progress (call_id : string) (progress : num)
  (message : string) : M unit :=
  _send_progress call_id progress message RUNNING.

(** [ARPServer.stop], up to stopping the transport itself. *)
Definition stop : M unit :=
  run modify (fun self =>
    set_event_loop
      (fun loop =>
         map_fold (fun _ task loop => cancel_task task loop) loop
           (_context_tasks self))
      self) ;;
  modify (set_context_tasks (fun _ => ∅)).

(** ** transport.py: the server side of a connection *)

Record JSONRPCError : Type := {
  error_code : Z;
  error_message : string;
  error_data : value
}.

Record JSONRPCResponse : Type := {
  response_jsonrpc : string;
  response_id : value;
  response_result : value;
  response_error : option JSONRPCError
}.

Definition dump_JSONRPCError (exclude_none : bool) (e : JSONRPCError)
  : value :=
  model_fields exclude_none
    [ ("code", VInt (error_code e));
      ("message", VStr (error_message e));
      ("data", error_data e) ].

Definition dump_JSONRPCResponse (exclude_none : bool) (r : JSONRPCResponse)
  : value :=
  model_fields exclude_none
    [ ("jsonrpc", VStr (response_jsonrpc r));
      ("id", response_id r);
      ("result", response_result r);
      ("error",
        match response_error r with
        | Some e => dump_JSONRPCError exclude_none e
        | None => VNone
        end) ].

(** A text frame as [json.loads] sees it: not JSON at all, or an object.
    Frames that decode to something other than an object are outside this
    model. *)
Inductive raw_message : Type :=
| Undecodable
| Decoded (message : WireMessage).

(** The reply to a frame that is not JSON. *)
Definition parse_error_response : value :=
  dump_JSONRPCResponse false
    {| response_jsonrpc := "2.0"; response_id := VInt 0;
       response_result := VNone;
       response_error :=
         Some {| error_code := -32700; error_message := "Parse error";
                 error_data := VNone |} |}.

(** The body of the receive loop of [_handle_connection] for one frame: the
    result is the frame sent back on this connection, if any. *)
Definition receive (env : Env) (raw : raw_message) : M (option value) :=
  match raw with
  | Undecodable => ret (Some parse_error_response)
  | Decoded message =>
      match wire_id message with
      | Some _ =>
          do response <- _handle_request env message ;;
          ret (Some response)
      | None =>
          run _handle_notification message ;;
          ret None
      end
  end.

(** [_handle_connection] over the frames a peer sends, each with the world
    it meets: the frames sent back, in order, and the exception that ended
    the loop, if one did. *)
Fixpoint _handle_connection (inputs : list (Env * raw_message))
  (self : ARPServer) : ARPServer * list value * option exn :=
  match inputs with
  | [] => (self, [], None)
  | (env, raw) :: rest =>
      match receive env raw self with
      | (self', Ret sent) =>
          match _handle_connection rest self' with
          | (final, replies, ended) =>
              (final,
               match sent with
               | Some frame => frame :: replies
               | None => replies
               end,
               ended)
          end
      | (self', Raise e) => (self', [], Some e)
      end
  end.

(** ** client.py: the calls of [ARPClient] *)

(** What a call of the client raises.  [ARPClientErrorOf] is an
    [ARPClientError] whose message is not a string; the others are the
    built-in [AttributeError], [KeyError] and [TypeError] and the validation
    error of pydantic. *)
Inductive ClientError : Type :=
| ARPClientError (message : string)
| ARPClientErrorOf (message : value)
| ClientAttributeError
| ClientKeyError
| ClientTypeError
| ClientValidationError.

(** The part of [ARPClient] that its calls touch: the call identifiers
    that have a progress callback registered, and the context sources that
    have an update callback registered. *)
Record ARPClient : Type := {
  client_initialized : bool;
  _progress_callbacks : gset string;
  _context_callbacks : gset string
}.

(** What [call_tool] returns for the reply [response] of the server.
    [validate] stands for the pydantic constructor of [CallToolResult]
    applied to the members of the result; the error member of a rejection is
    validated as [str | None]. *)
Definition call_tool_reply
  (validate : value -> CallToolResult + ClientError)
  (call_id : string) (response : list (string * value))
  : CallToolResult + ClientError :=
  if dict_mem "error" response && truthy (py_get "error" response) then
    match py_get "error" response with
    | VDict error =>
        match py_get_default "message" (VStr "Unknown error") error with
        | VStr text =>
            inl {| result_call_id := call_id; result_state := FAILED;
                   result := VNone; error := Some text; duration := None |}
        | VNone =>
            inl {| result_call_id := call_id; result_state := FAILED;
                   result := VNone; error := None; duration := None |}
        | _ => inr ClientValidationError
        end
    | _ => inr ClientAttributeError
    end
  else validate (py_get_default "result" (VDict []) response).

(** [ARPClient.call_tool], given the identifier [uuid.uuid4()] draws and the
    reply [send_request] delivers for the request sent. *)
Definition call_tool (validate : value -> CallToolResult + ClientError)
  (on_progress : bool) (call_id : string) (response : list (string * value))
  (self : ARPClient) : ARPClient * (CallToolResult + ClientError) :=
  if negb (client_initialized self) then
    (self,
     inr (ARPClientError
            "Client not initialized. Call connect() and initialize() first."))
  else
    let registered :=
      if on_progress then {[call_id]} ∪ _progress_callbacks self
      else _progress_callbacks self in
    ({| client_initialized := client_initialized self;
        _progress_callbacks := registered ∖ {[call_id]};
        _context_callbacks := _context_callbacks self |},
     call_tool_reply validate call_id response).

(** The request [call_tool] sends. *)
Definition call_tool_request (id : Z) (name call_id : string)
  (arguments : list (string * value)) : Message :=
  {| msg_id := Some (VInt id);
     msg_method := Some "arp.callTool";
     msg_params :=
       Some {| p_name := Some name; p_callId := Some call_id;
               p_arguments := Some arguments; p_maxRate := None;
               p_reason := None |} |}.

(** [ARPClient.cancel_tool], given the reply [send_request] delivers. *)
Definition cancel_tool (response : list (string * value)) (self : ARPClient)
  : value + ClientError :=
  if negb (client_initialized self) then
    inr (ARPClientError
           "Client not initialized. Call connect() and initialize() first.")
  else inl (py_get_default "result" (VDict []) response).

(** [ARPClient.subscribe_context], given the reply [send_request] delivers
    for the request sent. *)
Definition subscribe_context (name : string)
  (response : list (string * value)) (self : ARPClient)
  : ARPClient * (unit + ClientError) :=
  if negb (client_initialized self) then
    (self,
     inr (ARPClientError
            "Client not initialized. Call connect() and initialize() first."))
  else
    let registered := {[name]} ∪ _context_callbacks self in
    if dict_mem "error" response && truthy (py_get "error" response) then
      ({| client_initialized := client_initialized self;
          _progress_callbacks := _progress_callbacks self;
          _context_callbacks := registered ∖ {[name]} |},
       inr match py_get "error" response with
           | VDict error =>
               match dict_get "message" error with
               | Some (VStr text) => ARPClientError text
               | Some other => ARPClientErrorOf other
               | None => ClientKeyError
               end
           | _ => ClientTypeError
           end)
    else
      ({| client_initialized := client_initialized self;
          _progress_callbacks := _progress_callbacks self;
          _context_callbacks := registered |},
       inl tt).

(** The request [subscribe_context] sends: [maxRate] is a member only when
    a rate is given. *)
Definition subscribe_context_request (id : Z) (name : string)
  (max_rate : option value) : Message :=
  request id "arp.subscribeContext"
    {| p_name := Some name; p_callId := None; p_arguments := None;
       p_maxRate := max_rate; p_reason := None |}.

(** [ARPClient.unsubscribe_context]: the reply is not looked at. *)
Definition unsubscribe_context (name : string) (self : ARPClient)
  : ARPClient * (unit + ClientError) :=
  if negb (client_initialized self) then
    (self,
     inr (ARPClientError
            "Client not initialized. Call connect() and initialize() first."))
  else
    ({| client_initialized := client_initialized self;
        _progress_callbacks := _progress_callbacks self;
        _context_callbacks := _context_callbacks self ∖ {[name]} |},
     inl tt).

(** ** transport.py: the client side of a connection *)

Inductive TransportError : Type :=
| RuntimeError (message : string)
| UnhashableTypeError.

(** [WebSocketClientTransport]: [_pending_requests] holds the identifiers
    whose future is still awaited, [results] the message each resolved
    future was given, [notified] the notifications handed to a registered
    handler, in order. *)
Record WebSocketClientTransport : Type := {
  _ws : bool;
  _next_id : Z;
  _pending_requests : gset Z;
  results : gmap Z (list (string * value));
  _notification_handlers : gset string;
  notified : list (string * value)
}.

(** [WebSocketClientTransport.__init__] followed by the two registrations of
    [ARPClient.__init__] and by [connect]. *)
Definition connected_transport : WebSocketClientTransport :=
  {| _ws := true; _next_id := 1; _pending_requests := ∅; results := ∅;
     _notification_handlers := {["arp.toolProgress"; "arp.contextUpdate"]};
     notified := [] |}.

(** [send_request] up to the frame it sends; awaiting the future is the
    caller's part. *)
Definition send_request (method : string) (params : Params)
  (self : WebSocketClientTransport)
  : WebSocketClientTransport * (Message + TransportError) :=
  if negb (_ws self) then (self, inr (RuntimeError "Not connected"))
  else
    let request_id := _next_id self in
    ({| _ws := _ws self; _next_id := request_id + 1;
        _pending_requests := {[request_id]} ∪ _pending_requests self;
        results := results self;
        _notification_handlers := _notification_handlers self;
        notified := notified self |},
     inl (request request_id method params)).

Definition send_notification (method : string) (params : Params)
  (self : WebSocketClientTransport) : Message + TransportError :=
  if negb (_ws self) then inr (RuntimeError "Not connected")
  else inl (notification method params).

(** [id in self._pending_requests]: the key of the dictionary that equals
    [id], if any.  The keys are integers; [True] equals 1 and a whole float
    equals its integer, a list or an object cannot be hashed. *)
Definition pending_key (id : value) (pending : gset Z)
  : option Z + TransportError :=
  let found (n : Z) := if decide (n ∈ pending) then Some n else None in
  match id with
  | VList _ | VDict _ => inr UnhashableTypeError
  | VInt n => inl (found n)
  | VBool b => inl (found (if b then 1 else 0))
  | VFloat (Fin q) =>
      inl (if (Qnum q mod Zpos (Qden q) =? 0)
           then found (Qnum q / Zpos (Qden q))
           else None)
  | _ => inl None
  end.

(** The [elif "method" in message] branch of the receive loop. *)
Definition notify (message : list (string * value))
  (self : WebSocketClientTransport)
  : WebSocketClientTransport * option TransportError :=
  match dict_get "method" message with
  | None => (self, None)
  | Some (VList _) | Some (VDict _) => (self, Some UnhashableTypeError)
  | Some (VStr method) =>
      if decide (method ∈ _notification_handlers self) then
        ({| _ws := _ws self; _next_id := _next_id self;
            _pending_requests := _pending_requests self;
            results := results self;
            _notification_handlers := _notification_handlers self;
            notified :=
              notified self ++
              [(method, py_get_default "params" (VDict []) message)] |},
         None)
      else (self, None)
  | Some _ => (self, None)
  end.

(** The body of [_receive_loop] for one frame that decodes to the object
    [message]; a frame that is not JSON is skipped by the loop.  What a
    notification handler does, and whether it raises, is not modelled. *)
Definition client_receive (message : list (string * value))
  (self : WebSocketClientTransport)
  : WebSocketClientTransport * option TransportError :=
  match dict_get "id" message with
  | None => notify message self
  | Some id =>
      match pending_key id (_pending_requests self) with
      | inr e => (self, Some e)
      | inl None => notify message self
      | inl (Some key) =>
          ({| _ws := _ws self; _next_id := _next_id self;
              _pending_requests := _pending_requests self ∖ {[key]};
              results := <[key := message]> (results self);
              _notification_handlers := _notification_handlers self;
              notified := notified self |},
           None)
      end
  end.

(** What happens on a client transport, one step at a time. *)
Inductive client_step : Type :=
| Send (method : string) (params : Params)
| Receive (message : list (string * value)).

Definition client_run (step : client_step) (self : WebSocketClientTransport)
  : WebSocketClientTransport :=
  match step with
  | Send method params => fst (send_request method params self)
  | Receive message => fst (client_receive message self)
  end.

(** The identifiers of the requests sent by the steps, in order. *)
Fixpoint sent_ids (steps : list client_step) (self : WebSocketClientTransport)
  : list Z :=
  match steps with
  | [] => []
  | step :: rest =>
      match step with
      | Send method params =>
          match snd (send_request method params self) with
          | inl {| msg_id := Some (VInt request_id) |} => [request_id]
          | _ => []
          end
      | Receive _ => []
      end ++ sent_ids rest (client_run step self)
  end.

(** Identifiers start at 1, and every pending one was handed out by this
    transport. *)
Definition ids_ok (self : WebSocketClientTransport) : Prop :=
  1 <= _next_id self /\
  forall key, key ∈ _pending_requests self -> 1 <= key < _next_id self.

(** ** Vocabulary of the further properties *)

Definition is_arp_error (e : exn) : bool :=
  match e with ARPError _ _ _ => true | _ => false end.

(** No call record is running. *)
Definition quiescent (self : ARPServer) : Prop :=
  forall call_id, _active_calls self !! call_id <> Some RUNNING.

(** A registry holds each name once, and every descriptor under its own
    name. *)
Definition keyed {A : Type} (name : A -> string) (d : list (string * A))
  : Prop :=
  NoDup (map fst d) /\ Forall (fun entry => name (snd entry) = fst entry) d.

Definition registries_ok (self : ARPServer) : Prop :=
  keyed tool_name (_tools self) /\
  keyed source_name (_context_sources self) /\
  keyed constraint_name (_constraints self).

(** The [toolProgress] frame [_send_progress] broadcasts. *)
Definition progress_frame (call_id : string) (progress : num)
  (message : string) (state : ToolState) : value :=
  VDict
    [ ("jsonrpc", VStr "2.0");
      ("method", VStr "arp.toolProgress");
      ("params",
        VDict
          [ ("callId", VStr call_id);
            ("progress", VFloat progress);
            ("message", VStr message);
            ("state", VStr (ToolState_value state)) ]) ].

(** The server after an admitted call whose handler was left by an exception
    that is not an [Exception]: the record is filed as running and the first
    progress frame has been broadcast. *)
Definition escaped_call (env : Env) (params : Params) (self : ARPServer)
  : ARPServer :=
  set_transport
    (fun sent =>
       sent ++
       [progress_frame (call_id_of env params) (Fin 0) "Starting execution"
          RUNNING])
    (set_active_calls (insert (call_id_of env params) RUNNING) self).

(** The identifier the reply to a frame carries, if the frame gets one. *)
Definition reply_id (raw : raw_message) : option value :=
  match raw with
  | Undecodable => Some (VInt 0)
  | Decoded message => wire_id message
  end.

(** A session on one connection of the sample server: the handshake, a
    call, a frame that is not JSON, a call that leaves the workspace, an
    emergency stop sent with an identifier, a call sent without one, the
    emergency stop proper, and a last call. *)
Definition sample_session : list (Env * raw_message) :=
  map (pair fixture_env)
    [ Decoded (request 1 "arp.initialize" empty_params);
      Decoded
        (request 2 "arp.callTool"
           (call_params "move_to" (Some "c1")
              [("target", VList [VInt 1; VInt 1; VInt 0])]));
      Undecodable;
      Decoded
        (request 3 "arp.callTool"
           (call_params "move_to" (Some "c1")
              [("target", VList [VInt 5; VInt 0; VInt 0])]));
      Decoded (request 4 "arp.emergencyStop" (reason_params "operator"));
      Decoded
        (notification "arp.callTool" (call_params "pick_up" (Some "c2") []));
      Decoded (notification "arp.emergencyStop" (reason_params "operator"));
      Decoded (request 5 "arp.callTool" (call_params "move_to" (Some "c3") []))
    ].

(** A session of subscriptions on one connection of the sample server: the
    handshake, a subscription to the odometry at the source's rate, the same
    again, the end of that subscription, a new one at the rate "fast", and a
    subscription to a source the server does not have. *)
Definition subscription_session : list (Env * raw_message) :=
  map (pair fixture_env)
    [ Decoded (request 1 "arp.initialize" empty_params);
      Decoded (request 2 "arp.subscribeContext" (name_params "odometry"));
      Decoded (request 3 "arp.subscribeContext" (name_params "odometry"));
      Decoded (request 4 "arp.unsubscribeContext" (name_params "odometry"));
      Decoded
        (request 5 "arp.subscribeContext"
           {| p_name := Some "odometry"; p_callId := None;
              p_arguments := None; p_maxRate := Some (VStr "fast");
              p_reason := None |});
      Decoded (request 6 "arp.subscribeContext" (name_params "lidar")) ].

(** The members of a frame, as the peer reads them back from JSON. *)
Definition members (frame : value) : list (string * value) :=
  match frame with
  | VDict d => d
  | _ => []
  end.

(** A client after [connect] and [initialize], no call in flight. *)
Definition sample_client : ARPClient :=
  {| client_initialized := true; _progress_callbacks := ∅;
     _context_callbacks := ∅ |}.

(** What a connection leaves behind: the server after the frames, the
    replies sent on the connection, and the exception that ended it. *)
Definition state_after (inputs : list (Env * raw_message)) (self : ARPServer)
  : ARPServer :=
  fst (fst (_handle_connection inputs self)).

Definition replies_to (inputs : list (Env * raw_message)) (self : ARPServer)
  : list value :=
  snd (fst (_handle_connection inputs self)).

Definition ended_by (inputs : list (Env * raw_message)) (self : ARPServer)
  : option exn :=
  snd (_handle_connection inputs self).

(** The error code of a reply, [None] for a reply that carries a result. *)
Definition error_code_of (frame : value) : value :=
  read "code" (read "error" frame).

(** What the server was set up with: its identity, its capabilities and the
    three registries. *)
Definition same_registration (self self' : ARPServer) : Prop :=
  server_info self' = server_info self /\
  capabilities self' = capabilities self /\
  _tools self' = _tools self /\
  _context_sources self' = _context_sources self /\
  _constraints self' = _constraints self.

(** Two constraints that differ at most in priority and violation action. *)
Definition same_rule (c c' : SafetyConstraint) : Prop :=
  constraint_name c = constraint_name c' /\
  constraint_type c = constraint_type c' /\
  enabled c = enabled c' /\
  constraint_parameters c = constraint_parameters c'.

(** The constraint is enabled and of a type the evaluator has a block
    for. *)
Definition enforced (c : SafetyConstraint) : bool :=
  enabled c &&
  match constraint_type c with
  | WORKSPACE_BOUND | VELOCITY_LIMIT => true
  | _ => false
  end.

(** Subscriptions exist only in an initialised session, and only for
    registered sources. *)
Definition subscriptions_ok (self : ARPServer) : Prop :=
  (_initialized self = false -> _context_tasks self = ∅) /\
  forall name,
    is_Some (_context_tasks self !! name) ->
    is_Some (dict_get name (_context_sources self)).

(** Every task of the event loop has been cancelled. *)
Definition all_cancelled (self : ARPServer) : Prop :=
  forall i t, event_loop self !! i = Some t -> task_cancelled t = true.

(** * Properties *)

(** ** Dictionaries *)

Section odict_facts.
Context {A : Type}.
Implicit Types (d : list (string * A)) (k : string) (v : A).

Lemma dict_get_set_eq d k v : dict_get k (dict_set k v d) = Some v.
Proof.
  induction d as [|[k' v'] d IH]; simpl.
  - by rewrite String.eqb_refl.
  - destruct (String.eqb k k') eqn:E; simpl.
    + by rewrite String.eqb_refl.
    + by rewrite E.
Qed.

Lemma dict_get_set_ne d k k' v :
  k <> k' -> dict_get k' (dict_set k v d) = dict_get k' d.
Proof.
  intros Hne. induction d as [|[k0 v0] d IH]; simpl.
  - destruct (String.eqb k' k) eqn:E; [|done].
    apply String.eqb_eq in E. congruence.
  - destruct (String.eqb k k0) eqn:E; simpl.
    + apply String.eqb_eq in E. subst k0.
      destruct (String.eqb k' k) eqn:E'; [|done].
      apply String.eqb_eq in E'. congruence.
    + by rewrite IH.
Qed.

(** A key that is new to the dictionary goes last. *)
Lemma dict_values_set_fresh d k v :
  dict_get k d = None -> dict_values (dict_set k v d) = dict_values d ++ [v].
Proof.
  unfold dict_values. induction d as [|[k' v'] d IH]; simpl; [done|].
  destruct (String.eqb k k'); [done|]. intros H. simpl. by rewrite IH.
Qed.

Lemma dict_mem_get d k : dict_mem k d = false <-> dict_get k d = None.
Proof. unfold dict_mem. by destruct (dict_get k d). Qed.
End odict_facts.

(** ** Numbers *)

Lemma num_ltb_lt (a b : num) : num_ltb a b = true <-> num_lt a b.
Proof.
  split.
  - destruct a as [|p| |], b as [|q| |]; simpl; try discriminate;
      intros H; constructor.
    apply Qnot_le_lt. intros Hle.
    apply Qle_bool_iff in Hle. rewrite Hle in H. discriminate.
  - intros H. destruct H as [p q Hpq| | |]; simpl; try reflexivity.
    destruct (Qle_bool q p) eqn:E; [|done].
    apply Qle_bool_iff in E. exfalso. by apply (Qlt_not_le p q).
Qed.

Lemma num_ltb_nlt (a b : num) : num_ltb a b = false <-> ~ num_lt a b.
Proof.
  rewrite <- num_ltb_lt. destruct (num_ltb a b); split; try done.
Qed.

Lemma py_lt_numbers (a b : value) (x y : num) :
  as_num a = Some x -> as_num b = Some y -> py_lt a b = Ret (num_ltb x y).
Proof.
  destruct a, b; simpl; try discriminate; intros; simplify_eq; done.
Qed.

Lemma py_gt_numbers (a b : value) (x y : num) :
  as_num a = Some x -> as_num b = Some y -> py_gt a b = Ret (num_ltb y x).
Proof. intros Ha Hb. unfold py_gt. by apply py_lt_numbers. Qed.

Lemma py_getitem_coordinate (v : value) (i : nat) (x : num) :
  coordinate v i x ->
  exists e, py_getitem v i = Ret e /\ as_num e = Some x.
Proof.
  intros (l & e & -> & Hl & He). exists e. simpl. by rewrite Hl.
Qed.

(** ** Constraint evaluator *)

Lemma check_coordinates_numbers (env : Env) (c : SafetyConstraint)
  (target mins maxs : value) (t lo hi : nat -> num) (range : list nat) :
  (forall i, i ∈ range ->
     coordinate target i (t i) /\ coordinate mins i (lo i) /\
     coordinate maxs i (hi i)) ->
  check_coordinates env c target mins maxs range =
  Ret (if existsb (fun i => num_ltb (t i) (lo i) || num_ltb (hi i) (t i)) range
       then Some (workspace_message env target (constraint_name c))
       else None).
Proof.
  induction range as [|i range IH]; intros Hall; [done|].
  destruct (Hall i) as (Ht & Hlo & Hhi); [apply list_elem_of_here|].
  apply py_getitem_coordinate in Ht as (et & Et & Nt).
  apply py_getitem_coordinate in Hlo as (el & El & Nl).
  apply py_getitem_coordinate in Hhi as (eh & Eh & Nh).
  cbn [check_coordinates existsb]. rewrite Et, El. cbn [obind].
  rewrite (py_lt_numbers _ _ _ _ Nt Nl). cbn [obind].
  destruct (num_ltb (t i) (lo i)); [done|].
  rewrite Eh. cbn [obind]. rewrite (py_gt_numbers _ _ _ _ Nt Nh). cbn [obind].
  destruct (num_ltb (hi i) (t i)); [done|].
  cbn [orb]. apply IH. intros j Hj. apply Hall. by apply list_elem_of_further.
Qed.

Lemma bound_coordinates (key : string) (default : num)
  (parameters : list (string * value)) (b : nat -> num) :
  bound key default parameters b ->
  forall i, (i < 3)%nat ->
    coordinate
      (py_get_default key (VList (replicate 3 (VFloat default))) parameters)
      i (b i).
Proof.
  unfold py_get_default. intros [[-> Hb]|(v & -> & Hv)] i Hi; [|by apply Hv].
  exists (replicate 3 (VFloat default)), (VFloat default).
  split; [done|]. split; [|by rewrite Hb].
  apply lookup_replicate_2. lia.
Qed.

Lemma existsb_outside (t lo hi : nat -> num) :
  existsb (fun i => num_ltb (t i) (lo i) || num_ltb (hi i) (t i))
    [0; 1; 2]%nat = true <->
  exists i, (i < 3)%nat /\ outside t lo hi i.
Proof.
  rewrite existsb_exists. unfold outside. split.
  - intros (i & Hi & Ho). exists i. split.
    + simpl in Hi. lia.
    + apply orb_true_iff in Ho. by rewrite <- !num_ltb_lt.
  - intros (i & Hi & Ho). exists i. split.
    + simpl. lia.
    + apply orb_true_iff. by rewrite !num_ltb_lt.
Qed.

Lemma check_each_app (env : Env) (l : list SafetyConstraint)
  (c : SafetyConstraint) (arguments : list (string * value)) :
  check_each env (l ++ [c]) arguments =
  match check_each env l arguments with
  | Ret None => check_constraint env c arguments
  | r => r
  end.
Proof.
  induction l as [|c' l IH]; simpl.
  - by destruct (check_constraint env c arguments) as [[v|]|e].
  - by destruct (check_constraint env c' arguments) as [[v|]|e].
Qed.

Lemma check_each_first (env : Env) (pre post : list SafetyConstraint)
  (c : SafetyConstraint) (arguments : list (string * value)) (v : string) :
  (forall c', c' ∈ pre -> check_constraint env c' arguments = Ret None) ->
  check_constraint env c arguments = Ret (Some v) ->
  check_each env (pre ++ c :: post) arguments = Ret (Some v).
Proof.
  intros Hpre Hc. induction pre as [|c' pre IH]; simpl.
  - by rewrite Hc.
  - rewrite (Hpre c') by apply list_elem_of_here. simpl. apply IH.
    intros c'' Hin. apply Hpre. by apply list_elem_of_further.
Qed.

Lemma check_each_none (env : Env) (l : list SafetyConstraint)
  (arguments : list (string * value)) :
  (forall c, c ∈ l -> check_constraint env c arguments = Ret None) ->
  check_each env l arguments = Ret None.
Proof.
  intros Hl. induction l as [|c l IH]; [done|]. simpl.
  rewrite (Hl c) by apply list_elem_of_here. simpl. apply IH.
  intros c' Hin. apply Hl. by apply list_elem_of_further.
Qed.

Lemma workspace_guard_target (arguments : list (string * value))
  (target : value) (t : nat -> num) :
  dict_get "target" arguments = Some target ->
  (forall i, (i < 3)%nat -> coordinate target i (t i)) ->
  truthy (py_get "target" arguments) && is_list (py_get "target" arguments)
  && (3 <=? py_len (py_get "target" arguments))%nat = true.
Proof.
  intros Hget Hc. unfold py_get. rewrite Hget.
  destruct (Hc 2%nat) as (l & e & -> & Hl & _); [lia|].
  apply lookup_lt_Some in Hl. cbn [truthy is_list py_len].
  destruct l as [|x l]; [simpl in Hl; lia|].
  cbn [andb]. by apply Nat.leb_le.
Qed.

Lemma workspace_guard_short (arguments : list (string * value)) :
  (forall l, dict_get "target" arguments = Some (VList l) ->
             (length l < 3)%nat) ->
  truthy (py_get "target" arguments) && is_list (py_get "target" arguments)
  && (3 <=? py_len (py_get "target" arguments))%nat = false.
Proof.
  intros Hshort. unfold py_get.
  destruct (dict_get "target" arguments) as [v|] eqn:E; [|done].
  destruct v; cbn [truthy is_list py_len]; try by rewrite andb_false_r.
  specialize (Hshort l eq_refl).
  destruct l; [done|]. cbn [andb]. by apply Nat.leb_gt.
Qed.

Lemma workspace_bound_numbers (env : Env) (c : SafetyConstraint)
  (arguments : list (string * value)) (target : value)
  (t lo hi : nat -> num) :
  enabled c = true ->
  constraint_type c = WORKSPACE_BOUND ->
  dict_get "target" arguments = Some target ->
  (forall i, (i < 3)%nat -> coordinate target i (t i)) ->
  bound "min" NInf (constraint_parameters c) lo ->
  bound "max" PInf (constraint_parameters c) hi ->
  check_constraint env c arguments =
  Ret (if existsb (fun i => num_ltb (t i) (lo i) || num_ltb (hi i) (t i))
            [0; 1; 2]%nat
       then Some ("Position " +:+ py_format env target +:+
                  " exceeds workspace boundary " +:+ constraint_name c)
       else None).
Proof.
  intros Hon Htype Hget Htarget Hmin Hmax.
  unfold check_constraint. rewrite Hon. cbn [negb]. rewrite Htype.
  destruct (decide _) as [_|]; [|done].
  unfold check_workspace_bound.
  rewrite (workspace_guard_target _ _ _ Hget Htarget).
  rewrite (check_coordinates_numbers env c _ _ _ t lo hi).
  - unfold py_get. rewrite Hget. cbn [obind].
    destruct (existsb _ _); [done|]. by destruct (decide _).
  - intros i Hi. assert (i < 3)%nat as Hlt.
    { apply list_elem_of_In in Hi. simpl in Hi. lia. }
    unfold py_get. rewrite Hget. split; [by apply Htarget|].
    split; by apply bound_coordinates.
Qed.

(** C6, as amended.  The evaluator examines the constraints in registration
    order and returns the first violation: a constraint registered under a
    new name is consulted only when all earlier ones found nothing, and a
    violation of a constraint is returned when every constraint before it
    had no effect.  For an enabled [workspace_bound] constraint and a target
    that is a sequence of at least three numbers, with [min] and [max]
    defaulting to minus and plus infinity, a violation is reported exactly
    when one of the coordinates 0, 1, 2 lies below [min] or above [max], and
    it reads "Position <target> exceeds workspace boundary <name>".
    Disabled constraints have no effect, and a [workspace_bound] constraint
    has no effect on arguments whose target is absent, is not a list, or has
    fewer than three elements. *)
Theorem check_constraints_contract (env : Env) :
  (forall self c tool_name arguments,
      dict_get (constraint_name c) (_constraints self) = None ->
      _check_constraints env (add_constraint c self) tool_name arguments =
      match _check_constraints env self tool_name arguments with
      | Ret None => check_constraint env c arguments
      | r => r
      end) /\
  (forall self tool_name arguments pre c post v,
      dict_values (_constraints self) = pre ++ c :: post ->
      (forall c', c' ∈ pre -> no_effect env c' arguments) ->
      check_constraint env c arguments = Ret (Some v) ->
      _check_constraints env self tool_name arguments = Ret (Some v)) /\
  (forall c arguments target t lo hi,
      enabled c = true ->
      constraint_type c = WORKSPACE_BOUND ->
      dict_get "target" arguments = Some target ->
      (forall i, (i < 3)%nat -> coordinate target i (t i)) ->
      bound "min" NInf (constraint_parameters c) lo ->
      bound "max" PInf (constraint_parameters c) hi ->
      ((exists i, (i < 3)%nat /\ outside t lo hi i) ->
       check_constraint env c arguments =
       Ret (Some ("Position " +:+ py_format env target +:+
                  " exceeds workspace boundary " +:+ constraint_name c))) /\
      (~ (exists i, (i < 3)%nat /\ outside t lo hi i) ->
       no_effect env c arguments)) /\
  (forall c arguments, enabled c = false -> no_effect env c arguments) /\
  (forall c arguments,
      constraint_type c = WORKSPACE_BOUND ->
      (forall l, dict_get "target" arguments = Some (VList l) ->
                 (length l < 3)%nat) ->
      no_effect env c arguments).
Proof.
  split; [|split; [|split; [|split]]].
  - intros self c tool_name arguments Hfresh.
    unfold _check_constraints, add_constraint. simpl.
    rewrite dict_values_set_fresh by done. apply check_each_app.
  - intros self tool_name arguments pre c post v Hvalues Hpre Hc.
    unfold _check_constraints. rewrite Hvalues.
    by apply check_each_first.
  - intros c arguments target t lo hi Hon Htype Hget Htarget Hmin Hmax.
    unfold no_effect.
    rewrite (workspace_bound_numbers env c arguments target t lo hi)
      by done.
    split; intros Hout.
    + apply existsb_outside in Hout. by rewrite Hout.
    + destruct (existsb _ _) eqn:E; [|done].
      by apply existsb_outside in E.
  - intros c arguments Hoff. unfold no_effect, check_constraint.
    by rewrite Hoff.
  - intros c arguments Htype Hshort. unfold no_effect, check_constraint.
    destruct (enabled c); [|done]. cbn [negb]. rewrite Htype.
    destruct (decide _) as [_|]; [|done].
    unfold check_workspace_bound. rewrite workspace_guard_short by done.
    cbn [obind]. by destruct (decide _).
Qed.

(** C6, the case that fails: a target that is not a sequence of three
    numbers still has an effect.  With the fixture's workspace bound,
    [[5, "a", "b"]] is rejected on its first coordinate, and
    [["a", "b", "c"]] makes the evaluator raise [TypeError]. *)
Lemma check_constraints_non_numeric_target :
  let rejected := [("target", VList [VInt 5; VStr "a"; VStr "b"])] in
  let raising := [("target", VList [VStr "a"; VStr "b"; VStr "c"])] in
  ~ numeric_target rejected /\
  ~ numeric_target raising /\
  check_constraint fixture_env workspace_limits rejected =
    Ret (Some
           "Position [5, 'a', 'b'] exceeds workspace boundary workspace_limits")
  /\ ~ no_effect fixture_env workspace_limits rejected
  /\ check_constraint fixture_env workspace_limits raising = Raise TypeError
  /\ ~ no_effect fixture_env workspace_limits raising.
Proof.
  assert (forall a b c, ~ numeric_target [("target", VList [a; VStr b; c])])
    as Hnot.
  { intros a b c (target & t & Hget & Hc). simpl in Hget. simplify_eq.
    destruct (Hc 1%nat) as (l & e & Hl & He & Hn); [lia|].
    simplify_eq. simpl in He. simplify_eq. }
  repeat split; try apply Hnot; try (vm_compute; reflexivity);
    unfold no_effect; vm_compute; discriminate.
Qed.

Lemma check_constraints_contract_witness :
  let arguments := [("target", VList [VInt 5; VInt 0; VInt 0])] in
  numeric_target arguments /\
  check_constraint fixture_env workspace_limits arguments =
    Ret (Some "Position [5, 0, 0] exceeds workspace boundary workspace_limits").
Proof.
  pose (t := fun i : nat => match i with 0%nat => Fin 5 | _ => Fin 0 end).
  pose (lo := fun i : nat => match i with 2%nat => Fin 0 | _ => Fin (-2) end).
  pose (hi := fun i : nat => match i with 2%nat => Fin 3 | _ => Fin 2 end).
  assert (forall i, (i < 3)%nat ->
            coordinate (VList [VInt 5; VInt 0; VInt 0]) i (t i)) as Ht.
  { intros [|[|[|i]]] Hi; try lia; eexists _, _; repeat split; reflexivity. }
  split.
  - exists (VList [VInt 5; VInt 0; VInt 0]), t. split; [reflexivity|exact Ht].
  - destruct (check_constraints_contract fixture_env)
      as (_ & _ & Hworkspace & _ & _).
    refine (proj1 (Hworkspace workspace_limits
                     [("target", VList [VInt 5; VInt 0; VInt 0])]
                     (VList [VInt 5; VInt 0; VInt 0]) t lo hi eq_refl eq_refl
                     eq_refl Ht _ _) _).
    + right. eexists. split; [reflexivity|].
      intros [|[|[|i]]] Hi; try lia; eexists _, _; repeat split; reflexivity.
    + right. eexists. split; [reflexivity|].
      intros [|[|[|i]]] Hi; try lia; eexists _, _; repeat split; reflexivity.
    + exists 0%nat. split; [lia|]. right. simpl. constructor. reflexivity.
Defined.

(** ** Velocity limit *)

(** The velocity check on the value [velocity or speed] evaluates to: a
    missing value and a value that is not a number have no effect, and a
    number is compared with [max_linear], plus infinity when unset. *)
Lemma velocity_limit_effective (env : Env) (c : SafetyConstraint)
  (arguments : list (string * value)) :
  enabled c = true ->
  constraint_type c = VELOCITY_LIMIT ->
  let velocity :=
    py_or (py_get "velocity" arguments) (py_get "speed" arguments) in
  let max_vel :=
    py_get_default "max_linear" (VFloat PInf) (constraint_parameters c) in
  (as_num velocity = None -> check_constraint env c arguments = Ret None) /\
  (forall x limit,
      as_num velocity = Some x -> as_num max_vel = Some limit ->
      check_constraint env c arguments =
      Ret (if num_ltb limit x
           then Some ("Velocity " +:+ py_format env velocity +:+
                      " exceeds limit " +:+ py_format env max_vel)
           else None)).
Proof.
  intros Hon Htype velocity max_vel.
  assert (check_constraint env c arguments =
          check_velocity_limit env c arguments) as ->.
  { unfold check_constraint. rewrite Hon, Htype. cbn [negb].
    destruct (decide _) as [|_]; [done|]. cbn [obind].
    by destruct (decide _). }
  unfold check_velocity_limit. fold velocity max_vel. unfold is_number.
  split.
  - intros ->. by destruct (negb _).
  - intros x limit Hx Hlimit. rewrite Hx.
    rewrite (py_gt_numbers _ _ _ _ Hx Hlimit). cbn [obind].
    destruct velocity; try discriminate; cbn [is_none negb];
      by destruct (num_ltb limit x).
Qed.

(** C7 at the inputs where the code departs from it.  With
    [max_linear = -1], a velocity of [0] exceeds the limit, yet the
    evaluator reports nothing: [velocity or speed] discards a zero velocity.
    For the same reason a zero [velocity] lets [speed] be checked in its
    place. *)
Lemma velocity_zero_is_dropped :
  let negative_limit :=
    {| constraint_name := "speed_limit"; constraint_type := VELOCITY_LIMIT;
       enabled := true; priority := 0;
       constraint_parameters := [("max_linear", VInt (-1))];
       violation_action := REJECT |} in
  as_num (VInt 0) = Some (Fin 0) /\
  num_lt (Fin (-1)) (Fin 0) /\
  check_constraint fixture_env negative_limit [("velocity", VInt 0)] = Ret None
  /\ check_constraint fixture_env negative_limit [("velocity", VInt 1)] =
       Ret (Some "Velocity 1 exceeds limit -1")
  /\ check_constraint fixture_env speed_limit
       [("velocity", VInt 0); ("speed", VInt 5)] =
       Ret (Some "Velocity 5 exceeds limit 1.0").
Proof.
  repeat split; try (vm_compute; reflexivity).
  constructor. reflexivity.
Qed.

(** ** Request dispatch *)

Ltac monad := unfold bind, get, ret, raise, modify, lift; cbn beta iota.

(** A [Message] on the wire: its members, and its [params] with the default
    of [message.get("params", {})]. *)
Lemma params_on_wire (params : option Params) :
  default (Object empty_params) (Object <$> params) =
  Object (default empty_params params).
Proof. by destruct params. Qed.

Ltac wire :=
  cbn [on_wire wire_id wire_method wire_params];
  rewrite ?params_on_wire.


Lemma request_dispatch (env : Env) (message : Message) (self : ARPServer)
  (method : string) (handler : payload -> M value) :
  _initialized self = true ->
  msg_method message = Some method ->
  dict_get method (handlers env) = Some handler ->
  _handle_request env message self =
  reply_of (default VNone (msg_id message))
    (handler (default empty_params (msg_params message)) self).
Proof.
  intros Hinit Hmethod Hhandler. unfold _handle_request. wire. rewrite Hmethod.
  cbn [default from_option id]. rewrite Hhandler. monad.
  rewrite Hinit, andb_false_r. unfold reply_of.
  by destruct (handler _ self) as [self' [result|[]]].
Qed.




(** ** Emergency stop *)

Lemma handlers_call_tool (env : Env) :
  dict_get "arp.callTool" (handlers env) = Some (_handle_call_tool env).
Proof. reflexivity. Qed.

(** What [params.get] does to the handlers when [params] is not an object:
    each handler that reads it raises before anything else happens. *)
Lemma handlers_not_object (env : Env) (self : ARPServer) :
  _handle_call_tool env NotObject self = (self, Raise AttributeError) /\
  _handle_cancel_tool NotObject self = (self, Raise AttributeError) /\
  _handle_subscribe_context NotObject self = (self, Raise AttributeError) /\
  _handle_unsubscribe_context NotObject self = (self, Raise AttributeError) /\
  _handle_get_constraint NotObject self = (self, Raise AttributeError) /\
  _handle_set_workspace NotObject self = (self, Raise AttributeError) /\
  _handle_emergency_stop NotObject self = (self, Raise AttributeError).
Proof. by repeat split. Qed.

Lemma call_tool_when_stopped (env : Env) (params : Params) (self : ARPServer) :
  _emergency_stopped self = true ->
  _handle_call_tool env params self =
  (self, Raise (ARPError (-40007) "Emergency stop active" VNone)).
Proof. intros Hstop. unfold _handle_call_tool. monad. by rewrite Hstop. Qed.

Lemma emergency_stop_lookup (params : Params) (self : ARPServer)
  (call_id : string) :
  _active_calls (fst (_handle_emergency_stop params self)) !! call_id =
  match _active_calls self !! call_id with
  | Some RUNNING => Some CANCELLED
  | other => other
  end.
Proof.
  unfold _handle_emergency_stop. monad. cbn [fst set_active_calls _active_calls
    set_emergency_stopped].
  rewrite lookup_fmap. destruct (_active_calls self !! call_id) as [[]|]; done.
Qed.

(** C1, as amended.  In every initialized session state whose emergency-stop
    flag is set, every [arp.callTool] request whose params is absent or an
    object is answered with error -40007 and leaves the server as it was, so
    no call record is created or changed.  The [arp.emergencyStop]
    notification whose params is absent or an object sets the flag and moves
    exactly the running calls to cancelled: every other record, and every
    absent one, stays as it is.  When params is of another kind ([null], an
    array, a string, a number), both handlers raise [AttributeError] at
    their first [params.get]: the notification then sets no flag and cancels
    no call, the request gets no reply, and the server stays as it was. *)
Theorem emergency_stop_latch (env : Env) :
  (forall self message,
      _initialized self = true ->
      _emergency_stopped self = true ->
      msg_method message = Some "arp.callTool" ->
      _handle_request env message self =
      (self,
       Ret (error_response (default VNone (msg_id message))
              [ ("code", VInt (-40007));
                ("message", VStr "Emergency stop active");
                ("data", VNone) ]))) /\
  (forall self message,
      msg_method message = Some "arp.emergencyStop" ->
      let self' := fst (_handle_notification message self) in
      snd (_handle_notification message self) = Ret tt /\
      _emergency_stopped self' = true /\
      forall call_id,
        _active_calls self' !! call_id =
        match _active_calls self !! call_id with
        | Some RUNNING => Some CANCELLED
        | other => other
        end) /\
  (forall self message,
      wire_params message = Some NotObject ->
      (wire_method message = Some "arp.emergencyStop" ->
       _handle_notification message self = (self, Raise AttributeError)) /\
      (wire_method message = Some "arp.callTool" ->
       _initialized self = true ->
       _handle_request env message self = (self, Raise AttributeError))) /\
  (forall self message,
      _initialized self = true ->
      _emergency_stopped self = true ->
      msg_method message = Some "arp.callTool" ->
      exists reply,
        snd (_handle_request env message self) = Ret reply /\
        read "jsonrpc" reply = VStr "2.0" /\
        read "id" reply = default VNone (msg_id message) /\
        read "code" (read "error" reply) = VInt (-40007) /\
        read "message" (read "error" reply) = VStr "Emergency stop active" /\
        dict_get "result" (members reply) = None /\
        _active_calls (fst (_handle_request env message self)) =
        _active_calls self).
Proof.
  assert (forall self (message : Message),
             _initialized self = true ->
             _emergency_stopped self = true ->
             msg_method message = Some "arp.callTool" ->
             _handle_request env message self =
             (self,
              Ret (error_response (default VNone (msg_id message))
                     [ ("code", VInt (-40007));
                       ("message", VStr "Emergency stop active");
                       ("data", VNone) ]))) as Hstopped.
  { intros self message Hinit Hstop Hmethod. unfold _handle_request. wire.
    rewrite Hmethod. cbn [default from_option id].
    rewrite handlers_call_tool. monad. rewrite Hinit. cbn [negb andb].
    rewrite andb_false_r. by rewrite call_tool_when_stopped. }
  split; [exact Hstopped|]. split; [|split].
  - intros self message Hmethod. unfold _handle_notification. wire.
    rewrite Hmethod. cbn [default from_option id].
    rewrite String.eqb_refl. split; [reflexivity|]. split; [reflexivity|].
    apply emergency_stop_lookup.
  - intros self message Hparams. split.
    + intros Hmethod. unfold _handle_notification.
      by rewrite Hmethod, Hparams.
    + intros Hmethod Hinit. unfold _handle_request.
      rewrite Hmethod, Hparams. cbn [default from_option id].
      rewrite handlers_call_tool. monad. by rewrite Hinit.
  - intros self message Hinit Hstop Hmethod.
    rewrite (Hstopped self message Hinit Hstop Hmethod).
    eexists. split; [reflexivity|]. by repeat split.
Qed.

(** C1, a second case that fails: an [arp.emergencyStop] notification whose
    params is [null] stops nothing.  The handler raises at
    [params.get("reason", "Unknown")], before the flag is set: the running
    call stays running and the next [arp.callTool] is admitted. *)
Lemma emergency_stop_null_params :
  let ready :=
    fst (_handle_request fixture_env (request 1 "arp.initialize" empty_params)
           fixture_server) in
  let busy := set_active_calls (insert "c1" RUNNING) ready in
  let stop :=
    {| wire_id := None; wire_method := Some "arp.emergencyStop";
       wire_params := Some NotObject |} in
  let call :=
    request 2 "arp.callTool"
      (call_params "move_to" (Some "c2")
         [("target", VList [VInt 1; VInt 1; VInt 0])]) in
  _handle_notification stop busy = (busy, Raise AttributeError) /\
  _emergency_stopped (fst (_handle_notification stop busy)) = false /\
  _active_calls (fst (_handle_notification stop busy)) !! "c1" =
    Some RUNNING /\
  read "state"
    (read "result"
       match
         snd (_handle_request fixture_env call
                (fst (_handle_notification stop busy)))
       with
       | Ret response => response
       | Raise _ => VNone
       end) = VStr "completed".
Proof.
  intros ready busy stop call.
  assert (_handle_notification stop busy = (busy, Raise AttributeError))
    as Hrun by reflexivity.
  rewrite Hrun. cbn [fst]. split; [reflexivity|]. split; [reflexivity|].
  split; [apply lookup_insert_eq|]. vm_compute. reflexivity.
Qed.

(** C1, the case that fails: an emergency stop received before
    [arp.initialize] sets the flag, and [arp.callTool] is then answered with
    -40009, not -40007. *)
Lemma call_tool_stopped_before_initialize :
  let stopped :=
    fst (_handle_notification
           (notification "arp.emergencyStop" (reason_params "operator"))
           fixture_server) in
  let message :=
    request 1 "arp.callTool"
      (call_params "move_to" (Some "c1")
         [("target", VList [VInt 0; VInt 0; VInt 0])]) in
  _emergency_stopped stopped = true /\
  _handle_request fixture_env message stopped =
  (stopped,
   Ret (error_response (VInt 1)
          [("code", VInt (-40009)); ("message", VStr "Not initialized")])) /\
  _handle_request fixture_env message stopped <>
  (stopped,
   Ret (error_response (VInt 1)
          [ ("code", VInt (-40007));
            ("message", VStr "Emergency stop active");
            ("data", VNone) ])).
Proof. repeat split. vm_compute. discriminate. Qed.

Lemma emergency_stop_latch_witness :
  let ready :=
    fst (_handle_request fixture_env (request 1 "arp.initialize" empty_params)
           fixture_server) in
  let stopped :=
    fst (_handle_notification
           (notification "arp.emergencyStop" (reason_params "operator")) ready)
  in
  let message :=
    request 2 "arp.callTool"
      (call_params "move_to" (Some "c1")
         [("target", VList [VInt 0; VInt 0; VInt 0])]) in
  _initialized stopped = true /\
  _emergency_stopped stopped = true /\
  _handle_request fixture_env message stopped =
  (stopped,
   Ret (error_response (VInt 2)
          [ ("code", VInt (-40007));
            ("message", VStr "Emergency stop active");
            ("data", VNone) ])).
Proof.
  split; [reflexivity|]. split; [reflexivity|].
  apply (proj1 (emergency_stop_latch fixture_env)); reflexivity.
Defined.

(** ** Constraint lookup *)

(** In a registry whose descriptors sit under their own names, the
    descriptor found under a name bears that name. *)
Lemma dict_get_keyed {A : Type} (name : A -> string) (d : list (string * A))
  (k : string) (v : A) :
  Forall (fun entry => name (snd entry) = fst entry) d ->
  dict_get k d = Some v -> name v = k.
Proof.
  induction 1 as [|[k' v'] d Hv Hd IH]; simpl; [done|].
  destruct (String.eqb k k') eqn:E; [|done].
  apply String.eqb_eq in E. intros [= <-]. by subst.
Qed.

(** C10.  [arp.getConstraint] for a name that is not in the constraint
    registry raises an error whose code is SAFETY_VIOLATION, -40001, the code
    of safety rejections, with message "Constraint not found: <name>", and
    the dispatcher replies with that JSON-RPC error: the reply has an
    [error] member with that code and message and no [result] member.  For
    a registered name the handler returns the descriptor of that constraint,
    whose members [name], [type], [enabled], [priority], [parameters] and
    [violationAction] are those of the registered constraint, the name
    being the one asked for when the registry is keyed by name; the reply
    carries the descriptor as its [result] and has no [error] member.  A
    constraint just added is found under its name.  The dispatcher runs
    this handler for every [arp.getConstraint] request of an initialized
    session. *)
Theorem get_constraint_reply (self : ARPServer) (params : Params)
  (id : value) :
  let name := default "" (p_name params) in
  ARPErrorCode.SAFETY_VIOLATION = -40001 /\
  (dict_get name (_constraints self) = None ->
   _handle_get_constraint params self =
     (self,
      Raise (ARPError ARPErrorCode.SAFETY_VIOLATION
               ("Constraint not found: " +:+ name) VNone)) /\
   reply_of id (_handle_get_constraint params self) =
     (self,
      Ret (error_response id
             [ ("code", VInt (-40001));
               ("message", VStr ("Constraint not found: " +:+ name));
               ("data", VNone) ]))) /\
  (forall constraint,
      dict_get name (_constraints self) = Some constraint ->
      _handle_get_constraint params self =
        (self, Ret (dump_SafetyConstraint true constraint)) /\
      reply_of id (_handle_get_constraint params self) =
        (self,
         Ret (result_response id (dump_SafetyConstraint true constraint))))
  /\
  (dict_get name (_constraints self) = None ->
   exists reply,
     snd (reply_of id (_handle_get_constraint params self)) = Ret reply /\
     read "jsonrpc" reply = VStr "2.0" /\
     read "id" reply = id /\
     read "code" (read "error" reply) = VInt (-40001) /\
     read "message" (read "error" reply) =
       VStr ("Constraint not found: " +:+ name) /\
     dict_get "result" (members reply) = None) /\
  (forall constraint,
      dict_get name (_constraints self) = Some constraint ->
      exists reply descriptor,
        snd (_handle_get_constraint params self) = Ret descriptor /\
        snd (reply_of id (_handle_get_constraint params self)) = Ret reply /\
        read "jsonrpc" reply = VStr "2.0" /\
        read "id" reply = id /\
        read "result" reply = descriptor /\
        dict_get "error" (members reply) = None /\
        read "name" descriptor = VStr (constraint_name constraint) /\
        read "type" descriptor =
          VStr (ConstraintType_value (constraint_type constraint)) /\
        read "enabled" descriptor = VBool (enabled constraint) /\
        read "priority" descriptor = VInt (priority constraint) /\
        read "parameters" descriptor =
          VDict (constraint_parameters constraint) /\
        read "violationAction" descriptor =
          VStr (ViolationAction_value (violation_action constraint)) /\
        map fst (members descriptor) =
          ["name"; "type"; "enabled"; "priority"; "parameters";
           "violationAction"] /\
        (keyed constraint_name (_constraints self) ->
         read "name" descriptor = VStr name)) /\
  (forall constraint,
      constraint_name constraint = name ->
      _handle_get_constraint params (add_constraint constraint self) =
        (add_constraint constraint self,
         Ret (dump_SafetyConstraint true constraint))) /\
  (forall env message state,
      _initialized state = true ->
      msg_method message = Some "arp.getConstraint" ->
      _handle_request env message state =
      reply_of (default VNone (msg_id message))
        (_handle_get_constraint (default empty_params (msg_params message))
           state)).
Proof.
  intros name.
  assert (forall state,
            _handle_get_constraint params state =
            match dict_get name (_constraints state) with
            | None =>
                (state,
                 Raise (ARPError (-40001)
                          ("Constraint not found: " +:+ name) VNone))
            | Some constraint =>
                (state, Ret (dump_SafetyConstraint true constraint))
            end) as Hrun.
  { intros state. unfold _handle_get_constraint. monad. fold name.
    by destruct (dict_get name (_constraints state)). }
  split; [reflexivity|]. split; [|split; [|split; [|split; [|split]]]].
  - intros Hnone. rewrite Hrun, Hnone. by split.
  - intros constraint Hsome. rewrite Hrun, Hsome. by split.
  - intros Hnone. rewrite Hrun, Hnone. eexists. split; [reflexivity|].
    by repeat split.
  - intros constraint Hsome. rewrite Hrun, Hsome.
    exists (result_response id (dump_SafetyConstraint true constraint)),
      (dump_SafetyConstraint true constraint).
    repeat (split; [reflexivity|]).
    intros [_ Hkeys]. cbn. f_equal. by eapply dict_get_keyed.
  - intros constraint Hname. rewrite Hrun.
    unfold add_constraint. cbn [_constraints set_constraints].
    by rewrite Hname, dict_get_set_eq.
  - intros env message state Hinit Hmethod.
    by apply (request_dispatch env message state "arp.getConstraint").
Qed.

Lemma get_constraint_reply_witness :
  let ready :=
    fst (_handle_request fixture_env (request 1 "arp.initialize" empty_params)
           fixture_server) in
  let message :=
    request 2 "arp.getConstraint" (name_params "no_such_constraint") in
  dict_get "no_such_constraint" (_constraints ready) = None /\
  _initialized ready = true /\
  _handle_request fixture_env message ready =
  (ready,
   Ret (error_response (VInt 2)
          [ ("code", VInt (-40001));
            ("message", VStr "Constraint not found: no_such_constraint");
            ("data", VNone) ])).
Proof.
  intros ready message. split; [reflexivity|]. split; [reflexivity|].
  destruct (get_constraint_reply ready (name_params "no_such_constraint")
              (VInt 2)) as (_ & Habsent & _ & _ & _ & _ & Hdispatch).
  rewrite (Hdispatch fixture_env message ready eq_refl eq_refl).
  exact (proj2 (Habsent eq_refl)).
Defined.

(** ** Tool invocation *)

(** Every violation the evaluator returns is a non-empty string, so
    [if violation:] is taken exactly when a violation was found. *)
Lemma check_coordinates_truthy (env : Env) (c : SafetyConstraint)
  (target mins maxs : value) (range : list nat) (s : string) :
  check_coordinates env c target mins maxs range = Ret (Some s) ->
  violation_truthy (Some s) = true.
Proof.
  induction range as [|i range IH]; simpl; [done|].
  destruct (py_getitem target i) as [x|]; simpl; [|done].
  destruct (py_getitem mins i) as [lo|]; simpl; [|done].
  destruct (py_lt x lo) as [[]|]; simpl; [by intros [= <-]| |done].
  destruct (py_getitem maxs i) as [hi|]; simpl; [|done].
  destruct (py_gt x hi) as [[]|]; simpl; [by intros [= <-]| |done].
  exact IH.
Qed.

Lemma check_constraint_truthy (env : Env) (c : SafetyConstraint)
  (arguments : list (string * value)) (s : string) :
  check_constraint env c arguments = Ret (Some s) ->
  violation_truthy (Some s) = true.
Proof.
  unfold check_constraint. destruct (enabled c); simpl; [|done].
  assert (forall s', check_velocity_limit env c arguments = Ret (Some s') ->
                     violation_truthy (Some s') = true) as Hvel.
  { intros s'. unfold check_velocity_limit.
    destruct (negb _); [|done]. destruct (is_number _); [|done].
    destruct (py_gt _ _) as [[]|]; simpl; [by intros [= <-]|done|done]. }
  destruct (decide (constraint_type c = WORKSPACE_BOUND)) as [Hw|Hw].
  - unfold check_workspace_bound. destruct (_ && _).
    + match goal with
      | |- context [check_coordinates ?e ?k ?t ?lo ?hi ?r] =>
          destruct (check_coordinates e k t lo hi r) as [[v|]|] eqn:E
      end; cbn [obind].
      * intros [= <-]. by eapply check_coordinates_truthy.
      * destruct (decide _); [apply Hvel|done].
      * done.
    + cbn [obind]. destruct (decide _); [apply Hvel|done].
  - cbn [obind]. destruct (decide _); [apply Hvel|done].
Qed.

Lemma check_constraints_truthy (env : Env) (self : ARPServer)
  (tool_name : string) (arguments : list (string * value)) (s : string) :
  _check_constraints env self tool_name arguments = Ret (Some s) ->
  violation_truthy (Some s) = true.
Proof.
  unfold _check_constraints.
  induction (dict_values (_constraints self)) as [|c l IH]; simpl; [done|].
  destruct (check_constraint env c arguments) as [[v|]|] eqn:E; simpl.
  - intros [= <-]. by eapply check_constraint_truthy.
  - exact IH.
  - done.
Qed.

(** What [_handle_call_tool] does once the emergency stop, the registry and
    the busy check have let the call through. *)
Lemma call_tool_checked (env : Env) (params : Params) (self : ARPServer)
  (tool_def : PhysicalTool) :
  _emergency_stopped self = false ->
  dict_get (default "" (p_name params)) (_tools self) = Some tool_def ->
  _active_calls self !! call_id_of env params <> Some RUNNING ->
  _handle_call_tool env params self =
  (do violation <-
     lift (_check_constraints env self (default "" (p_name params))
             (arguments_of params)) ;;
   if violation_truthy violation then
     raise (ARPError (-40001)
              ("Safety violation: " +:+ default "" violation)
              (VDict [("constraint", VStr (default "" violation))]))
   else if requires_confirmation (safety tool_def) then
     raise (ARPError (-40001)
              ("Tool '" +:+ default "" (p_name params) +:+
               "' requires human confirmation")
              (VDict [("requiresConfirmation", VBool true)]))
   else
     run modify (set_active_calls (insert (call_id_of env params) RUNNING)) ;;
     run _send_progress (call_id_of env params) (Fin 0) "Starting execution"
           RUNNING ;;
     match
       await_handler env (default "" (p_name params)) (arguments_of params)
     with
     | Returned result =>
         run modify
               (set_active_calls (insert (call_id_of env params) COMPLETED)) ;;
         ret (dump_CallToolResult true
                {| result_call_id := call_id_of env params;
                   result_state := COMPLETED; result := result; error := None;
                   duration :=
                     Some (Fin (monotonic_end env - monotonic_start env)) |})
     | Raised e =>
         run modify (set_active_calls (insert (call_id_of env params) FAILED)) ;;
         ret (dump_CallToolResult true
                {| result_call_id := call_id_of env params;
                   result_state := FAILED; result := VNone; error := Some e;
                   duration :=
                     Some (Fin (monotonic_end env - monotonic_start env)) |})
     | Escaped name => raise (BaseException name)
     end) self.
Proof.
  intros Hstop Htool Hbusy. unfold _handle_call_tool at 1.
  unfold bind at 1, get at 1. cbn beta iota. rewrite Hstop.
  unfold dict_mem. rewrite Htool. cbn [negb].
  fold (call_id_of env params). rewrite bool_decide_eq_false_2 by done.
  reflexivity.
Qed.

Lemma request_call_tool (env : Env) (message : Message) (self : ARPServer) :
  _initialized self = true ->
  msg_method message = Some "arp.callTool" ->
  _handle_request env message self =
  match
    _handle_call_tool env (default empty_params (msg_params message)) self
  with
  | (self', Ret result) =>
      (self', Ret (result_response (default VNone (msg_id message)) result))
  | (self', Raise (ARPError code text data)) =>
      (self',
       Ret (error_response (default VNone (msg_id message))
              [("code", VInt code); ("message", VStr text); ("data", data)]))
  | (self', Raise e) => (self', Raise e)
  end.
Proof.
  intros Hinit Hmethod. unfold _handle_request. wire. rewrite Hmethod.
  cbn [default from_option id]. rewrite handlers_call_tool.
  monad. rewrite Hinit. by rewrite andb_false_r.
Qed.



Lemma read_call_result (r : CallToolResult) :
  let frame := dump_CallToolResult true r in
  read "callId" frame = VStr (result_call_id r) /\
  read "state" frame = VStr (ToolState_value (result_state r)) /\
  read "result" frame = result r /\
  read "error" frame = opt_str (error r) /\
  read "duration" frame = opt_float (duration r).
Proof.
  destruct r as [call_id state res err dur].
  destruct res, err, dur; repeat split; reflexivity.
Qed.

(** C3, as amended.  When all admission checks pass (params being an
    object whose [callId] is absent or a string), the reply to
    [arp.callTool] depends on how awaiting the handler ends.  If the handler
    returns a value, the reply is a JSON-RPC result (members [jsonrpc], [id]
    and [result], no [error]) whose result carries state completed, the
    admitted call identifier, that value and a duration, and the call record
    is completed.  If the handler raises an [Exception], the reply is still
    a JSON-RPC result, whose result carries state failed, the admitted call
    identifier, the exception's message as error and a duration, and the
    call record is failed.  If the handler is left by an exception that is
    not an [Exception], there is no reply: that exception leaves
    [_handle_request], and the call record stays running. *)
Theorem call_tool_outcome (env : Env) (self : ARPServer) (message : Message)
  (tool_def : PhysicalTool) :
  _initialized self = true ->
  msg_method message = Some "arp.callTool" ->
  let params := default empty_params (msg_params message) in
  admitted env self params tool_def ->
  let call_id := call_id_of env params in
  let elapsed := Fin (monotonic_end env - monotonic_start env) in
  let self' := fst (_handle_request env message self) in
  let reply := snd (_handle_request env message self) in
  let is_result (frame : value) : Prop :=
    exists response,
      reply = Ret response /\
      read "jsonrpc" response = VStr "2.0" /\
      read "id" response = default VNone (msg_id message) /\
      read "result" response = frame /\
      dict_get "error" (members response) = None /\
      map fst (members response) = ["jsonrpc"; "id"; "result"] in
  match
    await_handler env (default "" (p_name params)) (arguments_of params)
  with
  | Returned returned =>
      exists frame,
        is_result frame /\
        frame =
          dump_CallToolResult true
            {| result_call_id := call_id; result_state := COMPLETED;
               result := returned; error := None; duration := Some elapsed |}
        /\ read "callId" frame = VStr call_id
        /\ read "state" frame = VStr "completed"
        /\ read "result" frame = returned
        /\ read "error" frame = VNone
        /\ read "duration" frame = VFloat elapsed
        /\ _active_calls self' !! call_id = Some COMPLETED
  | Raised raised =>
      exists frame,
        is_result frame /\
        frame =
          dump_CallToolResult true
            {| result_call_id := call_id; result_state := FAILED;
               result := VNone; error := Some raised;
               duration := Some elapsed |}
        /\ read "callId" frame = VStr call_id
        /\ read "state" frame = VStr "failed"
        /\ read "error" frame = VStr raised
        /\ read "duration" frame = VFloat elapsed
        /\ _active_calls self' !! call_id = Some FAILED
  | Escaped name =>
      reply = Raise (BaseException name) /\
      _active_calls self' !! call_id = Some RUNNING
  end.
Proof.
  intros Hinit Hmethod params (Hstop & Htool & Hbusy & Hcheck & Hconfirm)
    call_id elapsed self' reply is_result.
  pose proof (request_call_tool env message self Hinit Hmethod) as Hreq.
  fold params in Hreq.
  rewrite (call_tool_checked env params self tool_def) in Hreq by done.
  unfold bind at 1, lift at 1 in Hreq. rewrite Hcheck in Hreq.
  cbn [violation_truthy] in Hreq. rewrite Hconfirm in Hreq.
  subst self' reply is_result.
  destruct (await_handler env (default "" (p_name params))
              (arguments_of params)) as [returned|raised|name];
    unfold bind, modify, ret, raise, _send_progress in Hreq;
    cbn beta iota in Hreq; rewrite Hreq; cbn [fst snd].
  - eexists. split.
    { eexists. split; [reflexivity|]. by repeat split. }
    split; [reflexivity|].
    pose proof (read_call_result
                  {| result_call_id := call_id; result_state := COMPLETED;
                     result := returned; error := None;
                     duration := Some elapsed |}) as (Hid & Hst & Hres & Herr & Hdur).
    repeat (split; [assumption|]).
    cbn [_active_calls set_active_calls]. apply lookup_insert_eq.
  - eexists. split.
    { eexists. split; [reflexivity|]. by repeat split. }
    split; [reflexivity|].
    pose proof (read_call_result
                  {| result_call_id := call_id; result_state := FAILED;
                     result := VNone; error := Some raised;
                     duration := Some elapsed |}) as (Hid & Hst & Hres & Herr & Hdur).
    split; [assumption|]. split; [assumption|]. split; [assumption|].
    split; [assumption|].
    cbn [_active_calls set_active_calls]. apply lookup_insert_eq.
  - split; [reflexivity|].
    cbn [_active_calls set_active_calls set_transport]. apply lookup_insert_eq.
Qed.

(** C3, the case that fails: a handler that is cancelled while it runs is
    left by [asyncio.CancelledError], which [except Exception] does not
    catch.  The call was admitted, yet the request gets no reply at all,
    neither a result nor an error, and the call record is left running. *)
Lemma call_tool_handler_cancelled :
  let ready :=
    fst (_handle_request fixture_env (request 1 "arp.initialize" empty_params)
           fixture_server) in
  let params :=
    call_params "move_to" (Some "c1")
      [("target", VList [VInt 1; VInt 1; VInt 0])] in
  let ran := _handle_request cancelled_env (request 2 "arp.callTool" params)
               ready in
  _initialized ready = true /\
  (exists tool_def, admitted cancelled_env ready params tool_def) /\
  await_handler cancelled_env "move_to" (arguments_of params) =
    Escaped "CancelledError" /\
  snd ran = Raise (BaseException "CancelledError") /\
  (forall response, snd ran <> Ret response) /\
  _active_calls (fst ran) !! "c1" = Some RUNNING /\
  _active_calls (fst ran) !! "c1" <> Some FAILED.
Proof.
  intros ready params ran.
  assert (snd ran = Raise (BaseException "CancelledError")) as Hran
    by reflexivity.
  assert (_active_calls (fst ran) !! "c1" = Some RUNNING) as Hcall
    by (vm_compute; reflexivity).
  split; [reflexivity|]. split.
  { eexists. repeat split; try reflexivity. vm_compute. discriminate. }
  split; [reflexivity|]. split; [exact Hran|]. split.
  { intros response. by rewrite Hran. }
  split; [exact Hcall|]. by rewrite Hcall.
Qed.

Lemma call_tool_outcome_witness :
  let ready :=
    fst (_handle_request fixture_env (request 1 "arp.initialize" empty_params)
           fixture_server) in
  let message :=
    request 2 "arp.callTool"
      (call_params "move_to" (Some "test_call_1")
         [("target", VList [VInt 1; VInt 1; VInt 0])]) in
  _initialized ready = true /\
  (exists response,
      snd (_handle_request fixture_env message ready) = Ret response /\
      read "id" response = VInt 2 /\
      read "result" response =
      VDict
        [ ("callId", VStr "test_call_1");
          ("state", VStr "completed");
          ("result", VDict [("reached", VList [VInt 1; VInt 1; VInt 0])]);
          ("duration", VFloat (Fin (12 - 10))) ]) /\
  _active_calls (fst (_handle_request fixture_env message ready))
    !! "test_call_1" = Some COMPLETED.
Proof.
  intros ready message. split; [reflexivity|].
  assert (exists tool_def,
            admitted fixture_env ready
              (default empty_params (msg_params message)) tool_def)
    as [tool_def Hadmitted].
  { eexists. repeat split; try reflexivity. vm_compute. discriminate. }
  pose proof (call_tool_outcome fixture_env ready message tool_def eq_refl
                eq_refl Hadmitted) as Hout.
  cbv zeta in Hout.
  change (await_handler fixture_env
            (default "" (p_name (default empty_params (msg_params message))))
            (arguments_of (default empty_params (msg_params message))))
    with (Returned (VDict [("reached", VList [VInt 1; VInt 1; VInt 0])]))
    in Hout.
  destruct Hout as (frame & Hresult & Hframe & _ & _ & _ & _ & _ & Hcall).
  destruct Hresult as (response & Hreply & _ & Hid & Hres & _).
  split; [|exact Hcall].
  exists response. split; [exact Hreply|]. split; [exact Hid|].
  rewrite Hres, Hframe. reflexivity.
Defined.

(** ** Call records *)

Lemma cancel_tool_overwrites (params : Params) (self : ARPServer)
  (call_id : string) (state : ToolState) :
  p_callId params = Some call_id ->
  _active_calls self !! call_id = Some state ->
  _handle_cancel_tool params self =
  (set_active_calls (insert call_id CANCELLED) self,
   Ret (VDict [("callId", VStr call_id); ("state", VStr "cancelled")])).
Proof.
  intros Hid Hstate. unfold _handle_cancel_tool. rewrite Hid.
  cbn [default from_option id]. monad.
  rewrite bool_decide_eq_true_2; [done|]. by rewrite Hstate.
Qed.

(** C5 at the input where the code departs from it: a call that has
    completed is moved to cancelled by a later [arp.cancelTool], and the
    reply reports it as cancelled. *)
Lemma cancel_tool_after_completion :
  let ready :=
    fst (_handle_request fixture_env (request 1 "arp.initialize" empty_params)
           fixture_server) in
  let completed :=
    fst (_handle_request fixture_env
           (request 2 "arp.callTool"
              (call_params "move_to" (Some "c1")
                 [("target", VList [VInt 1; VInt 1; VInt 0])]))
           ready) in
  let cancel :=
    _handle_request fixture_env
      (request 3 "arp.cancelTool" (call_id_params "c1")) completed in
  _active_calls completed !! "c1" = Some COMPLETED /\
  snd cancel =
    Ret (result_response (VInt 3)
           (VDict [("callId", VStr "c1"); ("state", VStr "cancelled")])) /\
  _active_calls (fst cancel) !! "c1" = Some CANCELLED.
Proof. repeat split; vm_compute; reflexivity. Qed.

(** ** The emergency-stop flag under requests *)







(** Cancelling the tasks the subscription table refers to. *)
Lemma cancel_all_lookup (tasks : gmap string nat) (loop : list Task)
  (name : string) (task : nat) (t : Task) :
  tasks !! name = Some task ->
  map_fold (fun _ task loop => cancel_task task loop) loop tasks !! task
    = Some t ->
  task_cancelled t = true.
Proof.
  revert name task t.
  apply (map_fold_weak_ind
           (fun (r : list Task) (m : gmap string nat) =>
              forall name task t,
                m !! name = Some task -> r !! task = Some t ->
                task_cancelled t = true)).
  - intros name task t Hempty. by rewrite lookup_empty in Hempty.
  - intros i x m r Hfresh IH name task t Hlookup Hr.
    unfold cancel_task in Hr.
    destruct (decide (x = task)) as [->|Hne].
    + rewrite list_lookup_alter_eq in Hr.
      destruct (r !! task) as [t0|]; simpl in Hr; [|done].
      by simplify_eq.
    + rewrite list_lookup_alter_ne in Hr by done.
      destruct (decide (i = name)) as [->|Hname].
      * rewrite lookup_insert_eq in Hlookup. by simplify_eq.
      * rewrite lookup_insert_ne in Hlookup by done. by eapply IH.
Qed.



(** ** Context subscriptions *)

Lemma subscribe_registered (params : Params) (self : ARPServer)
  (source : ContextSource) :
  dict_get (default "" (p_name params)) (_context_sources self) = Some source ->
  _handle_subscribe_context params self =
  ((if bool_decide (is_Some (_context_tasks self !! default "" (p_name params)))
    then self
    else
      set_context_tasks
        (insert (default "" (p_name params)) (length (event_loop self)))
        (set_event_loop
           (create_task (default "" (p_name params))
              (py_or (py_or (default VNone (p_maxRate params))
                        (opt_float (update_rate source)))
                 (VFloat (Fin 1))))
           self)),
   Ret (VDict [("subscribed", VStr (default "" (p_name params)))])).
Proof.
  intros Hsource. unfold _handle_subscribe_context. monad. rewrite Hsource.
  by destruct (bool_decide _).
Qed.

Lemma unsubscribe_run (params : Params) (self : ARPServer) :
  _handle_unsubscribe_context params self =
  (match _context_tasks self !! default "" (p_name params) with
   | Some task =>
       set_context_tasks (delete (default "" (p_name params)))
         (set_event_loop (cancel_task task) self)
   | None => self
   end,
   Ret (VDict [("unsubscribed", VStr (default "" (p_name params)))])).
Proof.
  unfold _handle_unsubscribe_context. monad.
  by destruct (_context_tasks self !! _).
Qed.

Lemma tasks_ok_init (name version : string)
  (robot_model robot_type : option string) :
  tasks_ok (__init__ name version robot_model robot_type).
Proof.
  split; cbn [__init__ _context_tasks event_loop].
  - intros source i H. by rewrite lookup_empty in H.
  - intros i t H. by rewrite lookup_nil in H.
Qed.

Lemma tasks_ok_one_uncancelled (self : ARPServer) (name : string) (i : nat) :
  tasks_ok self -> _context_tasks self !! name = Some i ->
  one_uncancelled_task name self.
Proof.
  intros [Hrefs Hlive] Hentry. destruct (Hrefs _ _ Hentry) as (t & Ht & Hl).
  exists i, t. split; [done|]. split; [done|].
  intros j t' Hj [Hname Hrunning]. specialize (Hlive _ _ Hj Hrunning).
  rewrite Hname in Hlive. congruence.
Qed.

Lemma tasks_ok_no_uncancelled (self : ARPServer) (name : string) :
  tasks_ok self -> _context_tasks self !! name = None ->
  no_uncancelled_task name self.
Proof.
  intros [Hrefs Hlive] Hentry j t Hj [Hname Hrunning].
  specialize (Hlive _ _ Hj Hrunning). rewrite Hname in Hlive. congruence.
Qed.

(** A live task is the one the table refers to. *)
Lemma tasks_ok_live_entry (self : ARPServer) (name : string) (task : nat) :
  tasks_ok self -> live name self task ->
  _context_tasks self !! name = Some task.
Proof.
  intros [_ Hlive] (t & Ht & [Hname Hrunning] & _).
  specialize (Hlive _ _ Ht Hrunning). by rewrite Hname in Hlive.
Qed.

Lemma tasks_ok_one_live (self : ARPServer) (name : string) (task : nat) :
  tasks_ok self -> _context_tasks self !! name = Some task ->
  finished self task = false -> one_live_task name self.
Proof.
  intros Hok Hentry Hrunning. exists task. split.
  - destruct Hok as [Hrefs _]. destruct (Hrefs _ _ Hentry) as (t & Ht & Hl).
    by exists t.
  - intros task' Hlive. pose proof (tasks_ok_live_entry _ _ _ Hok Hlive).
    congruence.
Qed.


Lemma tasks_ok_no_live (self : ARPServer) (name : string) :
  tasks_ok self -> _context_tasks self !! name = None ->
  no_live_task name self.
Proof.
  intros Hok Hentry task Hlive.
  pose proof (tasks_ok_live_entry _ _ _ Hok Hlive). congruence.
Qed.







Lemma tasks_ok_subscribe (self : ARPServer) (name : string) (rate : value) :
  tasks_ok self -> _context_tasks self !! name = None ->
  tasks_ok
    (set_context_tasks (insert name (length (event_loop self)))
       (set_event_loop (create_task name rate) self)).
Proof.
  intros [Hrefs Hlive] Hfree. unfold create_task.
  split; cbn [_context_tasks event_loop set_context_tasks set_event_loop].
  - intros source i Hentry. destruct (decide (name = source)) as [->|Hne].
    + rewrite lookup_insert_eq in Hentry. simplify_eq.
      exists {| task_name := source; task_rate := rate;
                task_cancelled := false |}.
      split; [|done].
      rewrite lookup_app_r by done. by rewrite Nat.sub_diag.
    + rewrite lookup_insert_ne in Hentry by done.
      destruct (Hrefs _ _ Hentry) as (t & Ht & Hl).
      exists t. split; [|done]. by apply lookup_app_l_Some.
  - intros i t Ht Hrunning.
    destruct (decide (i < length (event_loop self))%nat) as [Hlt|Hge].
    + rewrite lookup_app_l in Ht by done.
      pose proof (Hlive _ _ Ht Hrunning) as Hentry.
      rewrite lookup_insert_ne; [done|].
      intros Heq. rewrite <- Heq in Hentry. congruence.
    + rewrite lookup_app_r in Ht by lia.
      destruct (i - length (event_loop self))%nat as [|k] eqn:Hk;
        simpl in Ht; [|by rewrite lookup_nil in Ht].
      simplify_eq. cbn [task_name].
      assert (i = length (event_loop self)) as -> by lia.
      apply lookup_insert_eq.
Qed.

Lemma tasks_ok_unsubscribe (self : ARPServer) (name : string) (task : nat) :
  tasks_ok self -> _context_tasks self !! name = Some task ->
  tasks_ok
    (set_context_tasks (delete name) (set_event_loop (cancel_task task) self)).
Proof.
  intros [Hrefs Hlive] Hentry. unfold cancel_task.
  split; cbn [_context_tasks event_loop set_context_tasks set_event_loop].
  - intros source i Hsource.
    destruct (decide (name = source)) as [->|Hne].
    + by rewrite lookup_delete_eq in Hsource.
    + rewrite lookup_delete_ne in Hsource by done.
      destruct (Hrefs _ _ Hsource) as (t & Ht & Hname & Hrunning).
      exists t. split; [|done].
      rewrite list_lookup_alter_ne; [done|]. intros <-.
      destruct (Hrefs _ _ Hentry) as (t' & Ht' & Hname' & _). congruence.
  - intros i t Ht Hrunning.
    destruct (decide (task = i)) as [->|Hne].
    + rewrite list_lookup_alter_eq in Ht.
      destruct (event_loop self !! i); simpl in Ht; [|done].
      by simplify_eq.
    + rewrite list_lookup_alter_ne in Ht by done.
      pose proof (Hlive _ _ Ht Hrunning) as Href.
      rewrite lookup_delete_ne; [done|].
      intros Heq. rewrite <- Heq in Href. congruence.
Qed.

Lemma subscribe_keeps_coroutines (params : payload) (self : ARPServer) :
  coroutines (fst (_handle_subscribe_context params self)) = coroutines self.
Proof.
  unfold _handle_subscribe_context. monad.
  repeat case_match; simplify_eq; done.
Qed.




(** The agreement between the subscription table and the event loop holds
    from construction on and is kept by every request and notification. *)
Lemma cancel_all_origin (tasks : gmap string nat) (loop : list Task)
  (i : nat) (t : Task) :
  map_fold (fun _ task loop => cancel_task task loop) loop tasks !! i = Some t ->
  task_cancelled t = true \/ loop !! i = Some t.
Proof.
  revert i t.
  apply (map_fold_weak_ind
           (fun (r : list Task) (m : gmap string nat) =>
              forall i t, r !! i = Some t ->
                          task_cancelled t = true \/ loop !! i = Some t)).
  - intros i t H. by right.
  - intros k x m r Hfresh IH i t Hr. unfold cancel_task in Hr.
    destruct (decide (x = i)) as [->|Hne].
    + rewrite list_lookup_alter_eq in Hr.
      destruct (r !! i); simpl in Hr; [|done]. simplify_eq. by left.
    + rewrite list_lookup_alter_ne in Hr by done. by apply IH.
Qed.

Lemma tasks_ok_shutdown (self : ARPServer) :
  tasks_ok self ->
  tasks_ok
    (set_initialized false
       (set_context_tasks (fun _ => ∅)
          (set_event_loop
             (fun loop =>
                map_fold (fun _ task loop => cancel_task task loop) loop
                  (_context_tasks self))
             self))).
Proof.
  intros [Hrefs Hlive].
  split; cbn [_context_tasks event_loop set_initialized set_context_tasks
                set_event_loop].
  - intros name i H. by rewrite lookup_empty in H.
  - intros i t Ht Hrunning. exfalso.
    destruct (cancel_all_origin _ _ _ _ Ht) as [Hc|Hold]; [congruence|].
    pose proof (Hlive _ _ Hold Hrunning) as Hentry.
    pose proof (cancel_all_lookup _ _ _ _ _ Hentry Ht). congruence.
Qed.

Lemma tasks_ok_same (self self' : ARPServer) :
  _context_tasks self' = _context_tasks self ->
  event_loop self' = event_loop self ->
  tasks_ok self -> tasks_ok self'.
Proof. unfold tasks_ok. by intros -> ->. Qed.

Lemma call_tool_keeps_tasks (env : Env) (params : payload) (self : ARPServer) :
  _context_tasks (fst (_handle_call_tool env params self)) = _context_tasks self
  /\ event_loop (fst (_handle_call_tool env params self)) = event_loop self.
Proof.
  unfold _handle_call_tool, _send_progress. monad.
  repeat case_match; by split.
Qed.

Lemma request_keeps_tasks_ok (env : Env) (message : WireMessage)
  (self : ARPServer) :
  tasks_ok self -> tasks_ok (fst (_handle_request env message self)).
Proof.
  intros Hok. unfold _handle_request.
  destruct (dict_get _ (handlers env)) as [handler|] eqn:Hget; [|done].
  monad. destruct (_ && _); [done|].
  assert (tasks_ok
            (fst (handler (default (Object empty_params)
                             (wire_params message)) self)))
    as Hrun.
  { revert Hget.
    generalize (default (Object empty_params) (wire_params message)).
    intros params. unfold handlers. cbn [dict_get].
    repeat (destruct (String.eqb _ _); [intros [= <-]|]); [..|done].
    - by apply (tasks_ok_same self).
    - by apply tasks_ok_shutdown.
    - by apply (tasks_ok_same self).
    - destruct (call_tool_keeps_tasks env params self).
      by apply (tasks_ok_same self).
    - unfold _handle_cancel_tool. monad. by repeat case_match.
    - done.
    - unfold _handle_subscribe_context. monad. repeat case_match;
        simplify_eq; cbn [fst]; try done.
      apply tasks_ok_subscribe; [done|].
      match goal with
      | H : bool_decide _ = false |- _ =>
          apply bool_decide_eq_false_1 in H
      end.
      by apply eq_None_not_Some.
    - unfold _handle_unsubscribe_context. monad. repeat case_match;
        simplify_eq; cbn [fst]; try done.
      by apply tasks_ok_unsubscribe.
    - done.
    - unfold _handle_get_constraint. monad. by repeat case_match.
    - unfold _handle_set_workspace. by case_match. }
  by destruct (handler _ self) as [self' [result|[]]].
Qed.

Lemma notification_keeps_tasks_ok (message : WireMessage)
  (self : ARPServer) :
  tasks_ok self -> tasks_ok (fst (_handle_notification message self)).
Proof.
  intros Hok. unfold _handle_notification.
  destruct (String.eqb _ _); [|done].
  unfold _handle_emergency_stop. by destruct (default _ _).
Qed.

Lemma registration_keeps_tasks_ok (self : ARPServer) :
  tasks_ok self ->
  (forall name description safety parameters preconditions effects duration,
      tasks_ok (tool name description safety parameters preconditions effects
                  duration self)) /\
  (forall name description data_type frame rate,
      tasks_ok (context name description data_type frame rate self)) /\
  (forall constraint, tasks_ok (add_constraint constraint self)).
Proof. intros Hok. repeat split; intros; by apply (tasks_ok_same self). Qed.

(** ** Sample runs

    The scenarios of tests/test_server.py, replayed on the fixture. *)

Example test_not_initialized_error :
  snd (_handle_request fixture_env (request 1 "arp.listTools" empty_params)
         fixture_server) =
  Ret (error_response (VInt 1)
         [("code", VInt (-40009)); ("message", VStr "Not initialized")]).
Proof. reflexivity. Qed.

Example test_call_tool_success :
  let ready := fst (_handle_initialize empty_params fixture_server) in
  snd (_handle_call_tool fixture_env
         (call_params "move_to" (Some "test_call_1")
            [("target", VList [VFloat (Fin 1); VFloat (Fin (1 # 2));
                               VFloat (Fin 0)])])
         ready) =
  Ret (VDict
         [ ("callId", VStr "test_call_1");
           ("state", VStr "completed");
           ("result",
             VDict [("reached", VList [VFloat (Fin 1); VFloat (Fin (1 # 2));
                                       VFloat (Fin 0)])]);
           ("duration", VFloat (Fin (12 - 10))) ]).
Proof. reflexivity. Qed.

Example test_call_unknown_tool :
  let ready := fst (_handle_initialize empty_params fixture_server) in
  snd (_handle_call_tool fixture_env
         (call_params "nonexistent" (Some "test_call_2") []) ready) =
  Raise (ARPError ARPErrorCode.TOOL_NOT_FOUND "Tool not found: nonexistent"
           VNone).
Proof. reflexivity. Qed.

Example test_workspace_violation :
  let ready := fst (_handle_initialize empty_params fixture_server) in
  snd (_handle_call_tool fixture_env
         (call_params "move_to" (Some "test_call_4")
            [("target", VList [VFloat (Fin 5); VFloat (Fin 0);
                               VFloat (Fin 0)])])
         ready) =
  Raise (ARPError ARPErrorCode.SAFETY_VIOLATION
           "Safety violation: Position [5.0, 0.0, 0.0] exceeds workspace boundary workspace_limits"
           (VDict
              [("constraint",
                 VStr "Position [5.0, 0.0, 0.0] exceeds workspace boundary workspace_limits")])).
Proof. reflexivity. Qed.

Example test_velocity_violation :
  let ready := fst (_handle_initialize empty_params fixture_server) in
  snd (_handle_call_tool fixture_env
         (call_params "move_to" (Some "test_call_6")
            [ ("target", VList [VFloat (Fin 1); VFloat (Fin 0);
                                VFloat (Fin 0)]);
              ("velocity", VFloat (Fin 5)) ])
         ready) =
  Raise (ARPError ARPErrorCode.SAFETY_VIOLATION
           "Safety violation: Velocity 5.0 exceeds limit 1.0"
           (VDict [("constraint", VStr "Velocity 5.0 exceeds limit 1.0")])).
Proof. reflexivity. Qed.

Example test_emergency_stop :
  let ready := fst (_handle_initialize empty_params fixture_server) in
  let stopped :=
    fst (_handle_emergency_stop (reason_params "Test stop") ready) in
  _emergency_stopped stopped = true /\
  snd (_handle_call_tool fixture_env
         (call_params "move_to" (Some "test_call_7")
            [("target", VList [VInt 0; VInt 0; VInt 0])])
         stopped) =
  Raise (ARPError ARPErrorCode.EMERGENCY_STOPPED "Emergency stop active"
           VNone).
Proof. split; reflexivity. Qed.


(** A subscription to the odometry at the source's rate of 10 Hz: the first
    turn of its task broadcasts one [contextUpdate] frame with the
    provider's data and suspends the coroutine in a [sleep] of the float
    nearest to 0.1, a second turn broadcasts a second frame, and the task
    stays live; once the subscription is ended, the next turn ends the task
    without another frame. *)
Example test_context_stream :
  let ready := fst (_handle_initialize empty_params fixture_server) in
  let subscribed :=
    fst (_handle_subscribe_context (name_params "odometry") ready) in
  let first := fst (resume fixture_env 0 subscribed) in
  let second := fst (resume fixture_env 0 first) in
  let ended :=
    fst (resume fixture_env 0
           (fst (_handle_unsubscribe_context (name_params "odometry")
                   second))) in
  let update :=
    VDict
      [ ("jsonrpc", VStr "2.0");
        ("method", VStr "arp.contextUpdate");
        ("params",
          VDict
            [ ("name", VStr "odometry");
              ("timestamp", VStr "2025-01-01T00:00:00+00:00");
              ("data",
                VDict
                  [("position",
                     VDict [("x", VInt 0); ("y", VInt 0); ("z", VInt 0)])])
            ]) ] in
  _transport first = [update] /\
  coroutines first !! 0%nat =
    Some (Suspended (Fin (3602879701896397 # 36028797018963968))) /\
  _transport second = [update; update] /\
  finished second 0 = false /\
  _transport ended = [update; update] /\
  coroutines ended !! 0%nat = Some (Finished None).
Proof. repeat split; vm_compute; reflexivity. Qed.

(** A task for a source the server does not have finds no provider: its
    first turn ends it with [KeyError], before anything is broadcast.  The
    subscription handler starts no such task. *)
Example test_stream_without_provider :
  let ready := fst (_handle_initialize empty_params fixture_server) in
  let stray :=
    set_event_loop (create_task "lidar" (VFloat (Fin 1))) ready in
  coroutines (fst (resume fixture_env 0 stray)) !! 0%nat =
    Some (Finished (Some KeyError)) /\
  _transport (fst (resume fixture_env 0 stray)) = [].
Proof. split; vm_compute; reflexivity. Qed.
(** * Further properties of the server, its transport and its client *)

(** ** How a request is dispatched *)

Lemma handlers_cases (env : Env) (method : string)
  (handler : payload -> M value) :
  dict_get method (handlers env) = Some handler ->
  (method = "arp.initialize" /\ handler = _handle_initialize) \/
  (method = "arp.shutdown" /\ handler = _handle_shutdown) \/
  (method = "arp.listTools" /\ handler = _handle_list_tools) \/
  (method = "arp.callTool" /\ handler = _handle_call_tool env) \/
  (method = "arp.cancelTool" /\ handler = _handle_cancel_tool) \/
  (method = "arp.listContext" /\ handler = _handle_list_context) \/
  (method = "arp.subscribeContext" /\ handler = _handle_subscribe_context) \/
  (method = "arp.unsubscribeContext" /\ handler = _handle_unsubscribe_context)
  \/ (method = "arp.listConstraints" /\ handler = _handle_list_constraints) \/
  (method = "arp.getConstraint" /\ handler = _handle_get_constraint) \/
  (method = "arp.setWorkspace" /\ handler = _handle_set_workspace).
Proof.
  unfold handlers. cbn [dict_get].
  repeat (destruct (String.eqb method _) eqn:E;
          [apply String.eqb_eq in E; subst method; intros [= <-]; auto 20|
           clear E]).
  discriminate.
Qed.

Lemma request_cases (env : Env) (message : WireMessage) (self : ARPServer) :
  (dict_get (default "" (wire_method message)) (handlers env) = None /\
   _handle_request env message self =
   (self,
    Ret (error_response (default VNone (wire_id message))
           [ ("code", VInt (-32601));
             ("message",
               VStr ("Method not found: " +:+
                     default "" (wire_method message))) ]))) \/
  (exists handler,
      dict_get (default "" (wire_method message)) (handlers env) =
      Some handler /\
      default "" (wire_method message) <> "arp.initialize" /\
      _initialized self = false /\
      _handle_request env message self =
      (self,
       Ret (error_response (default VNone (wire_id message))
              [("code", VInt (-40009)); ("message", VStr "Not initialized")])))
  \/
  (exists handler,
      dict_get (default "" (wire_method message)) (handlers env) =
      Some handler /\
      (default "" (wire_method message) = "arp.initialize" \/
       _initialized self = true) /\
      _handle_request env message self =
      reply_of (default VNone (wire_id message))
        (handler (default (Object empty_params) (wire_params message)) self)).
Proof.
  unfold _handle_request.
  destruct (dict_get _ (handlers env)) as [handler|]; [|by left].
  right. monad.
  destruct (String.eqb _ "arp.initialize") eqn:E.
  - right. exists handler. split; [done|]. split; [|done].
    left. by apply String.eqb_eq.
  - destruct (_initialized self) eqn:Hinit.
    + right. exists handler. split; [done|]. split; [by right|done].
    + left. exists handler. split; [done|]. split; [|done].
      by apply String.eqb_neq.
Qed.

(** The same for a [Message], in its own terms. *)
Lemma message_cases (env : Env) (message : Message) (self : ARPServer) :
  (dict_get (default "" (msg_method message)) (handlers env) = None /\
   _handle_request env message self =
   (self,
    Ret (error_response (default VNone (msg_id message))
           [ ("code", VInt (-32601));
             ("message",
               VStr ("Method not found: " +:+ default "" (msg_method message)))
           ]))) \/
  (exists handler,
      dict_get (default "" (msg_method message)) (handlers env) = Some handler
      /\ default "" (msg_method message) <> "arp.initialize" /\
      _initialized self = false /\
      _handle_request env message self =
      (self,
       Ret (error_response (default VNone (msg_id message))
              [("code", VInt (-40009)); ("message", VStr "Not initialized")])))
  \/
  (exists handler,
      dict_get (default "" (msg_method message)) (handlers env) = Some handler
      /\
      (default "" (msg_method message) = "arp.initialize" \/
       _initialized self = true) /\
      _handle_request env message self =
      reply_of (default VNone (msg_id message))
        (handler (default empty_params (msg_params message)) self)).
Proof.
  pose proof (request_cases env message self) as Hcases.
  cbn [on_wire wire_id wire_method wire_params] in Hcases.
  by rewrite params_on_wire in Hcases.
Qed.

Ltac handler_cases Hget :=
  destruct (handlers_cases _ _ _ Hget)
    as [[? ->]|[[? ->]|[[? ->]|[[? ->]|[[? ->]|[[? ->]|[[? ->]|[[? ->]|
        [[? ->]|[[? ->]|[? ->]]]]]]]]]]];
  unfold _handle_initialize, _handle_shutdown, _handle_list_tools,
    _handle_call_tool, _handle_cancel_tool, _handle_list_context,
    _handle_subscribe_context, _handle_unsubscribe_context,
    _handle_list_constraints, _handle_get_constraint, _handle_set_workspace,
    _send_progress;
  monad.

Ltac run_cases :=
  repeat first
    [ case_match | progress simplify_eq | progress cbn beta iota in * ].

Lemma reply_of_fst (id : value) (ran : ARPServer * outcome value) :
  fst (reply_of id ran) = fst ran.
Proof. by destruct ran as [? [?|[]]]. Qed.

Lemma method_named (message : WireMessage) (method : string) :
  default "" (wire_method message) = method -> method <> "" ->
  wire_method message = Some method.
Proof. destruct (wire_method message); cbn; congruence. Qed.

(** A handler that raises.  Only the six handlers that read [params] can;
    they raise an [ARPError] with the server unchanged, or
    [AttributeError] on a [params] that is not an object, again with the
    server unchanged, or, in [_handle_call_tool], what the constraint
    evaluator raised, or what left the tool handler after the call was
    filed as running. *)
Lemma handler_raises (env : Env) (method : string)
  (handler : payload -> M value) (params : payload) (self self' : ARPServer)
  (e : exn) :
  dict_get method (handlers env) = Some handler ->
  handler params self = (self', Raise e) ->
  In method
    [ "arp.callTool"; "arp.cancelTool"; "arp.subscribeContext";
      "arp.unsubscribeContext"; "arp.getConstraint"; "arp.setWorkspace" ] /\
  ((self' = self /\ is_arp_error e = true) \/
   (self' = self /\ params = NotObject /\ e = AttributeError) \/
   (exists members,
       method = "arp.callTool" /\ params = Object members /\
       _emergency_stopped self = false /\
       ((self' = self /\
         _check_constraints env self (default "" (p_name members))
           (arguments_of members) = Raise e) \/
        (exists name tool_def,
            admitted env self members tool_def /\
            await_handler env (default "" (p_name members))
              (arguments_of members) = Escaped name /\
            e = BaseException name /\
            self' = escaped_call env members self)))).
Proof.
  intros Hget. unfold arguments_of. handler_cases Hget;
    repeat case_match; intros Hraise; simplify_eq;
    (split; [cbn; tauto|]);
    try (by left); try (by right; left).
  - right. right. eexists. repeat (split; [done|]). right.
    match goal with
    | H : _check_constraints _ _ _ _ = Ret ?a |- _ =>
        destruct a as [detail|];
        [apply check_constraints_truthy in H; congruence|]
    end.
    eexists _, _. split; [|done]. unfold admitted, call_id_of, arguments_of.
    repeat (split; [done|]). split; [|done].
    by match goal with
       | H : bool_decide _ = false |- _ => apply bool_decide_eq_false_1 in H
       end.
  - right. right. eexists. repeat (split; [done|]). by left.
  - unfold dict_mem in *. case_match; by simplify_eq.
Qed.

(** X1.  Every request is answered, or the receive loop is left.
    [_handle_request] returns a reply that carries the identifier of the
    request: a result, or an error with an integer code and a text, and in
    the error case the server is exactly as before.  Otherwise it lets an
    exception through that is not an [ARPError]; that happens only in an
    initialised session, and never for [arp.initialize], [arp.shutdown] or
    one of the three listings. *)
Theorem request_reply_shape (env : Env) (message : WireMessage)
  (self : ARPServer) :
  let id := default VNone (wire_id message) in
  let method := default "" (wire_method message) in
  let ran := _handle_request env message self in
  (exists result response,
      snd ran = Ret response /\
      response = result_response id result /\
      read "jsonrpc" response = VStr "2.0" /\
      read "id" response = id /\
      read "result" response = result /\
      dict_get "error" (members response) = None) \/
  (exists code text rest response,
      ran = (self, Ret response) /\
      response =
        error_response id
          (("code", VInt code) :: ("message", VStr text) :: rest) /\
      read "jsonrpc" response = VStr "2.0" /\
      read "id" response = id /\
      read "code" (read "error" response) = VInt code /\
      read "message" (read "error" response) = VStr text /\
      dict_get "result" (members response) = None /\
      (rest = [] \/ exists data, rest = [("data", data)])) \/
  (exists e,
      snd ran = Raise e /\
      is_arp_error e = false /\
      _initialized self = true /\
      In method
        [ "arp.callTool"; "arp.cancelTool"; "arp.subscribeContext";
          "arp.unsubscribeContext"; "arp.getConstraint";
          "arp.setWorkspace" ]).
Proof.
  intros id method ran. subst ran.
  destruct (request_cases env message self)
    as [[_ Hrun]|[(handler & _ & _ & _ & Hrun)|(handler & Hget & Hready & Hrun)]].
  - right. left. eexists _, _, _, _. split; [exact Hrun|].
    repeat (split; [reflexivity|]). by left.
  - right. left. eexists _, _, _, _. split; [exact Hrun|].
    repeat (split; [reflexivity|]). by left.
  - fold id method in Hrun, Hget, Hready. rewrite Hrun.
    destruct (handler _ self) as [self' [result|e]] eqn:Hran.
    + left. exists result. eexists. split; [reflexivity|]. by repeat split.
    + destruct (handler_raises _ _ _ _ _ _ _ Hget Hran) as [Hmethod Hcases].
      destruct (is_arp_error e) eqn:Harp.
      * destruct e; try done.
        assert (self' = self) as ->.
        { destruct Hcases as [[-> _]|[(-> & _ & _)|(members & _ & _ & _ & Hc)]];
            [done..|].
          destruct Hc as [[-> _]|(name & tool_def & _ & _ & [=] & _)]; done. }
        right. left. eexists _, _, _, _. split; [reflexivity|].
        repeat (split; [reflexivity|]). right. by eexists.
      * right. right. exists e. split; [by destruct e|]. split; [done|].
        split; [|done].
        destruct Hready as [Hinit|]; [|done].
        rewrite Hinit in Hmethod. cbn in Hmethod.
        intuition discriminate.
Qed.

Lemma request_reply_id (env : Env) (message : WireMessage)
  (self : ARPServer) (reply : value) :
  snd (_handle_request env message self) = Ret reply ->
  read "id" reply = default VNone (wire_id message) /\
  read "jsonrpc" reply = VStr "2.0".
Proof.
  destruct (request_cases env message self)
    as [[_ ->]|[(handler & _ & _ & _ & ->)|(handler & Hget & _ & ->)]];
    [by intros [= <-]..|].
  destruct (handler _ self) as [self' [result|[]]]; by intros [= <-].
Qed.

Lemma request_raises (env : Env) (message : WireMessage) (self : ARPServer)
  (e : exn) :
  snd (_handle_request env message self) = Raise e -> is_arp_error e = false.
Proof.
  destruct (request_cases env message self)
    as [[_ ->]|[(handler & _ & _ & _ & ->)|(handler & Hget & _ & ->)]];
    [done..|].
  destruct (handler _ self) as [self' [result|[]]]; by intros [= <-].
Qed.

(** ** The receive loop *)

(** A notification returns, or it is an [arp.emergencyStop] whose params is
    not an object, which raises and changes nothing. *)
Lemma notification_run (message : WireMessage) (self : ARPServer) :
  snd (_handle_notification message self) = Ret tt \/
  wire_method message = Some "arp.emergencyStop" /\
  wire_params message = Some NotObject /\
  _handle_notification message self = (self, Raise AttributeError).
Proof.
  unfold _handle_notification, _handle_emergency_stop.
  destruct (String.eqb _ _) eqn:E; [|by left].
  apply String.eqb_eq in E.
  destruct (wire_params message) as [[members|]|] eqn:Hparams;
    cbn [default from_option id]; [by left| |by left].
  right. split; [|done]. apply method_named; [exact E|done].
Qed.

Lemma notification_raises (message : WireMessage) (self : ARPServer)
  (e : exn) :
  snd (_handle_notification message self) = Raise e ->
  e = AttributeError /\ fst (_handle_notification message self) = self.
Proof.
  destruct (notification_run message self) as [->|(_ & _ & ->)]; [done|].
  by intros [= <-].
Qed.

Lemma receive_run (env : Env) (raw : raw_message) (self : ARPServer) :
  receive env raw self =
  match raw with
  | Undecodable => (self, Ret (Some parse_error_response))
  | Decoded message =>
      match wire_id message with
      | Some _ =>
          (fst (_handle_request env message self),
           let? response := snd (_handle_request env message self) in
           Ret (Some response))
      | None =>
          (fst (_handle_notification message self),
           let? done := snd (_handle_notification message self) in
           Ret None)
      end
  end.
Proof.
  unfold receive. destruct raw as [|message]; [done|].
  destruct (wire_id message); monad.
  - by destruct (_handle_request env message self) as [? [?|?]].
  - by destruct (_handle_notification message self) as [? [[]|?]].
Qed.

(** What every request and every notification keeps, a connection keeps. *)
Lemma connection_invariant (P : ARPServer -> Prop) :
  (forall env message self,
      P self -> P (fst (_handle_request env message self))) ->
  (forall message self, P self -> P (fst (_handle_notification message self)))
  ->
  forall inputs self, P self -> P (state_after inputs self).
Proof.
  intros Hrequest Hnotification. unfold state_after.
  induction inputs as [|[env raw] rest IH]; intros self HP; [done|].
  cbn [_handle_connection]. rewrite receive_run.
  destruct raw as [|message].
  - specialize (IH self HP).
    by destruct (_handle_connection rest self) as [[? ?] ?].
  - destruct (wire_id message).
    + pose proof (Hrequest env message self HP) as Hstep.
      destruct (snd (_handle_request env message self)); cbn [obind]; [|done].
      specialize (IH _ Hstep).
      by destruct (_handle_connection rest _) as [[? ?] ?].
    + pose proof (Hnotification message self HP) as Hstep.
      destruct (snd (_handle_notification message self)); cbn [obind];
        [|done].
      specialize (IH _ Hstep).
      by destruct (_handle_connection rest _) as [[? ?] ?].
Qed.

(** What every request that returns keeps, a connection keeps as long as
    it goes on, and what holds of every reply holds of the replies sent. *)
Lemma connection_replies (P : ARPServer -> Prop) (Q : value -> Prop) :
  (forall env message self reply,
      P self -> snd (_handle_request env message self) = Ret reply ->
      P (fst (_handle_request env message self)) /\ Q reply) ->
  (forall message self, P self -> P (fst (_handle_notification message self)))
  ->
  Q parse_error_response ->
  forall inputs self,
    P self ->
    Forall Q (replies_to inputs self) /\
    (ended_by inputs self = None -> P (state_after inputs self)).
Proof.
  intros Hrequest Hnotification Hparse.
  unfold replies_to, ended_by, state_after.
  induction inputs as [|[env raw] rest IH]; intros self HP;
    [by split; [apply Forall_nil|]|].
  cbn [_handle_connection]. rewrite receive_run.
  destruct raw as [|message].
  - specialize (IH self HP).
    destruct (_handle_connection rest self) as [[? ?] ?].
    cbn [fst snd] in *. split; [|tauto]. apply Forall_cons. tauto.
  - destruct (wire_id message).
    + destruct (snd (_handle_request env message self)) as [reply|] eqn:Hrun;
        cbn [obind]; [|by split; [apply Forall_nil|]].
      destruct (Hrequest env message self reply HP Hrun) as [Hstep Hreply].
      specialize (IH _ Hstep).
      destruct (_handle_connection rest _) as [[? ?] ?].
      cbn [fst snd] in *. split; [|tauto]. apply Forall_cons. tauto.
    + pose proof (Hnotification message self HP) as Hstep.
      destruct (snd (_handle_notification message self)); cbn [obind];
        [|by split; [apply Forall_nil|]].
      specialize (IH _ Hstep).
      by destruct (_handle_connection rest _) as [[? ?] ?].
Qed.

(** The exception that ends a connection is never an [ARPError]. *)
Lemma connection_ended (inputs : list (Env * raw_message)) (self : ARPServer)
  (e : exn) :
  ended_by inputs self = Some e -> is_arp_error e = false.
Proof.
  unfold ended_by. revert self.
  induction inputs as [|[env raw] rest IH]; intros self; [done|].
  cbn [_handle_connection]. rewrite receive_run.
  destruct raw as [|message].
  - specialize (IH self).
    by destruct (_handle_connection rest self) as [[? ?] ?].
  - destruct (wire_id message).
    + destruct (snd (_handle_request env message self)) as [reply|e'] eqn:Hrun;
        cbn [obind].
      * specialize (IH (fst (_handle_request env message self))).
        by destruct (_handle_connection rest _) as [[? ?] ?].
      * intros [= <-]. by eapply request_raises.
    + destruct (snd (_handle_notification message self)) as [[]|e'] eqn:Hrun;
        cbn [obind].
      * specialize (IH (fst (_handle_notification message self))).
        by destruct (_handle_connection rest _) as [[? ?] ?].
      * intros [= <-]. by destruct (notification_raises _ _ _ Hrun) as [-> _].
Qed.

(** ** Call records *)

(** A request leaves the call records alone or files one record; the record
    filed by a request that returns is not running. *)
Lemma request_active_calls (env : Env) (message : WireMessage)
  (self : ARPServer) :
  _active_calls (fst (_handle_request env message self)) = _active_calls self
  \/
  exists call_id state,
    (forall reply,
        snd (_handle_request env message self) = Ret reply ->
        state <> RUNNING) /\
    _active_calls (fst (_handle_request env message self)) =
    <[call_id := state]> (_active_calls self).
Proof.
  destruct (request_cases env message self)
    as [[_ ->]|[(handler & _ & _ & _ & ->)|(handler & Hget & _ & ->)]];
    [by left..|].
  rewrite reply_of_fst. unfold reply_of. handler_cases Hget; run_cases;
    cbn [fst snd _active_calls set_active_calls set_initialized set_event_loop
           set_context_tasks set_transport];
    try (by left); right; eexists _, _;
    (split; [|first [reflexivity | apply insert_insert_eq]]); done.
Qed.

Lemma notification_active_calls (message : WireMessage) (self : ARPServer)
  (call_id : string) :
  _active_calls (fst (_handle_notification message self)) !! call_id =
  _active_calls self !! call_id \/
  _active_calls (fst (_handle_notification message self)) !! call_id =
  Some CANCELLED /\ _active_calls self !! call_id = Some RUNNING.
Proof.
  unfold _handle_notification. case_match; [|by left].
  destruct (default (Object empty_params) (wire_params message))
    as [members|]; [|by left].
  rewrite emergency_stop_lookup.
  destruct (_active_calls self !! call_id) as [[]|]; auto.
Qed.

Lemma request_keeps_quiescent (env : Env) (message : WireMessage)
  (self : ARPServer) (reply : value) :
  quiescent self ->
  snd (_handle_request env message self) = Ret reply ->
  quiescent (fst (_handle_request env message self)).
Proof.
  intros Hquiet Hrun call_id.
  destruct (request_active_calls env message self)
    as [->|(other & state & Hstate & ->)]; [done|].
  destruct (decide (other = call_id)) as [->|Hne].
  - rewrite lookup_insert_eq. intros [= ->]. by eapply Hstate.
  - rewrite lookup_insert_ne by done. apply Hquiet.
Qed.

Lemma notification_keeps_quiescent (message : WireMessage)
  (self : ARPServer) :
  quiescent self -> quiescent (fst (_handle_notification message self)).
Proof.
  intros Hquiet call_id.
  destruct (notification_active_calls message self call_id) as [->|[-> _]];
    [apply Hquiet|done].
Qed.

(** ** What the evaluator can raise *)

Lemma py_lt_raises :
  forall (a b : value) (e : exn), py_lt a b = Raise e -> e = TypeError.
Proof.
  fix IH 1. intros a b e.
  destruct a as [| | | | |xs|]; destruct b as [| | | | |ys|]; cbn;
    try congruence; try (by repeat case_match; congruence).
  revert ys. induction xs as [|x xs IHxs]; intros [|y ys]; try congruence.
  destruct (py_eq x y); [apply IHxs|apply IH].
Qed.

Lemma py_getitem_raises (v : value) (i : nat) (e : exn) :
  py_getitem v i = Raise e -> is_arp_error e = false.
Proof. destruct v; cbn; repeat case_match; by intros [= <-]. Qed.

Lemma check_coordinates_raises (env : Env) (c : SafetyConstraint)
  (target mins maxs : value) (range : list nat) (e : exn) :
  check_coordinates env c target mins maxs range = Raise e ->
  is_arp_error e = false.
Proof.
  induction range as [|i rest IH]; [done|]. cbn [check_coordinates].
  unfold py_gt.
  repeat (match goal with
          | |- context [py_getitem ?v ?i] =>
              destruct (py_getitem v i) eqn:?; cbn [obind]
          | |- context [py_lt ?a ?b] =>
              destruct (py_lt a b) as [[]|] eqn:?; cbn [obind]
          end);
    try done; try (intros [= <-]);
    try (by eapply py_getitem_raises);
    by match goal with
       | H : py_lt _ _ = Raise _ |- _ => apply py_lt_raises in H as ->
       end.
Qed.

Lemma check_constraint_raises (env : Env) (c : SafetyConstraint)
  (arguments : list (string * value)) (e : exn) :
  check_constraint env c arguments = Raise e -> is_arp_error e = false.
Proof.
  unfold check_constraint, check_workspace_bound, check_velocity_limit, py_gt.
  repeat case_match; cbn [obind]; try done;
    repeat (match goal with
            | |- context [check_coordinates ?e ?c ?t ?lo ?hi ?r] =>
                destruct (check_coordinates e c t lo hi r) as [[]|] eqn:?;
                cbn [obind]
            | |- context [py_lt ?a ?b] =>
                destruct (py_lt a b) as [[]|] eqn:?; cbn [obind]
            | _ => case_match
            end);
    try done; intros [= <-];
    first [ by eapply check_coordinates_raises
          | by match goal with
               | H : py_lt _ _ = Raise _ |- _ => apply py_lt_raises in H as ->
               end ].
Qed.

Lemma check_constraints_raise (env : Env) (self : ARPServer)
  (tool_name : string) (arguments : list (string * value)) (e : exn) :
  _check_constraints env self tool_name arguments = Raise e ->
  is_arp_error e = false.
Proof.
  unfold _check_constraints.
  induction (dict_values (_constraints self)) as [|c rest IH]; [done|].
  cbn [check_each].
  destruct (check_constraint env c arguments) as [[]|] eqn:Hc; cbn [obind];
    [done|done|].
  intros [= <-]. by eapply check_constraint_raises.
Qed.

Lemma handler_error_code (env : Env) (method : string)
  (handler : payload -> M value) (params : payload) (self self' : ARPServer)
  (code : Z) (text : string) (data : value) :
  dict_get method (handlers env) = Some handler ->
  handler params self = (self', Raise (ARPError code text data)) ->
  In code [-40007; -40003; -40004; -40001; -40008] /\
  (code = -40004 -> ~ quiescent self).
Proof.
  intros Hget. handler_cases Hget; run_cases; intros Hraise; simplify_eq;
    try (by match goal with
            | H : _check_constraints _ _ _ _ = Raise _ |- _ =>
                apply check_constraints_raise in H
            end);
    (split; [cbn; auto 10|]); try (by intros [=]).
  intros _ Hquiet.
  match goal with
  | H : bool_decide _ = true |- _ => apply bool_decide_eq_true_1 in H
  end.
  by eapply Hquiet.
Qed.


Lemma error_code_of_error (id : value) (code : Z)
  (rest : list (string * value)) :
  error_code_of (error_response id (("code", VInt code) :: rest)) = VInt code.
Proof. reflexivity. Qed.



Lemma request_not_busy (env : Env) (message : WireMessage)
  (self : ARPServer) (reply : value) :
  quiescent self ->
  snd (_handle_request env message self) = Ret reply ->
  error_code_of reply <> VInt (-40004).
Proof.
  intros Hquiet.
  destruct (request_cases env message self)
    as [[_ ->]|[(handler & _ & _ & _ & ->)|(handler & Hget & _ & ->)]];
    [by intros [= <-]..|].
  destruct (handler _ self) as [self' [result|e]] eqn:Hran; cbn [reply_of snd];
    [by intros [= <-]|].
  destruct e as [code text data| | | | | | | |]; try done.
  intros [= <-]. rewrite error_code_of_error. intros [= ->].
  by destruct (handler_error_code _ _ _ _ _ _ _ _ _ Hget Hran) as [_ Hbusy];
    apply Hbusy.
Qed.

(** X3.  One connection never sees TOOL_BUSY.  The receive loop handles a
    frame to its end before it reads the next, and a request that returns
    leaves no call recorded as running.  So on a connection that starts
    from a state in which no call is recorded as running, no reply sent
    carries the code -40004, and when the frames have all been handled
    without an exception leaving the loop, no call is recorded as running.
    An exception that leaves the loop ends the connection, and is the only
    way a record can be left running. *)
Theorem connection_never_busy (inputs : list (Env * raw_message))
  (self : ARPServer) :
  quiescent self ->
  Forall (fun reply => error_code_of reply <> VInt (-40004))
    (replies_to inputs self) /\
  (ended_by inputs self = None -> quiescent (state_after inputs self)) /\
  (forall env message reply,
      snd (_handle_request env message self) = Ret reply ->
      quiescent (fst (_handle_request env message self)) /\
      error_code_of reply <> VInt (-40004)) /\
  (forall call_id,
      _active_calls (state_after inputs self) !! call_id = Some RUNNING ->
      exists e, ended_by inputs self = Some e /\ is_arp_error e = false).
Proof.
  intros Hquiet.
  assert (forall env message state reply,
             quiescent state ->
             snd (_handle_request env message state) = Ret reply ->
             quiescent (fst (_handle_request env message state)) /\
             error_code_of reply <> VInt (-40004)) as Hstep.
  { intros env message state reply Hstate Hrun. split.
    - by eapply request_keeps_quiescent.
    - by apply (request_not_busy env message state). }
  destruct (connection_replies quiescent
              (fun reply => error_code_of reply <> VInt (-40004)) Hstep
              notification_keeps_quiescent ltac:(done) inputs self Hquiet)
    as [Hreplies Hend].
  split; [exact Hreplies|]. split; [exact Hend|]. split; [by auto|].
  intros call_id Hrunning.
  destruct (ended_by inputs self) as [e|] eqn:Hended.
  - exists e. split; [done|]. by eapply connection_ended.
  - by destruct (Hend eq_refl call_id).
Qed.

Lemma quiescent_fixture : quiescent fixture_server.
Proof. intros call_id. vm_compute. discriminate. Qed.

Lemma connection_never_busy_witness :
  quiescent fixture_server /\
  Forall (fun reply => error_code_of reply <> VInt (-40004))
    (replies_to sample_session fixture_server) /\
  quiescent (state_after sample_session fixture_server).
Proof.
  split; [exact quiescent_fixture|].
  destruct (connection_never_busy sample_session fixture_server
              quiescent_fixture) as (Hreplies & Hend & _).
  split; [exact Hreplies|]. by apply Hend.
Defined.

(** X4.  Call records are never removed: whatever frames arrive, every call
    identifier that has a record in [_active_calls] keeps one. *)
Theorem connection_keeps_call_records (inputs : list (Env * raw_message))
  (self : ARPServer) :
  dom (_active_calls self) ⊆ dom (_active_calls (state_after inputs self)).
Proof.
  apply (connection_invariant
           (fun self' => dom (_active_calls self) ⊆ dom (_active_calls self')));
    [| |done].
  - intros env message state Hstate.
    destruct (request_active_calls env message state)
      as [->|(call_id & status & _ & ->)]; [done|].
    rewrite dom_insert. set_solver.
  - intros message state Hstate. unfold _handle_notification.
    case_match; [|done]. unfold _handle_emergency_stop.
    case_match; [|done]. monad.
    cbn [fst _active_calls set_active_calls set_emergency_stopped].
    by rewrite dom_fmap.
Qed.

(** ** What the server was set up with *)

Lemma request_keeps_registration (env : Env) (message : WireMessage)
  (self : ARPServer) :
  same_registration self (fst (_handle_request env message self)).
Proof.
  destruct (request_cases env message self)
    as [[_ ->]|[(handler & _ & _ & _ & ->)|(handler & Hget & _ & ->)]];
    [done..|].
  rewrite reply_of_fst. handler_cases Hget; run_cases; done.
Qed.

Lemma notification_keeps_registration (message : WireMessage)
  (self : ARPServer) :
  same_registration self (fst (_handle_notification message self)).
Proof.
  unfold _handle_notification, _handle_emergency_stop.
  by repeat case_match.
Qed.

Lemma same_registration_trans (a b c : ARPServer) :
  same_registration a b -> same_registration b c -> same_registration a c.
Proof.
  unfold same_registration.
  intros (-> & -> & -> & -> & ->) (-> & -> & -> & -> & ->). done.
Qed.

(** X5.  Nothing a peer sends changes what the server was set up with:
    after any frames [server_info], [capabilities] and the three registries
    are as before.  So the handshake reply and the verdicts of the
    constraint evaluator are the same at any time. *)
Theorem connection_keeps_registration (inputs : list (Env * raw_message))
  (self : ARPServer) :
  same_registration self (state_after inputs self) /\
  (forall params params',
      snd (_handle_initialize params (state_after inputs self)) =
      snd (_handle_initialize params' self)) /\
  (forall env name arguments,
      _check_constraints env (state_after inputs self) name arguments =
      _check_constraints env self name arguments).
Proof.
  assert (same_registration self (state_after inputs self)) as Hsame.
  { apply (connection_invariant (same_registration self)); [| |done].
    - intros env message state Hstate.
      eapply same_registration_trans; [done|].
      apply request_keeps_registration.
    - intros message state Hstate.
      eapply same_registration_trans; [done|].
      apply notification_keeps_registration. }
  split; [done|]. destruct Hsame as (Hinfo & Hcap & _ & _ & Hconstraints).
  split.
  - intros params params'. unfold _handle_initialize. monad.
    cbn [snd server_info capabilities set_initialized].
    by rewrite Hinfo, Hcap.
  - intros env name arguments. unfold _check_constraints.
    by rewrite Hconstraints.
Qed.

Lemma tasks_ok_fixture : tasks_ok fixture_server.
Proof.
  repeat apply registration_keeps_tasks_ok. apply tasks_ok_init.
Qed.

(** ** Emergency stop *)

Lemma cancel_running_twice (calls : gmap string ToolState) :
  (fun state => if decide (state = RUNNING) then CANCELLED else state) <$>
    ((fun state => if decide (state = RUNNING) then CANCELLED else state) <$>
       calls) =
  (fun state => if decide (state = RUNNING) then CANCELLED else state) <$>
    calls.
Proof.
  rewrite <- map_fmap_compose. apply map_fmap_ext. intros call_id state _.
  cbn. by repeat case_decide.
Qed.

(** X7.  [_handle_emergency_stop] reads its params before it does anything.
    When params is an object, it returns with the flag set and no call
    recorded as running, adds and removes no call record, and running it
    again changes nothing.  It does not reach the subscriptions: the
    subscription table, the tasks of the event loop, the frames broadcast,
    the initialised flag and the registrations are as before.  When params
    is not an object, it raises [AttributeError] and changes nothing: the
    flag keeps its value and running calls stay running. *)
Theorem emergency_stop_effects (params params' : Params) (self : ARPServer) :
  let self' := fst (_handle_emergency_stop params self) in
  snd (_handle_emergency_stop params self) = Ret tt /\
  _emergency_stopped self' = true /\
  quiescent self' /\
  dom (_active_calls self') = dom (_active_calls self) /\
  fst (_handle_emergency_stop params' self') = self' /\
  _context_tasks self' = _context_tasks self /\
  event_loop self' = event_loop self /\
  _transport self' = _transport self /\
  _initialized self' = _initialized self /\
  same_registration self self' /\
  _handle_emergency_stop NotObject self = (self, Raise AttributeError).
Proof.
  intros self'. split; [done|]. split; [done|]. split; [|split; [|split]].
  - intros call_id. subst self'. rewrite emergency_stop_lookup.
    by destruct (_active_calls self !! call_id) as [[]|].
  - subst self'. unfold _handle_emergency_stop. monad.
    cbn [fst _active_calls set_active_calls set_emergency_stopped].
    by rewrite dom_fmap_L.
  - subst self'. unfold _handle_emergency_stop. monad.
    unfold set_active_calls, set_emergency_stopped. cbn.
    by rewrite cancel_running_twice.
  - done.
Qed.

(** ** Frames with and without an identifier *)


(** ** Replies on a connection *)

(** X9.  Replies follow the frames.  The identifiers of the replies sent on
    a connection are, in order, a prefix of the identifiers of the frames
    that call for a reply (0 for a frame that is not JSON), and all of them
    when no exception ends the loop.  Every reply is marked JSON-RPC 2.0,
    and an exception that ends the loop is never an [ARPError]. *)
Theorem connection_reply_ids (inputs : list (Env * raw_message))
  (self : ARPServer) :
  map (read "id") (replies_to inputs self)
    `prefix_of` omap (fun input => reply_id (snd input)) inputs /\
  (ended_by inputs self = None ->
   map (read "id") (replies_to inputs self) =
   omap (fun input => reply_id (snd input)) inputs) /\
  (forall e, ended_by inputs self = Some e -> is_arp_error e = false) /\
  Forall (fun reply => read "jsonrpc" reply = VStr "2.0")
    (replies_to inputs self).
Proof.
  unfold replies_to, ended_by. revert self.
  induction inputs as [|[env raw] rest IH]; intros self.
  { cbn. split; [done|]. split; [done|]. split; [done|]. by apply Forall_nil. }
  cbn [_handle_connection omap list_omap snd]. rewrite receive_run.
  destruct raw as [|message].
  - specialize (IH self).
    destruct (_handle_connection rest self) as [[final replies] ended].
    cbn [fst snd map reply_id] in *.
    destruct IH as (Hprefix & Hall & Hend & Hrpc).
    split; [by apply prefix_cons|]. split; [by intros ->%Hall|].
    split; [done|]. by apply Forall_cons.
  - cbn [reply_id]. destruct (wire_id message) as [id|] eqn:Hid.
    + destruct (snd (_handle_request env message self)) as [reply|e] eqn:Hrun;
        cbn [obind].
      * specialize (IH (fst (_handle_request env message self))).
        destruct (_handle_connection rest _) as [[final replies] ended].
        cbn [fst snd map] in *.
        destruct IH as (Hprefix & Hall & Hend & Hrpc).
        destruct (request_reply_id _ _ _ _ Hrun) as [Hreply Hversion].
        rewrite Hid in Hreply. cbn in Hreply. rewrite Hreply.
        split; [by apply prefix_cons|]. split; [by intros ->%Hall|].
        split; [done|]. by apply Forall_cons.
      * cbn [fst snd map]. split; [apply prefix_nil|]. split; [done|].
        split; [|by apply Forall_nil].
        intros ? [= <-]. by eapply request_raises.
    + destruct (snd (_handle_notification message self)) as [[]|e] eqn:Hrun;
        cbn [obind].
      * specialize (IH (fst (_handle_notification message self))).
        by destruct (_handle_connection rest _) as [[final replies] ended].
      * cbn [fst snd map]. split; [apply prefix_nil|]. split; [done|].
        split; [|by apply Forall_nil].
        intros ? [= <-]. by destruct (notification_raises _ _ _ Hrun) as [-> _].
Qed.

(** ** Shutdown and stop *)

Lemma cancel_all_length (tasks : gmap string nat) (loop : list Task) :
  length (map_fold (fun _ task loop => cancel_task task loop) loop tasks) =
  length loop.
Proof.
  apply (map_fold_weak_ind
           (fun (r : list Task) (m : gmap string nat) =>
              length r = length loop)); [done|].
  intros k x m r _ IH. unfold cancel_task. by rewrite length_alter.
Qed.

Lemma cancel_all_cancels (self : ARPServer) (i : nat) (t : Task) :
  tasks_ok self ->
  map_fold (fun _ task loop => cancel_task task loop) (event_loop self)
    (_context_tasks self) !! i = Some t ->
  task_cancelled t = true.
Proof.
  intros [_ Hlive] Hi.
  destruct (cancel_all_origin _ _ _ _ Hi) as [|Hsame]; [done|].
  destruct (task_cancelled t) eqn:Hcancelled; [done|].
  rewrite <- Hcancelled.
  eapply cancel_all_lookup; [|exact Hi]. by apply Hlive.
Qed.

(** X10.  [_handle_shutdown] and [stop] end every stream.  When the
    subscription table and the event loop agree, after [arp.shutdown] every
    task of the event loop is cancelled, none is dropped, and the table is
    empty; the call records, the emergency-stop flag and the registrations
    are kept.  [stop] does the same and leaves the initialised flag as it
    is. *)
Theorem shutdown_stops_streams (params : Params) (self : ARPServer) :
  tasks_ok self ->
  let self' := fst (_handle_shutdown params self) in
  all_cancelled self' /\
  _context_tasks self' = ∅ /\
  length (event_loop self') = length (event_loop self) /\
  _initialized self' = false /\
  _active_calls self' = _active_calls self /\
  _emergency_stopped self' = _emergency_stopped self /\
  same_registration self self' /\
  self' = set_initialized false (fst (stop self)) /\
  all_cancelled (fst (stop self)) /\
  _initialized (fst (stop self)) = _initialized self.
Proof.
  intros Hok self'. subst self'. unfold _handle_shutdown, stop. monad.
  cbn [fst event_loop _context_tasks _initialized _active_calls
           _emergency_stopped set_event_loop set_context_tasks
           set_initialized].
  split; [|split; [done|split; [apply cancel_all_length|]]].
  - intros i t Hi. by eapply cancel_all_cancels.
  - do 5 (split; [done|]). split; [|done].
    intros i t Hi. by eapply cancel_all_cancels.
Qed.

Lemma tasks_ok_subscribed :
  tasks_ok
    (fst (_handle_subscribe_context (name_params "odometry") fixture_server)).
Proof.
  rewrite (subscribe_registered _ _
             {| source_name := "odometry";
                source_description := "Robot odometry"; data_type := POSE;
                coordinate_frame := Some "world";
                update_rate := Some (Fin 10); schema_def := None |})
    by reflexivity.
  apply tasks_ok_subscribe; [apply tasks_ok_fixture|done].
Qed.

Lemma shutdown_stops_streams_witness :
  let subscribed :=
    fst (_handle_subscribe_context (name_params "odometry") fixture_server) in
  tasks_ok subscribed /\
  all_cancelled (fst (_handle_shutdown empty_params subscribed)).
Proof.
  intros subscribed. split; [exact tasks_ok_subscribed|].
  apply (shutdown_stops_streams empty_params subscribed tasks_ok_subscribed).
Defined.

(** ** Subscription rates *)

(** X11.  The rate of a new subscription is [maxRate] when that is truthy,
    else the update rate of the source when that is truthy, else 1.0; it is
    never zero or [None].  A [maxRate] of 0 is ignored, and a truthy
    [maxRate] is taken as it is, whatever the rate of the source. *)
Theorem subscribe_rate (params : Params) (self : ARPServer)
  (source : ContextSource) :
  let name := default "" (p_name params) in
  let max_rate := default VNone (p_maxRate params) in
  let source_rate := opt_float (update_rate source) in
  dict_get name (_context_sources self) = Some source ->
  _context_tasks self !! name = None ->
  exists rate,
    event_loop (fst (_handle_subscribe_context params self)) =
    event_loop self ++
    [{| task_name := name; task_rate := rate; task_cancelled := false |}] /\
    _context_tasks (fst (_handle_subscribe_context params self)) =
    <[name := length (event_loop self)]> (_context_tasks self) /\
    truthy rate = true /\
    (truthy max_rate = true -> rate = max_rate) /\
    (truthy max_rate = false -> truthy source_rate = true ->
     rate = source_rate) /\
    (truthy max_rate = false -> truthy source_rate = false ->
     rate = VFloat (Fin 1)).
Proof.
  intros name max_rate source_rate Hsource Hfree.
  rewrite (subscribe_registered _ _ source) by done.
  fold name max_rate source_rate. rewrite Hfree.
  rewrite bool_decide_eq_false_2 by apply is_Some_None.
  eexists. split; [reflexivity|]. split; [reflexivity|].
  unfold py_or.
  destruct (truthy max_rate) eqn:Hmax; [by rewrite Hmax|].
  destruct (truthy source_rate) eqn:Hsrc; [by rewrite Hsrc|done].
Qed.

Lemma subscribe_rate_witness :
  let params :=
    {| p_name := Some "odometry"; p_callId := None; p_arguments := None;
       p_maxRate := Some (VInt 0); p_reason := None |} in
  _context_tasks fixture_server !! "odometry" = None /\
  event_loop (fst (_handle_subscribe_context params fixture_server)) =
  [{| task_name := "odometry"; task_rate := VFloat (Fin 10);
      task_cancelled := false |}].
Proof.
  intros params. split; [reflexivity|].
  destruct (subscribe_rate params fixture_server
              {| source_name := "odometry";
                 source_description := "Robot odometry"; data_type := POSE;
                 coordinate_frame := Some "world";
                 update_rate := Some (Fin 10); schema_def := None |}
              eq_refl eq_refl)
    as (rate & Hloop & _ & _ & _ & Hsource & _).
  rewrite Hloop, (Hsource eq_refl eq_refl). reflexivity.
Defined.

(** X12.  Unsubscribing and subscribing again starts a new task.  The old
    task stays in the event loop, cancelled, and is not live; the table
    points to a task with a new index, created for the source at the rate
    the second request asks for.  The event loop has not run the new task
    yet, so it is live, and it is the only task of the source that is live,
    and the only one whose cancellation has not been requested. *)
Theorem resubscribe_fresh_task (self : ARPServer)
  (unsubscribe subscribe : Params) (name : string) (source : ContextSource)
  (task : nat) :
  tasks_ok self ->
  coroutines_ok self ->
  default "" (p_name unsubscribe) = name ->
  default "" (p_name subscribe) = name ->
  dict_get name (_context_sources self) = Some source ->
  _context_tasks self !! name = Some task ->
  let after :=
    fst (_handle_subscribe_context subscribe
           (fst (_handle_unsubscribe_context unsubscribe self))) in
  (task < length (event_loop self))%nat /\
  _context_tasks after !! name = Some (length (event_loop self)) /\
  (exists t,
      event_loop after !! task = Some t /\
      task_name t = name /\ task_cancelled t = true) /\
  (exists t,
      event_loop after !! length (event_loop self) = Some t /\
      uncancelled name t /\
      task_rate t =
      py_or (py_or (default VNone (p_maxRate subscribe))
               (opt_float (update_rate source)))
        (VFloat (Fin 1))) /\
  coroutines after !! length (event_loop self) = None /\
  live name after (length (event_loop self)) /\
  ~ live name after task /\
  one_uncancelled_task name after /\
  one_live_task name after /\
  tasks_ok after /\
  coroutines_ok after.
Proof.
  intros Hok Hco Hun Hsub Hsource Htask after.
  pose proof (tasks_ok_unsubscribe self name task Hok Htask) as Hok'.
  destruct Hok as [Hrefs _].
  destruct (Hrefs _ _ Htask) as (t & Ht & Hname & _).
  assert (task < length (event_loop self))%nat as Hbound
    by by eapply lookup_lt_Some.
  assert (after =
          set_context_tasks (insert name (length (event_loop self)))
            (set_event_loop
               (create_task name
                  (py_or (py_or (default VNone (p_maxRate subscribe))
                            (opt_float (update_rate source)))
                     (VFloat (Fin 1))))
               (set_context_tasks (delete name)
                  (set_event_loop (cancel_task task) self)))) as ->.
  { subst after. rewrite unsubscribe_run, Hun, Htask. cbn [fst].
    rewrite (subscribe_registered _ _ source)
      by by rewrite Hsub.
    rewrite Hsub. cbn [fst _context_tasks set_context_tasks set_event_loop].
    rewrite lookup_delete_eq.
    rewrite bool_decide_eq_false_2 by apply is_Some_None.
    cbn [event_loop set_event_loop set_context_tasks]. unfold cancel_task.
    by rewrite length_alter. }
  assert (tasks_ok
            (set_context_tasks (insert name (length (event_loop self)))
               (set_event_loop
                  (create_task name
                     (py_or (py_or (default VNone (p_maxRate subscribe))
                               (opt_float (update_rate source)))
                        (VFloat (Fin 1))))
                  (set_context_tasks (delete name)
                     (set_event_loop (cancel_task task) self))))) as Hafter.
  { pose proof (tasks_ok_subscribe _ name
                  (py_or (py_or (default VNone (p_maxRate subscribe))
                            (opt_float (update_rate source)))
                     (VFloat (Fin 1))) Hok') as Hsubscribed.
    cbn [event_loop _context_tasks set_context_tasks set_event_loop]
      in Hsubscribed.
    unfold cancel_task in Hsubscribed at 1.
    rewrite length_alter in Hsubscribed. apply Hsubscribed.
    apply lookup_delete_eq. }
  set (after :=
         set_context_tasks (insert name (length (event_loop self)))
           (set_event_loop
              (create_task name
                 (py_or (py_or (default VNone (p_maxRate subscribe))
                           (opt_float (update_rate source)))
                    (VFloat (Fin 1))))
              (set_context_tasks (delete name)
                 (set_event_loop (cancel_task task) self)))) in *.
  assert (_context_tasks after !! name = Some (length (event_loop self)))
    as Hentry by apply lookup_insert_eq.
  assert (coroutines after !! length (event_loop self) = None) as Hnew.
  { change (coroutines after) with (coroutines self).
    destruct (coroutines self !! length (event_loop self)) eqn:Hc; [|done].
    assert (length (event_loop self) < length (event_loop self))%nat;
      [by apply Hco|lia]. }
  assert (finished after (length (event_loop self)) = false) as Hrunning
    by (unfold finished; by rewrite Hnew).
  assert (event_loop after !! task =
          Some {| task_name := task_name t; task_rate := task_rate t;
                  task_cancelled := true |}) as Hold.
  { subst after. cbn [event_loop set_context_tasks set_event_loop].
    unfold create_task, cancel_task.
    rewrite lookup_app_l by by rewrite length_alter.
    by rewrite list_lookup_alter_eq, Ht. }
  pose proof (tasks_ok_one_live after name _ Hafter Hentry Hrunning)
    as Hone.
  split; [done|]. split; [done|]. split; [by eexists|]. split.
  { eexists. split.
    - subst after. cbn [event_loop set_context_tasks set_event_loop].
      unfold create_task, cancel_task.
      rewrite lookup_app_r by by rewrite length_alter.
      by rewrite length_alter, Nat.sub_diag.
    - by split. }
  split; [done|]. split.
  { destruct Hone as (live_task & Hlive & _).
    pose proof (tasks_ok_live_entry _ _ _ Hafter Hlive). congruence. }
  split.
  { intros (t' & Ht' & [_ Hcancelled] & _). rewrite Hold in Ht'.
    by simplify_eq. }
  split; [by eapply tasks_ok_one_uncancelled|]. split; [done|].
  split; [done|].
  intros i Hi. change (coroutines after) with (coroutines self) in Hi.
  apply Hco in Hi. subst after.
  cbn [event_loop set_context_tasks set_event_loop].
  unfold create_task, cancel_task. rewrite length_app, length_alter. lia.
Qed.

Lemma resubscribe_fresh_task_witness :
  let subscribed :=
    fst (_handle_subscribe_context (name_params "odometry") fixture_server) in
  let after :=
    fst (_handle_subscribe_context (name_params "odometry")
           (fst (_handle_unsubscribe_context (name_params "odometry")
                   subscribed))) in
  tasks_ok subscribed /\
  coroutines_ok subscribed /\
  _context_tasks subscribed !! "odometry" = Some 0%nat /\
  _context_tasks after !! "odometry" = Some 1%nat /\
  live "odometry" after 1 /\
  ~ live "odometry" after 0.
Proof.
  intros subscribed after.
  assert (coroutines_ok subscribed) as Hco.
  { intros task [c H].
    change (coroutines subscribed) with (∅ : gmap nat Coroutine) in H.
    by rewrite lookup_empty in H. }
  split; [exact tasks_ok_subscribed|]. split; [exact Hco|].
  split; [reflexivity|].
  destruct (resubscribe_fresh_task subscribed (name_params "odometry")
              (name_params "odometry") "odometry"
              {| source_name := "odometry";
                 source_description := "Robot odometry"; data_type := POSE;
                 coordinate_frame := Some "world";
                 update_rate := Some (Fin 10); schema_def := None |}
              0%nat tasks_ok_subscribed Hco eq_refl eq_refl eq_refl eq_refl)
    as (_ & Hentry & _ & _ & _ & Hlive & Hold & _).
  split; [exact Hentry|]. split; [exact Hlive|exact Hold].
Defined.

(** ** The subscription table over a connection *)

Lemma request_loop_grows (env : Env) (message : WireMessage)
  (self : ARPServer) :
  coroutines (fst (_handle_request env message self)) = coroutines self /\
  (length (event_loop self) <=
   length (event_loop (fst (_handle_request env message self))))%nat.
Proof.
  destruct (request_cases env message self)
    as [[_ ->]|[(handler & _ & _ & _ & ->)|(handler & Hget & _ & ->)]];
    [done..|].
  rewrite reply_of_fst. handler_cases Hget; run_cases;
    cbn [fst coroutines event_loop set_active_calls set_initialized
           set_event_loop set_context_tasks set_transport];
    (split; [done|]); try done.
  - by rewrite cancel_all_length.
  - unfold create_task. rewrite length_app. lia.
  - unfold cancel_task. by rewrite length_alter.
Qed.

Lemma notification_loop_same (message : WireMessage) (self : ARPServer) :
  coroutines (fst (_handle_notification message self)) = coroutines self /\
  event_loop (fst (_handle_notification message self)) = event_loop self.
Proof.
  unfold _handle_notification, _handle_emergency_stop.
  by repeat case_match.
Qed.

Lemma coroutines_ok_grows (self self' : ARPServer) :
  coroutines self' = coroutines self ->
  (length (event_loop self) <= length (event_loop self'))%nat ->
  coroutines_ok self -> coroutines_ok self'.
Proof.
  intros Hsame Hlen Hok task Htask. rewrite Hsame in Htask.
  apply Hok in Htask. lia.
Qed.

(** A turn of a task changes the coroutine of that task and the frames
    broadcast, nothing else. *)
Lemma resume_keeps (env : Env) (task : nat) (self : ARPServer) :
  let self' := fst (resume env task self) in
  snd (resume env task self) = Ret tt /\
  _context_tasks self' = _context_tasks self /\
  event_loop self' = event_loop self /\
  _active_calls self' = _active_calls self /\
  _initialized self' = _initialized self /\
  _emergency_stopped self' = _emergency_stopped self /\
  same_registration self self' /\
  (forall other, other <> task ->
     coroutines self' !! other = coroutines self !! other) /\
  (coroutines_ok self -> coroutines_ok self').
Proof.
  unfold resume, _context_stream_loop, stream_pass. monad.
  destruct (event_loop self !! task) as [t|] eqn:Ht; [|done].
  assert (task < length (event_loop self))%nat as Hbound
    by by eapply lookup_lt_Some.
  unfold coroutines_ok.
  run_cases;
    cbn [fst snd _context_tasks event_loop _active_calls _initialized
           _emergency_stopped coroutines set_coroutines set_transport];
    repeat (split; [done|]);
    (split; [by intros other Hne; rewrite lookup_insert_ne|]);
    intros Hok other [state' Hstate'];
    (destruct (decide (other = task)) as [->|Hne]; [done|]);
    rewrite lookup_insert_ne in Hstate' by done; by apply Hok.
Qed.

(** X6.  The subscription table and the event loop stay in agreement over
    any frames and over any turns of the subscription tasks.  A source in
    the table has exactly one task whose cancellation has not been
    requested, the one the table refers to; a source outside the table has
    none, and no live task.  So a source never has two live tasks, and a
    live task is always the one the table refers to.  The converse does not
    hold: the task the table refers to may have ended by itself. *)
Theorem connection_keeps_tasks_ok (inputs : list (Env * raw_message))
  (self : ARPServer) :
  tasks_ok self ->
  coroutines_ok self ->
  let final := state_after inputs self in
  tasks_ok final /\
  coroutines_ok final /\
  (forall env task,
      tasks_ok (fst (resume env task final)) /\
      coroutines_ok (fst (resume env task final)) /\
      _context_tasks (fst (resume env task final)) = _context_tasks final) /\
  (forall name,
      (is_Some (_context_tasks final !! name) /\
       one_uncancelled_task name final) \/
      (_context_tasks final !! name = None /\
       no_uncancelled_task name final /\
       no_live_task name final)) /\
  (forall name task task',
      live name final task -> live name final task' -> task = task') /\
  (forall name task,
      live name final task -> _context_tasks final !! name = Some task).
Proof.
  intros Hok Hco final.
  assert (tasks_ok final) as Hafter.
  { apply connection_invariant;
      auto using request_keeps_tasks_ok, notification_keeps_tasks_ok. }
  assert (coroutines_ok final) as Hcoafter.
  { apply (connection_invariant coroutines_ok); [| |done].
    - intros env message state Hstate.
      destruct (request_loop_grows env message state) as [Hsame Hlen].
      by apply (coroutines_ok_grows state).
    - intros message state Hstate.
      destruct (notification_loop_same message state) as [Hsame Hlen].
      apply (coroutines_ok_grows state); [done| |done]. by rewrite Hlen. }
  split; [done|]. split; [done|]. split; [|split; [|split]].
  - intros env task.
    destruct (resume_keeps env task final)
      as (_ & Htable & Hloop & _ & _ & _ & _ & _ & Hkeep).
    split; [by apply (tasks_ok_same final)|]. split; [by apply Hkeep|done].
  - intros name.
    destruct (_context_tasks final !! name) as [task|] eqn:Hn.
    + left. split; [done|]. by eapply tasks_ok_one_uncancelled.
    + right. split; [done|].
      split; [by apply tasks_ok_no_uncancelled|by apply tasks_ok_no_live].
  - intros name task task' Hlive Hlive'.
    pose proof (tasks_ok_live_entry _ _ _ Hafter Hlive).
    pose proof (tasks_ok_live_entry _ _ _ Hafter Hlive'). congruence.
  - intros name task. by apply tasks_ok_live_entry.
Qed.

Lemma coroutines_ok_fixture : coroutines_ok fixture_server.
Proof.
  intros task [c H].
  change (coroutines fixture_server) with (∅ : gmap nat Coroutine) in H.
  by rewrite lookup_empty in H.
Qed.

Lemma connection_keeps_tasks_ok_witness :
  let final := state_after subscription_session fixture_server in
  tasks_ok fixture_server /\
  coroutines_ok fixture_server /\
  tasks_ok final /\
  _context_tasks final !! "odometry" = Some 1%nat /\
  one_uncancelled_task "odometry" final /\
  no_live_task "lidar" final.
Proof.
  intros final.
  split; [exact tasks_ok_fixture|]. split; [exact coroutines_ok_fixture|].
  destruct (connection_keeps_tasks_ok subscription_session fixture_server
              tasks_ok_fixture coroutines_ok_fixture)
    as (Hok & _ & _ & Hnames & _).
  split; [exact Hok|].
  assert (_context_tasks final !! "odometry" = Some 1%nat) as Hentry
    by (vm_compute; reflexivity).
  assert (_context_tasks final !! "lidar" = None) as Hnone
    by (vm_compute; reflexivity).
  split; [exact Hentry|]. split.
  - destruct (Hnames "odometry") as [[_ Hone]|[Habsent _]]; [exact Hone|].
    fold final in Habsent. congruence.
  - destruct (Hnames "lidar") as [[[task Hsome] _]|(_ & _ & Hdead)];
      [|exact Hdead].
    fold final in Hsome. congruence.
Defined.

(** ** Registries *)

Lemma dict_set_keys {A : Type} (d : list (string * A)) (k : string) (v : A) :
  map fst (dict_set k v d) =
  if dict_mem k d then map fst d else map fst d ++ [k].
Proof.
  unfold dict_mem. induction d as [|[k' v'] d IH]; [done|].
  cbn [dict_set dict_get]. destruct (String.eqb k k') eqn:E.
  - apply String.eqb_eq in E as ->. done.
  - cbn [map fst]. rewrite IH. by destruct (dict_get k d).
Qed.

Lemma dict_get_keys {A : Type} (d : list (string * A)) (k : string) :
  dict_get k d = None <-> k ∉ map fst d.
Proof.
  induction d as [|[k' v'] d IH]; cbn [dict_get map fst].
  - split; [intros _; apply not_elem_of_nil|done].
  - rewrite not_elem_of_cons. destruct (String.eqb k k') eqn:E.
    + apply String.eqb_eq in E. split; [done|]. by intros [].
    + apply String.eqb_neq in E. rewrite IH. tauto.
Qed.

Lemma keyed_set {A : Type} (name : A -> string) (d : list (string * A))
  (k : string) (v : A) :
  keyed name d -> name v = k -> keyed name (dict_set k v d).
Proof.
  intros [Hkeys Hnames] Hv. split.
  - rewrite dict_set_keys. destruct (dict_mem k d) eqn:Hmem; [done|].
    apply NoDup_app. split; [done|]. split; [|apply NoDup_singleton].
    apply dict_mem_get, dict_get_keys in Hmem.
    intros x Hx ->%list_elem_of_singleton. done.
  - clear Hkeys. induction d as [|[k' v'] d IH]; cbn [dict_set].
    + by apply Forall_singleton.
    + apply Forall_cons in Hnames as [Hhead Htail].
      destruct (String.eqb k k'); apply Forall_cons; split; auto.
Qed.


Lemma registries_ok_init (name version : string)
  (robot_model robot_type : option string) :
  registries_ok (__init__ name version robot_model robot_type).
Proof.
  repeat split; first [apply NoDup_nil_2 | by apply Forall_nil].
Qed.

Lemma registration_ok (self : ARPServer) :
  registries_ok self ->
  (forall constraint, registries_ok (add_constraint constraint self)) /\
  (forall name description metadata parameters preconditions effects duration,
      registries_ok
        (tool name description metadata parameters preconditions effects
           duration self)) /\
  (forall name description data_type frame rate,
      registries_ok (context name description data_type frame rate self)).
Proof.
  intros (Htools & Hsources & Hconstraints). split; [|split]; intros.
  - split; [done|]. split; [done|]. by apply keyed_set.
  - split; [by apply keyed_set|]. by split.
  - split; [done|]. split; [by apply keyed_set|done].
Qed.

(** X13.  Registration keeps the registries well keyed: each name once,
    each descriptor under its own name.  After [add_constraint], [tool] or
    [context] the descriptor is found under its name and every other name
    resolves as before; a constraint registered under a known name takes the
    place of the old one, under a new name it goes last. *)
Theorem registration_keeps_registries (self : ARPServer) :
  registries_ok self ->
  (forall constraint,
      let self' := add_constraint constraint self in
      registries_ok self' /\
      dict_get (constraint_name constraint) (_constraints self') =
        Some constraint /\
      (forall other,
          other <> constraint_name constraint ->
          dict_get other (_constraints self') =
          dict_get other (_constraints self)) /\
      map fst (_constraints self') =
        (if dict_mem (constraint_name constraint) (_constraints self)
         then map fst (_constraints self)
         else map fst (_constraints self) ++ [constraint_name constraint])) /\
  (forall name description metadata parameters preconditions effects duration,
      let self' :=
        tool name description metadata parameters preconditions effects
          duration self in
      registries_ok self' /\
      (exists tool_def,
          dict_get name (_tools self') = Some tool_def /\
          tool_name tool_def = name /\ safety tool_def = metadata) /\
      (forall other,
          other <> name ->
          dict_get other (_tools self') = dict_get other (_tools self))) /\
  (forall name description data_type frame rate,
      let self' := context name description data_type frame rate self in
      registries_ok self' /\
      (exists source,
          dict_get name (_context_sources self') = Some source /\
          source_name source = name /\ update_rate source = rate) /\
      (forall other,
          other <> name ->
          dict_get other (_context_sources self') =
          dict_get other (_context_sources self))).
Proof.
  intros Hok. split; [|split].
  - intros constraint self'. subst self'. unfold add_constraint.
    cbn [_constraints set_constraints]. split; [|split; [|split]].
    + by apply registration_ok.
    + apply dict_get_set_eq.
    + intros other Hne. by apply dict_get_set_ne.
    + apply dict_set_keys.
  - intros name description metadata parameters preconditions effects duration
      self'.
    subst self'. unfold tool. cbn [_tools set_tools]. split; [|split].
    + by apply registration_ok.
    + eexists. split; [apply dict_get_set_eq|done].
    + intros other Hne. by apply dict_get_set_ne.
  - intros name description data_type frame rate self'.
    subst self'. unfold context.
    cbn [_context_sources set_context_sources]. split; [|split].
    + by apply registration_ok.
    + eexists. split; [apply dict_get_set_eq|done].
    + intros other Hne. by apply dict_get_set_ne.
Qed.

Lemma registries_ok_fixture : registries_ok fixture_server.
Proof.
  unfold fixture_server.
  repeat first
    [ apply registration_ok
    | apply registries_ok_init ].
Qed.

Lemma registration_keeps_registries_witness :
  registries_ok fixture_server /\
  dict_get "speed_limit"
    (_constraints (add_constraint speed_limit fixture_server)) =
  Some speed_limit.
Proof.
  split; [exact registries_ok_fixture|].
  destruct (registration_keeps_registries fixture_server registries_ok_fixture)
    as [Hadd _].
  destruct (Hadd speed_limit) as (_ & Hget & _). exact Hget.
Defined.



(** ** What the evaluator looks at *)

Lemma check_coordinates_same_name (env : Env) (c c' : SafetyConstraint)
  (target mins maxs : value) (range : list nat) :
  constraint_name c = constraint_name c' ->
  check_coordinates env c target mins maxs range =
  check_coordinates env c' target mins maxs range.
Proof.
  intros Hname. induction range as [|i rest IH]; [done|].
  cbn [check_coordinates]. by rewrite Hname, IH.
Qed.

Lemma check_constraint_same_rule (env : Env) (c c' : SafetyConstraint)
  (arguments : list (string * value)) :
  same_rule c c' ->
  check_constraint env c arguments = check_constraint env c' arguments.
Proof.
  intros (Hname & Htype & Henabled & Hparameters).
  unfold check_constraint, check_workspace_bound, check_velocity_limit.
  rewrite Htype, Henabled, Hparameters.
  by rewrite (check_coordinates_same_name env c c').
Qed.

(** X15.  The verdict of the evaluator depends on the arguments and on the
    name, type, enabled flag and parameters of each constraint, in the order
    of registration.  The tool that is called, the priority of a constraint
    and its violation action play no part: a constraint that asks to clamp
    or to stop rejects like one that asks to reject. *)
Theorem evaluator_ignores_policy (env : Env) (self self' : ARPServer)
  (name name' : string) (arguments : list (string * value)) :
  Forall2 same_rule (dict_values (_constraints self))
    (dict_values (_constraints self')) ->
  _check_constraints env self name arguments =
  _check_constraints env self' name' arguments.
Proof.
  unfold _check_constraints.
  induction 1 as [|c c' rest rest' Hrule _ IH]; [done|].
  cbn [check_each]. by rewrite (check_constraint_same_rule env c c'), IH.
Qed.

Lemma evaluator_ignores_policy_witness :
  let clamping :=
    {| constraint_name := "workspace_limits";
       constraint_type := WORKSPACE_BOUND; enabled := true; priority := -5;
       constraint_parameters :=
         [ ("min", VList [VInt (-2); VInt (-2); VInt 0]);
           ("max", VList [VInt 2; VInt 2; VInt 3]) ];
       violation_action := CLAMP |} in
  let arguments := [("target", VList [VInt 5; VInt 0; VInt 0])] in
  _check_constraints fixture_env
    (add_constraint clamping (__init__ "robot" "0.1.0" None None))
    "move_to" arguments =
  _check_constraints fixture_env
    (add_constraint workspace_limits (__init__ "robot" "0.1.0" None None))
    "pick_up" arguments.
Proof.
  intros clamping arguments.
  apply (evaluator_ignores_policy fixture_env
           (add_constraint clamping (__init__ "robot" "0.1.0" None None))
           (add_constraint workspace_limits
              (__init__ "robot" "0.1.0" None None))
           "move_to" "pick_up" arguments).
  constructor; [by repeat split|constructor].
Defined.

Lemma check_constraint_not_enforced (env : Env) (c : SafetyConstraint)
  (arguments : list (string * value)) :
  enforced c = false -> check_constraint env c arguments = Ret None.
Proof.
  unfold enforced, check_constraint.
  destruct (enabled c); [|done]. cbn [andb negb].
  destruct (constraint_type c); try done; intros _;
    repeat (destruct (decide _) as [|]; try done).
Qed.

(** X16.  A constraint that is disabled, or whose type is neither
    [workspace_bound] nor [velocity_limit], is never enforced: it has no
    effect on any arguments, and registering it under a new name changes no
    verdict.  Force limits, collision zones, rate limits and emergency-stop
    constraints are of this kind. *)
Theorem unenforced_constraints (env : Env) (c : SafetyConstraint) :
  enforced c = false ->
  (forall arguments, no_effect env c arguments) /\
  (forall self name arguments,
      dict_get (constraint_name c) (_constraints self) = None ->
      _check_constraints env (add_constraint c self) name arguments =
      _check_constraints env self name arguments).
Proof.
  intros Hoff. split.
  - intros arguments. by apply check_constraint_not_enforced.
  - intros self name arguments Hfresh.
    unfold _check_constraints, add_constraint.
    cbn [_constraints set_constraints].
    rewrite dict_values_set_fresh by done. rewrite check_each_app.
    rewrite check_constraint_not_enforced by done.
    by destruct (check_each env _ arguments) as [[]|].
Qed.

Lemma unenforced_constraints_witness :
  let force_limit :=
    {| constraint_name := "grip_force"; constraint_type := FORCE_LIMIT;
       enabled := true; priority := 100;
       constraint_parameters := [("max_force", VInt 10)];
       violation_action := ACTION_EMERGENCY_STOP |} in
  enforced force_limit = false /\
  no_effect fixture_env force_limit [("force", VInt 500)].
Proof.
  intros force_limit. split; [reflexivity|].
  apply (unenforced_constraints fixture_env force_limit eq_refl).
Defined.

Lemma py_get_set_ne (d : list (string * value)) (k k' : string) (v : value) :
  k <> k' -> py_get k' (dict_set k v d) = py_get k' d.
Proof. intros Hne. unfold py_get. by rewrite dict_get_set_ne. Qed.

(** X17.  A truthy [velocity] argument hides [speed]: the verdict on a
    constraint is the same whatever [speed] is set to.  If that velocity is
    not a number, a velocity limit lets the call pass, whatever the
    speed. *)
Theorem velocity_hides_speed (env : Env) (c : SafetyConstraint)
  (arguments : list (string * value)) (speed : value) :
  truthy (py_get "velocity" arguments) = true ->
  check_constraint env c (dict_set "speed" speed arguments) =
  check_constraint env c arguments /\
  (is_number (py_get "velocity" arguments) = false ->
   constraint_type c = VELOCITY_LIMIT ->
   check_constraint env c (dict_set "speed" speed arguments) = Ret None).
Proof.
  intros Hvelocity.
  assert (check_velocity_limit env c (dict_set "speed" speed arguments) =
          check_velocity_limit env c arguments) as Hsame.
  { unfold check_velocity_limit, py_or.
    rewrite py_get_set_ne by done. by rewrite Hvelocity. }
  assert (check_workspace_bound env c (dict_set "speed" speed arguments) =
          check_workspace_bound env c arguments) as Hbound.
  { unfold check_workspace_bound. by rewrite py_get_set_ne by done. }
  assert (check_constraint env c (dict_set "speed" speed arguments) =
          check_constraint env c arguments) as Hcheck.
  { unfold check_constraint. by rewrite Hsame, Hbound. }
  split; [done|]. intros Hnumber Htype. rewrite Hcheck.
  unfold check_constraint. rewrite Htype.
  destruct (enabled c); [|done]. cbn [negb].
  destruct (decide (VELOCITY_LIMIT = WORKSPACE_BOUND)) as [|_]; [done|].
  cbn [obind]. destruct (decide _) as [_|]; [|done].
  unfold check_velocity_limit, py_or. rewrite Hvelocity, Hnumber.
  by destruct (negb _).
Qed.

Lemma velocity_hides_speed_witness :
  check_constraint fixture_env speed_limit
    (dict_set "speed" (VInt 100) [("velocity", VStr "fast")]) =
  Ret None.
Proof.
  apply (velocity_hides_speed fixture_env speed_limit
           [("velocity", VStr "fast")] (VInt 100) eq_refl); reflexivity.
Defined.

(** ** The client's view of a tool call *)

Lemma call_tool_returns (env : Env) (params : Params) (self self' : ARPServer)
  (result : value) :
  _handle_call_tool env params self = (self', Ret result) ->
  exists record,
    result = dump_CallToolResult true record /\
    result_call_id record = call_id_of env params /\
    (result_state record = COMPLETED \/ result_state record = FAILED) /\
    _active_calls self' !! call_id_of env params = Some (result_state record).
Proof.
  unfold _handle_call_tool, _send_progress, call_id_of. monad.
  run_cases; intros Hrun; simplify_eq;
    (eexists; split; [reflexivity|]; split; [reflexivity|]; split;
     [cbn; auto|]);
    cbn [_active_calls set_active_calls set_transport result_state];
    apply lookup_insert_eq.
Qed.

Lemma call_tool_request_cases (env : Env) (id : Z) (name call_id : string)
  (arguments : list (string * value)) (self : ARPServer) :
  let message := call_tool_request id name call_id arguments in
  (_initialized self = false /\
   _handle_request env message self =
   (self,
    Ret (error_response (VInt id)
           [("code", VInt (-40009)); ("message", VStr "Not initialized")])))
  \/
  (_initialized self = true /\
   _handle_request env message self =
   reply_of (VInt id)
     (_handle_call_tool env (call_params name (Some call_id) arguments) self)).
Proof.
  intros message.
  destruct (message_cases env message self)
    as [[Hget _]|[(handler & _ & _ & Hinit & Hrun)|
                  (handler & Hget & Hready & Hrun)]].
  - done.
  - by left.
  - right. cbn in Hget. simplify_eq. destruct Hready as [|Hready]; [done|].
    by split.
Qed.

(** X18.  [ARPClient.call_tool] against the server.  An initialised client
    never keeps the progress callback of the call.  When the server rejects
    the call, for whatever reason, the client returns a failed result that
    carries the message of the server, and the server is unchanged; when the
    call runs to a result, the client validates exactly the result the
    server filed under the call identifier, completed or failed.  Otherwise
    no reply is sent: an exception that is not an [ARPError] leaves the
    request handler, either before the call was filed, the server being
    unchanged, or out of the tool handler, the call being left recorded as
    running. *)
Theorem call_tool_end_to_end
  (validate : value -> CallToolResult + ClientError) (env : Env) (id : Z)
  (name call_id : string) (arguments : list (string * value))
  (on_progress : bool) (server : ARPServer) (client : ARPClient) :
  client_initialized client = true ->
  let message := call_tool_request id name call_id arguments in
  let ran := _handle_request env message server in
  let received (frame : value) :=
    snd (call_tool validate on_progress call_id (members frame) client) in
  (forall response,
      _progress_callbacks
        (fst (call_tool validate on_progress call_id response client)) =
      _progress_callbacks client ∖ {[call_id]}) /\
  ((exists code text rest,
       ran =
       (server,
        Ret (error_response (VInt id)
               (("code", VInt code) :: ("message", VStr text) :: rest))) /\
       received
         (error_response (VInt id)
            (("code", VInt code) :: ("message", VStr text) :: rest)) =
       inl {| result_call_id := call_id; result_state := FAILED;
              result := VNone; error := Some text; duration := None |}) \/
   (exists record,
       snd ran =
       Ret (result_response (VInt id) (dump_CallToolResult true record)) /\
       result_call_id record = call_id /\
       (result_state record = COMPLETED \/ result_state record = FAILED) /\
       _active_calls (fst ran) !! call_id = Some (result_state record) /\
       received (result_response (VInt id) (dump_CallToolResult true record))
       = validate (dump_CallToolResult true record)) \/
   (exists e,
       snd ran = Raise e /\ is_arp_error e = false /\
       (fst ran = server \/
        _active_calls (fst ran) !! call_id = Some RUNNING))).
Proof.
  intros Hready message ran received. split.
  { intros response. unfold call_tool. rewrite Hready. cbn [negb fst].
    cbn [_progress_callbacks]. destruct on_progress; [|done].
    apply set_eq. intros other.
    rewrite !elem_of_difference, elem_of_union, elem_of_singleton. tauto. }
  subst received ran. unfold call_tool. rewrite Hready. cbn [negb snd].
  destruct (call_tool_request_cases env id name call_id arguments server)
    as [[_ Hrun]|[_ Hrun]]; fold message in Hrun; rewrite Hrun.
  { left. by eexists _, _, _. }
  destruct (_handle_call_tool env _ server) as [server' [result|e]] eqn:Hran;
    cbn [reply_of snd fst].
  - right. left.
    destruct (call_tool_returns _ _ _ _ _ Hran)
      as (record & -> & Hid & Hstate & Hrecord).
    exists record. by repeat split.
  - destruct (handler_raises env "arp.callTool" _ _ _ _ _ eq_refl Hran)
      as [_ [[-> Harp]|[(-> & [=] & _)|(params & _ & [= <-] & _ & Hcases)]]].
    + destruct e; try done. left. by eexists _, _, _.
    + assert (is_arp_error e = false /\
              (server' = server \/
               _active_calls server' !! call_id = Some RUNNING))
        as [Harp Hstate].
      { destruct Hcases
          as [[-> Hcheck]|(handler & tool_def & _ & _ & -> & ->)].
        - split; [by eapply check_constraints_raise|by left].
        - split; [done|]. right. unfold escaped_call.
          cbn [_active_calls set_active_calls set_transport].
          apply lookup_insert_eq. }
      right. right. exists e. by destruct e.
Qed.

Lemma call_tool_end_to_end_witness :
  let ready :=
    fst (_handle_request fixture_env (request 1 "arp.initialize" empty_params)
           fixture_server) in
  let frame :=
    error_response (VInt 2)
      [ ("code", VInt (-40001));
        ("message", VStr "Tool 'activate_cutter' requires human confirmation");
        ("data", VDict [("requiresConfirmation", VBool true)]) ] in
  client_initialized sample_client = true /\
  _handle_request fixture_env (call_tool_request 2 "activate_cutter" "c3" [])
    ready = (ready, Ret frame) /\
  snd (call_tool (fun _ => inr ClientValidationError) false "c3"
         (members frame) sample_client) =
  inl {| result_call_id := "c3"; result_state := FAILED; result := VNone;
         error := Some "Tool 'activate_cutter' requires human confirmation";
         duration := None |}.
Proof.
  intros ready frame. split; [reflexivity|]. split; [reflexivity|].
  destruct (call_tool_end_to_end (fun _ => inr ClientValidationError)
              fixture_env 2 "activate_cutter" "c3" [] false ready
              sample_client eq_refl)
    as [_ [(code & text & rest & Hran & Hclient)|
           [(record & Hran & _)|(e & Hran & _)]]].
  - change (_handle_request fixture_env
              (call_tool_request 2 "activate_cutter" "c3" []) ready)
      with (ready, Ret frame) in Hran.
    injection Hran as <- <- <-. exact Hclient.
  - change (_handle_request fixture_env
              (call_tool_request 2 "activate_cutter" "c3" []) ready)
      with (ready, Ret frame) in Hran.
    discriminate Hran.
  - change (_handle_request fixture_env
              (call_tool_request 2 "activate_cutter" "c3" []) ready)
      with (ready, Ret frame) in Hran.
    discriminate Hran.
Defined.

(** ** Progress notifications *)

Lemma admitted_unique (env : Env) (self : ARPServer) (params : Params)
  (tool_def tool_def' : PhysicalTool) :
  admitted env self params tool_def ->
  dict_get (default "" (p_name params)) (_tools self) = Some tool_def' ->
  tool_def' = tool_def.
Proof. intros (_ & Htool & _). congruence. Qed.

Lemma call_tool_transport (env : Env) (params : Params) (self : ARPServer) :
  (_transport (fst (_handle_call_tool env params self)) = _transport self /\
   forall tool_def, ~ admitted env self params tool_def) \/
  (exists tool_def,
      admitted env self params tool_def /\
      _transport (fst (_handle_call_tool env params self)) =
      _transport self ++
      [progress_frame (call_id_of env params) (Fin 0) "Starting execution"
         RUNNING]).
Proof.
  unfold _handle_call_tool, _send_progress. monad.
  destruct (_emergency_stopped self) eqn:Hstop.
  { left. split; [done|]. intros tool_def (Hclear & _). congruence. }
  destruct (dict_get (default "" (p_name params)) (_tools self))
    as [tool_def|] eqn:Htool.
  2:{ left. unfold dict_mem. rewrite Htool. split; [done|].
      intros tool_def (_ & Hfound & _). congruence. }
  unfold dict_mem. rewrite Htool. cbn [negb].
  destruct (bool_decide _) eqn:Hbusy.
  { left. split; [done|]. intros tool_def' (_ & _ & Hfree & _).
    by apply bool_decide_eq_true_1 in Hbusy. }
  apply bool_decide_eq_false_1 in Hbusy.
  destruct (_check_constraints env self _ _) as [violation|e] eqn:Hcheck.
  2:{ left. split; [done|]. intros tool_def' (_ & _ & _ & Hpass & _).
      unfold arguments_of in Hpass. congruence. }
  destruct violation as [detail|].
  { pose proof (check_constraints_truthy _ _ _ _ _ Hcheck) as Htruthy.
    rewrite Htruthy. left. split; [done|].
    intros tool_def' (_ & _ & _ & Hpass & _).
    unfold arguments_of in Hpass. congruence. }
  cbn [violation_truthy].
  destruct (requires_confirmation (safety tool_def)) eqn:Hconfirm.
  { left. split; [done|]. intros tool_def' Hadmitted.
    destruct (admitted_unique _ _ _ _ _ Hadmitted Htool).
    destruct Hadmitted as (_ & _ & _ & _ & Hnone). congruence. }
  right. exists tool_def. split; [by repeat split|].
  by destruct (await_handler env _ _).
Qed.

(** X19.  Progress notifications.  A request that is not an [arp.callTool]
    admitted in an initialised session broadcasts nothing.  An admitted
    [arp.callTool] broadcasts, before the tool handler is awaited, a frame
    with progress 0.0 and state running for the identifier of the call: the
    frames it broadcasts start with that one.  [send_progress] broadcasts a
    running frame for any identifier, whether a call of that identifier
    exists or not. *)
Theorem request_broadcasts (env : Env) (message : WireMessage)
  (self : ARPServer) :
  let self' := fst (_handle_request env message self) in
  let admitted_call (members : Params) (tool_def : PhysicalTool) : Prop :=
    wire_method message = Some "arp.callTool" /\
    _initialized self = true /\
    default (Object empty_params) (wire_params message) = Object members /\
    admitted env self members tool_def in
  ((forall members tool_def, ~ admitted_call members tool_def) ->
   _transport self' = _transport self) /\
  (forall members tool_def,
      admitted_call members tool_def ->
      exists more,
        _transport self' =
        _transport self ++
        progress_frame (call_id_of env members) (Fin 0) "Starting execution"
          RUNNING :: more) /\
  (forall call_id progress text,
      send_progress call_id progress text self =
      (set_transport
         (fun sent => sent ++ [progress_frame call_id progress text RUNNING])
         self,
       Ret tt)).
Proof.
  intros self' admitted_call. split; [|split; [|done]]; subst self'.
  - intros Hnot.
    destruct (request_cases env message self)
      as [[Hnone ->]|[(handler & _ & _ & Hinit & ->)|
                      (handler & Hget & Hready & ->)]]; [done..|].
    rewrite reply_of_fst.
    destruct (decide (default "" (wire_method message) = "arp.callTool"))
      as [Hcall|Hother].
    + rewrite Hcall in Hget. cbn in Hget. simplify_eq.
      destruct Hready as [|Hready]; [congruence|].
      destruct (default (Object empty_params) (wire_params message))
        as [members|] eqn:Hparams; [|done].
      destruct (call_tool_transport env members self)
        as [[Hsame _]|(tool_def & Hadmitted & _)]; [done|].
      destruct (Hnot members tool_def). split; [by apply method_named|].
      by split.
    + handler_cases Hget; run_cases; done.
  - intros members tool_def (Hmethod & Hinit & Hparams & Hadmitted).
    exists [].
    destruct (request_cases env message self)
      as [[Hnone _]|[(handler & _ & _ & Hno & _)|
                     (handler & Hget & _ & ->)]].
    + by rewrite Hmethod in Hnone.
    + congruence.
    + rewrite reply_of_fst, Hparams. rewrite Hmethod in Hget. cbn in Hget.
      simplify_eq.
      destruct (call_tool_transport env members self)
        as [[_ Hrejected]|(tool_def' & _ & Hsent)]; [|done].
      by destruct (Hrejected tool_def).
Qed.

(** ** Requests that only read *)



(** ** Cancelling a call *)

(** X21.  [_handle_cancel_tool] touches one record at most.  It neither
    adds nor removes a record and leaves the records of all other
    identifiers alone; for an identifier without record it answers
    [not_found] and changes nothing, for one with a record it files
    [cancelled].  It broadcasts nothing and keeps both flags. *)
Theorem cancel_tool_touches_one_record (params : Params) (self : ARPServer) :
  let call_id := default "" (p_callId params) in
  let self' := fst (_handle_cancel_tool params self) in
  dom (_active_calls self') = dom (_active_calls self) /\
  (forall other,
      other <> call_id ->
      _active_calls self' !! other = _active_calls self !! other) /\
  (_active_calls self !! call_id = None ->
   _handle_cancel_tool params self =
   (self, Ret (VDict [("callId", VStr call_id); ("state", VStr "not_found")])))
  /\
  (is_Some (_active_calls self !! call_id) ->
   _active_calls self' !! call_id = Some CANCELLED /\
   snd (_handle_cancel_tool params self) =
   Ret (VDict [("callId", VStr call_id); ("state", VStr "cancelled")])) /\
  _transport self' = _transport self /\
  _emergency_stopped self' = _emergency_stopped self /\
  _initialized self' = _initialized self.
Proof.
  intros call_id self'. subst self'. unfold _handle_cancel_tool. monad.
  fold call_id. destruct (bool_decide _) eqn:Hknown.
  - apply bool_decide_eq_true_1 in Hknown.
    cbn [fst snd _active_calls set_active_calls].
    split; [|split; [|split; [|split]]].
    + rewrite dom_insert_L. apply elem_of_dom in Hknown.
      apply subseteq_union_1_L. by apply singleton_subseteq_l.
    + intros other Hne. by rewrite lookup_insert_ne.
    + intros Hnone. rewrite Hnone in Hknown. by destruct Hknown.
    + intros _. split; [apply lookup_insert_eq|done].
    + done.
  - apply bool_decide_eq_false_1 in Hknown. cbn [fst snd].
    split; [done|]. split; [done|]. split; [done|]. split; [|done].
    intros Hsome. by destruct Hknown.
Qed.

(** ** The handshake *)



(** ** The client's other calls *)

(** X23.  [ARPClient.cancel_tool] does not report errors.  Against a
    server that is not initialised the reply is the error -40009 and the
    client returns an empty object; against an initialised server it returns
    the identifier with [cancelled] when the call has a record and with
    [not_found] when it has none. *)
Theorem cancel_tool_swallows_errors (env : Env) (number : Z)
  (call_id : string) (server : ARPServer) (client : ARPClient) :
  client_initialized client = true ->
  let message := request number "arp.cancelTool" (call_id_params call_id) in
  let ran := _handle_request env message server in
  (_initialized server = false /\
   exists frame,
     ran = (server, Ret frame) /\
     error_code_of frame = VInt (-40009) /\
     cancel_tool (members frame) client = inl (VDict [])) \/
  (_initialized server = true /\
   exists frame state,
     snd ran = Ret frame /\
     (state = "cancelled" /\ is_Some (_active_calls server !! call_id) \/
      state = "not_found" /\ _active_calls server !! call_id = None) /\
     cancel_tool (members frame) client =
     inl (VDict [("callId", VStr call_id); ("state", VStr state)])).
Proof.
  intros Hclient message ran. subst ran. unfold cancel_tool.
  rewrite Hclient. cbn [negb].
  destruct (_initialized server) eqn:Hready.
  - right. split; [done|].
    rewrite (request_dispatch env message server "arp.cancelTool"
               _handle_cancel_tool Hready eq_refl eq_refl).
    unfold _handle_cancel_tool. monad. cbn [message request msg_params
      default from_option id call_id_params p_callId msg_id].
    destruct (bool_decide _) eqn:Hknown.
    + apply bool_decide_eq_true_1 in Hknown.
      eexists _, "cancelled". split; [reflexivity|]. split; [by left|done].
    + apply bool_decide_eq_false_1 in Hknown.
      eexists _, "not_found". split; [reflexivity|]. split; [|done].
      right. split; [done|]. by apply eq_None_not_Some.
  - left. split; [done|]. eexists. split.
    + destruct (message_cases env message server)
        as [[Hnone _]|[(handler & _ & _ & _ & Hrun)|
                       (handler & _ & [Hinit|Hinit] & _)]];
        [done|exact Hrun|done|congruence].
    + done.
Qed.

Lemma cancel_tool_swallows_errors_witness :
  client_initialized sample_client = true /\
  cancel_tool
    (members
       (error_response (VInt 3)
          [("code", VInt (-40009)); ("message", VStr "Not initialized")]))
    sample_client = inl (VDict []).
Proof.
  split; [reflexivity|].
  destruct (cancel_tool_swallows_errors fixture_env 3 "c1" fixture_server
              sample_client eq_refl)
    as [(_ & frame & Hran & _ & Hclient)|[Hready _]].
  - injection Hran as <-. exact Hclient.
  - discriminate Hready.
Defined.

(** X24.  [ARPClient.emergency_stop] needs a connection and no handshake.
    The notification it sends sets the emergency-stop flag of the server in
    any state of the session, leaves no call recorded as running, gets no
    reply, and keeps the initialised flag. *)
Theorem client_emergency_stop_latches (env : Env) (reason : string)
  (transport : WebSocketClientTransport) (server : ARPServer) :
  _ws transport = true ->
  exists frame,
    send_notification "arp.emergencyStop" (reason_params reason) transport =
    inl frame /\
    snd (receive env (Decoded frame) server) = Ret None /\
    _emergency_stopped (fst (receive env (Decoded frame) server)) = true /\
    quiescent (fst (receive env (Decoded frame) server)) /\
    _initialized (fst (receive env (Decoded frame) server)) =
    _initialized server.
Proof.
  intros Hconnected. unfold send_notification. rewrite Hconnected.
  eexists. split; [reflexivity|]. rewrite receive_run.
  cbn [notification msg_id fst snd]. split; [done|]. split; [done|].
  split; [|done].
  intros call_id.
  change (_active_calls
            (fst (_handle_emergency_stop (reason_params reason) server))
            !! call_id <> Some RUNNING).
  rewrite emergency_stop_lookup.
  by destruct (_active_calls server !! call_id) as [[]|].
Qed.

Lemma client_emergency_stop_latches_witness :
  _ws connected_transport = true /\
  _emergency_stopped
    (fst (receive fixture_env
            (Decoded (notification "arp.emergencyStop"
                        (reason_params "operator")))
            fixture_server)) = true.
Proof.
  split; [reflexivity|].
  destruct (client_emergency_stop_latches fixture_env "operator"
              connected_transport fixture_server eq_refl)
    as (frame & Hsent & _ & Hstopped & _).
  injection Hsent as <-. exact Hstopped.
Defined.

(** ** Wire names *)

(** X25.  The wire names of the members of each enumeration are pairwise
    distinct, so a name read from a frame stands for one member only. *)
Theorem enum_values_injective :
  (forall a b, SafetyLevel_value a = SafetyLevel_value b -> a = b) /\
  (forall a b, ToolState_value a = ToolState_value b -> a = b) /\
  (forall a b, ContextDataType_value a = ContextDataType_value b -> a = b) /\
  (forall a b, ConstraintType_value a = ConstraintType_value b -> a = b) /\
  (forall a b, ViolationAction_value a = ViolationAction_value b -> a = b).
Proof. repeat split; intros [] []; cbn; congruence. Qed.

(** ** Request identifiers on the client transport *)

Lemma send_request_connected (method : string) (params : Params)
  (self : WebSocketClientTransport) :
  _ws self = true ->
  send_request method params self =
  ({| _ws := true; _next_id := _next_id self + 1;
      _pending_requests := {[_next_id self]} ∪ _pending_requests self;
      results := results self;
      _notification_handlers := _notification_handlers self;
      notified := notified self |},
   inl (request (_next_id self) method params)).
Proof. intros Hconnected. unfold send_request. by rewrite Hconnected. Qed.

Lemma notify_keeps (message : list (string * value))
  (self : WebSocketClientTransport) :
  _ws (fst (notify message self)) = _ws self /\
  _next_id (fst (notify message self)) = _next_id self /\
  _pending_requests (fst (notify message self)) = _pending_requests self /\
  results (fst (notify message self)) = results self.
Proof. unfold notify. by repeat case_match. Qed.

Lemma client_receive_keeps (message : list (string * value))
  (self : WebSocketClientTransport) :
  _ws (fst (client_receive message self)) = _ws self /\
  _next_id (fst (client_receive message self)) = _next_id self /\
  _pending_requests (fst (client_receive message self))
    ⊆ _pending_requests self.
Proof.
  unfold client_receive.
  destruct (dict_get "id" message) as [id|].
  - destruct (pending_key id _) as [[key|]|e]; cbn [fst].
    + split; [done|]. split; [done|].
      cbn [_pending_requests]. apply subseteq_difference_l. done.
    + destruct (notify_keeps message self) as (-> & -> & -> & _). done.
    + done.
  - destruct (notify_keeps message self) as (-> & -> & -> & _). done.
Qed.

Lemma client_run_keeps (step : client_step)
  (self : WebSocketClientTransport) :
  ids_ok self -> _ws self = true ->
  ids_ok (client_run step self) /\ _ws (client_run step self) = true /\
  _next_id self <= _next_id (client_run step self).
Proof.
  intros [Hlow Hok] Hconnected. destruct step as [method params|message].
  - cbn [client_run]. rewrite send_request_connected by done. cbn [fst].
    split; [|split; [done|cbn; lia]].
    split; [cbn; lia|]. intros key. cbn [_pending_requests _next_id].
    rewrite elem_of_union, elem_of_singleton. intros [->|Hkey]; [lia|].
    apply Hok in Hkey. lia.
  - cbn [client_run].
    destruct (client_receive_keeps message self) as (Hws & Hnext & Hsub).
    split; [|split; [congruence|lia]].
    split; [lia|]. intros key Hkey. rewrite Hnext. apply Hok. by apply Hsub.
Qed.

Lemma client_runs_keep (steps : list client_step)
  (self : WebSocketClientTransport) :
  ids_ok self -> _ws self = true ->
  ids_ok (foldl (fun st step => client_run step st) self steps) /\
  _ws (foldl (fun st step => client_run step st) self steps) = true.
Proof.
  revert self. induction steps as [|step rest IH]; intros self Hok Hconnected;
    [done|].
  cbn [foldl].
  destruct (client_run_keeps step self Hok Hconnected) as (Hok' & Hws' & _).
  by apply IH.
Qed.

Lemma ids_ok_connected : ids_ok connected_transport.
Proof. split; [done|]. intros key Hkey. by apply elem_of_empty in Hkey. Qed.

(** X26.  Request identifiers on the client transport.  On a connected
    transport the requests sent carry consecutive identifiers, starting at
    the next free one, through any interleaving with frames received: no
    identifier is used twice, none collides with a request that is still
    pending, and the next request will again carry a new one. *)
Theorem request_ids_are_fresh (steps : list client_step)
  (self : WebSocketClientTransport) :
  ids_ok self -> _ws self = true ->
  let final := foldl (fun st step => client_run step st) self steps in
  ids_ok final /\
  sent_ids steps self = seqZ (_next_id self) (_next_id final - _next_id self)
  /\
  NoDup (sent_ids steps self) /\
  (forall key, key ∈ sent_ids steps self -> key ∉ _pending_requests self) /\
  (forall method params,
      exists request,
        snd (send_request method params final) = inl request /\
        msg_id request = Some (VInt (_next_id final)) /\
        (_next_id final ∉ _pending_requests final) /\
        (_next_id final ∉ sent_ids steps self)).
Proof.
  intros Hok Hconnected final.
  assert (sent_ids steps self =
          seqZ (_next_id self) (_next_id final - _next_id self) /\
          _next_id self <= _next_id final) as [Hsent Hgrows].
  { subst final. revert self Hok Hconnected.
    induction steps as [|step rest IH]; intros self Hok Hconnected.
    - cbn. by rewrite Z.sub_diag.
    - cbn [foldl sent_ids].
      destruct (client_run_keeps step self Hok Hconnected)
        as (Hok' & Hws' & Hstep).
      destruct (IH _ Hok' Hws') as [-> Hrest]. split; [|lia].
      destruct step as [method params|message].
      + pose proof (send_request_connected method params self Hconnected)
          as Hsend.
        cbn [client_run] in *. rewrite Hsend in *.
        cbn [fst snd _next_id request msg_id] in *.
        set (n := _next_id (foldl _ _ rest)) in *.
        rewrite (seqZ_cons (_next_id self) (n - _next_id self)) by lia.
        cbn [app]. f_equal. f_equal; lia.
      + cbn [client_run app] in *.
        destruct (client_receive_keeps message self) as (_ & -> & _).
        done. }
  destruct (client_runs_keep steps self Hok Hconnected) as [Hfinal Hws].
  fold final in Hfinal, Hws.
  split; [done|]. split; [done|]. rewrite Hsent.
  split; [apply NoDup_seqZ|]. split.
  - intros key Hkey%elem_of_seqZ Hpending. destruct Hok as [_ Hok].
    apply Hok in Hpending. lia.
  - intros method params. rewrite send_request_connected by done.
    eexists. split; [reflexivity|]. split; [done|]. split.
    + intros Hpending. destruct Hfinal as [_ Hfinal].
      apply Hfinal in Hpending. lia.
    + intros Hkey%elem_of_seqZ. lia.
Qed.

Lemma request_ids_are_fresh_witness :
  ids_ok connected_transport /\
  sent_ids
    [ Send "arp.initialize" empty_params;
      Receive (members parse_error_response);
      Send "arp.listTools" empty_params ]
    connected_transport = [1; 2].
Proof.
  split; [exact ids_ok_connected|].
  destruct (request_ids_are_fresh
              [ Send "arp.initialize" empty_params;
                Receive (members parse_error_response);
                Send "arp.listTools" empty_params ]
              connected_transport ids_ok_connected eq_refl)
    as (_ & Hsent & _).
  rewrite Hsent. reflexivity.
Defined.

Lemma request_reply_members (env : Env) (message : Message)
  (self : ARPServer) (reply : value) :
  snd (_handle_request env message self) = Ret reply ->
  exists key body,
    members reply =
    [ ("jsonrpc", VStr "2.0"); ("id", default VNone (msg_id message));
      (key, body) ] /\
    (key = "result" \/ key = "error").
Proof.
  destruct (message_cases env message self)
    as [[_ ->]|[(handler & _ & _ & _ & ->)|(handler & Hget & _ & ->)]].
  - intros [= <-]. eexists _, _. split; [reflexivity|by right].
  - intros [= <-]. eexists _, _. split; [reflexivity|by right].
  - destruct (handler _ self) as [self' [result|[]]]; intros [= <-];
      eexists _, _; (split; [reflexivity|]); auto.
Qed.

Lemma pending_key_present (key : Z) (pending : gset Z) :
  key ∈ pending -> pending_key (VInt key) pending = inl (Some key).
Proof. intros Hkey. unfold pending_key. by rewrite decide_True. Qed.

Lemma pending_key_absent (key : Z) (pending : gset Z) :
  key ∉ pending -> pending_key (VInt key) pending = inl None.
Proof. intros Hkey. unfold pending_key. by rewrite decide_False. Qed.

(** X27.  A reply resolves the request it answers.  When the server
    answers the request the client transport has just sent, the receive
    loop hands that reply to the future of this request and to no other;
    the request is pending no longer, no notification handler runs, and the
    same reply arriving a second time is dropped. *)
Theorem reply_resolves_request (env : Env) (method : string) (params : Params)
  (transport : WebSocketClientTransport) (server : ARPServer) (reply : value) :
  ids_ok transport -> _ws transport = true ->
  snd (_handle_request env (request (_next_id transport) method params)
         server) = Ret reply ->
  let waiting := fst (send_request method params transport) in
  let resolved := fst (client_receive (members reply) waiting) in
  snd (send_request method params transport) =
    inl (request (_next_id transport) method params) /\
  _pending_requests waiting =
    {[_next_id transport]} ∪ _pending_requests transport /\
  snd (client_receive (members reply) waiting) = None /\
  _pending_requests resolved = _pending_requests transport /\
  results resolved =
    <[_next_id transport := members reply]> (results transport) /\
  notified resolved = notified transport /\
  client_receive (members reply) resolved = (resolved, None).
Proof.
  intros [_ Hok] Hconnected Hreply waiting resolved.
  destruct (request_reply_members _ _ _ _ Hreply)
    as (key & body & Hmembers & Hkey).
  cbn [request msg_id default from_option id] in Hmembers.
  assert (_next_id transport ∉ _pending_requests transport) as Hfresh.
  { intros Hin. apply Hok in Hin. lia. }
  subst resolved waiting. rewrite send_request_connected by done.
  cbn [fst snd]. unfold client_receive. rewrite Hmembers.
  cbn [dict_get String.eqb Ascii.eqb Bool.eqb _pending_requests].
  change (dict_get "id" _) with (Some (VInt (_next_id transport))).
  rewrite pending_key_present
    by (apply elem_of_union_l; by apply elem_of_singleton).
  cbn [fst snd _pending_requests results notified].
  assert (({[_next_id transport]} ∪ _pending_requests transport)
            ∖ {[_next_id transport]} = _pending_requests transport) as ->.
  { apply set_eq. intros other.
    rewrite elem_of_difference, elem_of_union, elem_of_singleton.
    split; [tauto|]. intros Hin. split; [by right|]. by intros ->. }
  do 6 (split; [done|]).
  rewrite pending_key_absent by done.
  unfold notify. destruct Hkey as [->| ->]; reflexivity.
Qed.

Lemma reply_resolves_request_witness :
  let reply :=
    error_response (VInt 1)
      [("code", VInt (-40009)); ("message", VStr "Not initialized")] in
  ids_ok connected_transport /\
  snd (_handle_request fixture_env (request 1 "arp.listTools" empty_params)
         fixture_server) = Ret reply /\
  results
    (fst (client_receive (members reply)
            (fst (send_request "arp.listTools" empty_params
                    connected_transport))))
    !! 1 = Some (members reply).
Proof.
  intros reply. split; [exact ids_ok_connected|]. split; [reflexivity|].
  destruct (reply_resolves_request fixture_env "arp.listTools" empty_params
              connected_transport fixture_server reply ids_ok_connected
              eq_refl eq_refl)
    as (_ & _ & _ & _ & Hresults & _).
  rewrite Hresults. apply lookup_insert_eq.
Defined.

(** X28.  The reply to a frame that is not JSON reaches no caller.  It
    carries the identifier 0, and the client transport hands out
    identifiers from 1 on: the receive loop drops that reply, also while a
    request is pending. *)
Theorem parse_error_reaches_no_request
  (transport : WebSocketClientTransport) :
  ids_ok transport ->
  client_receive (members parse_error_response) transport = (transport, None)
  /\
  (forall method params,
      _ws transport = true ->
      exists request,
        snd (send_request method params transport) = inl request /\
        msg_id request <> reply_id Undecodable /\
        client_receive (members parse_error_response)
          (fst (send_request method params transport)) =
        (fst (send_request method params transport), None)).
Proof.
  intros [Hlow Hok].
  assert (forall pending : gset Z,
             (forall key, key ∈ pending -> 1 <= key) ->
             forall self,
               _pending_requests self = pending ->
               client_receive (members parse_error_response) self =
               (self, None)) as Hdropped.
  { intros pending Hpositive self Hpending. unfold client_receive.
    change (dict_get "id" (members parse_error_response))
      with (Some (VInt 0)).
    rewrite Hpending, pending_key_absent; [done|].
    intros Hzero%Hpositive. lia. }
  split.
  - apply (Hdropped (_pending_requests transport)); [|done].
    intros key Hkey%Hok. lia.
  - intros method params Hconnected.
    rewrite send_request_connected by done. cbn [fst snd].
    eexists. split; [reflexivity|]. split.
    + cbn. intros [= Hid]. lia.
    + apply (Hdropped ({[_next_id transport]} ∪ _pending_requests transport));
        [|done].
      intros key. rewrite elem_of_union, elem_of_singleton.
      intros [->|Hkey%Hok]; lia.
Qed.

Lemma parse_error_reaches_no_request_witness :
  ids_ok connected_transport /\
  client_receive (members parse_error_response)
    (fst (send_request "arp.listTools" empty_params connected_transport)) =
  (fst (send_request "arp.listTools" empty_params connected_transport), None).
Proof.
  split; [exact ids_ok_connected|].
  destruct (parse_error_reaches_no_request connected_transport
              ids_ok_connected) as [_ Hwaiting].
  destruct (Hwaiting "arp.listTools" empty_params eq_refl)
    as (request & _ & _ & Hdropped).
  exact Hdropped.
Defined.

(** ** Subscriptions, seen from both ends *)

Lemma request_keeps_subscriptions_ok (env : Env) (message : Message)
  (self : ARPServer) :
  subscriptions_ok self ->
  subscriptions_ok (fst (_handle_request env message self)).
Proof.
  intros [Hclosed Hknown].
  destruct (message_cases env message self)
    as [[_ ->]|[(handler & _ & _ & _ & ->)|(handler & Hget & Hready & ->)]];
    [done..|].
  rewrite reply_of_fst.
  destruct (handlers_cases _ _ _ Hget)
    as [[Hm ->]|[[Hm ->]|[[Hm ->]|[[Hm ->]|[[Hm ->]|[[Hm ->]|[[Hm ->]|[[Hm ->]|
        [[Hm ->]|[[Hm ->]|[Hm ->]]]]]]]]]]];
    try (destruct Hready as [Hready|Hready]; [congruence|]).
  - done.
  - split; [done|]. intros name [task Htask]. cbn in Htask.
    by rewrite lookup_empty in Htask.
  - done.
  - destruct (call_tool_keeps_tasks env
                (default empty_params (msg_params message)) self)
      as [Htasks _].
    pose proof (request_keeps_registration env message self) as Hsame.
    assert (_initialized
              (fst (_handle_call_tool env
                      (default empty_params (msg_params message)) self)) =
            true) as Hflag.
    { unfold _handle_call_tool, _send_progress. monad. by run_cases. }
    split; [congruence|]. rewrite Htasks. intros name Hname.
    assert (_context_sources
              (fst (_handle_call_tool env
                      (default empty_params (msg_params message)) self)) =
            _context_sources self) as ->; [|by apply Hknown].
    unfold _handle_call_tool, _send_progress. monad. by run_cases.
  - unfold _handle_cancel_tool. monad. by run_cases.
  - done.
  - unfold _handle_subscribe_context. monad.
    destruct (dict_get _ (_context_sources self)) as [source|] eqn:Hsource;
      [|done].
    destruct (bool_decide _) eqn:Hsubscribed; monad; cbn [fst]; [done|].
    split; [cbn; congruence|].
    intros name. cbn [_context_tasks _context_sources set_context_tasks
                        set_event_loop].
    destruct (decide
                (default "" (p_name (default empty_params (msg_params message)))
                 = name)) as [<-|Hne].
    + by rewrite Hsource.
    + rewrite lookup_insert_ne by done. apply Hknown.
  - rewrite unsubscribe_run. cbn [fst].
    destruct (_context_tasks self !! _) as [task|] eqn:Htask; [|done].
    split; [cbn; congruence|].
    intros name. cbn [_context_tasks _context_sources set_context_tasks
                        set_event_loop].
    intros [other [_ Hother]%lookup_delete_Some]. apply Hknown. by eexists.
  - done.
  - unfold _handle_get_constraint. monad. by run_cases.
  - done.
Qed.

Lemma subscriptions_ok_fixture : subscriptions_ok fixture_server.
Proof.
  split; [done|]. intros name [task Htask].
  change (_context_tasks fixture_server) with (∅ : gmap string nat) in Htask.
  by rewrite lookup_empty in Htask.
Qed.

(** X29.  [ARPClient.subscribe_context] against the server.  Subscriptions
    exist on the server only in an initialised session and only for
    registered sources, and every request keeps it so.  After the call the
    client holds a callback for the source exactly when the server holds a
    subscription for it: if the server accepts, both do; if it rejects (not
    initialised, or source unknown) the server is unchanged and holds none,
    and the client drops the callback and raises with the message of the
    server. *)
Theorem subscribe_context_end_to_end (env : Env) (number : Z) (name : string)
  (max_rate : option value) (server : ARPServer) (client : ARPClient) :
  subscriptions_ok server ->
  client_initialized client = true ->
  let ran :=
    _handle_request env (subscribe_context_request number name max_rate)
      server in
  let returned (frame : value) :=
    subscribe_context name (members frame) client in
  subscriptions_ok (fst ran) /\
  ((exists frame,
       snd ran = Ret frame /\
       is_Some (_context_tasks (fst ran) !! name) /\
       snd (returned frame) = inl tt /\
       name ∈ _context_callbacks (fst (returned frame))) \/
   (exists frame code text,
       ran = (server, Ret frame) /\
       error_code_of frame = VInt code /\
       (code = -40009 \/ code = -40008) /\
       read "message" (read "error" frame) = VStr text /\
       _context_tasks server !! name = None /\
       snd (returned frame) = inr (ARPClientError text) /\
       name ∉ _context_callbacks (fst (returned frame)))).
Proof.
  intros Hok Hclient ran returned.
  split; [by apply request_keeps_subscriptions_ok|].
  destruct Hok as [Hclosed Hknown].
  assert (forall callbacks : gset string,
             name ∉ ({[name]} ∪ callbacks) ∖ {[name]}) as Hpopped.
  { intros callbacks. rewrite elem_of_difference, elem_of_singleton. tauto. }
  subst ran returned. unfold subscribe_context. rewrite Hclient.
  cbn [negb].
  destruct (_initialized server) eqn:Hready.
  - rewrite (request_dispatch env
               (subscribe_context_request number name max_rate) server
               "arp.subscribeContext" _handle_subscribe_context Hready eq_refl
               eq_refl).
    cbn [subscribe_context_request request msg_id msg_params default
           from_option id].
    destruct (dict_get name (_context_sources server)) as [source|]
      eqn:Hsource.
    + left. rewrite (subscribe_registered _ _ source) by done.
      cbn [p_name default from_option id reply_of fst snd].
      eexists. split; [reflexivity|]. split.
      * destruct (bool_decide _) eqn:Hsubscribed.
        { by apply bool_decide_eq_true_1 in Hsubscribed. }
        cbn [_context_tasks set_context_tasks set_event_loop].
        rewrite lookup_insert_eq. by eexists.
      * split; [done|]. cbn [fst _context_callbacks].
        apply elem_of_union_l. by apply elem_of_singleton.
    + right. unfold _handle_subscribe_context. monad.
      cbn [p_name default from_option id]. rewrite Hsource.
      cbn [reply_of fst snd].
      eexists _, _, _. split; [reflexivity|]. split; [reflexivity|].
      split; [by right|]. split; [reflexivity|]. split.
      * destruct (_context_tasks server !! name) as [task|] eqn:Htask;
          [|done].
        destruct (Hknown name) as [source Hfound]; [by eexists|congruence].
      * split; [done|]. apply Hpopped.
  - right.
    destruct (message_cases env (subscribe_context_request number name max_rate)
                server)
      as [[Hnone _]|[(handler & _ & _ & _ & ->)|
                     (handler & _ & [Hinit|Hinit] & _)]];
      [done| |done|congruence].
    eexists _, _, _. split; [reflexivity|]. split; [reflexivity|].
    split; [by left|]. split; [reflexivity|]. split.
    + by rewrite Hclosed.
    + split; [done|]. apply Hpopped.
Qed.

Lemma subscribe_context_end_to_end_witness :
  let frame :=
    error_response (VInt 2)
      [("code", VInt (-40009)); ("message", VStr "Not initialized")] in
  subscriptions_ok fixture_server /\
  client_initialized sample_client = true /\
  snd (_handle_request fixture_env
         (subscribe_context_request 2 "odometry" None) fixture_server) =
  Ret frame /\
  snd (subscribe_context "odometry" (members frame) sample_client) =
  inr (ARPClientError "Not initialized").
Proof.
  intros frame. split; [exact subscriptions_ok_fixture|].
  split; [reflexivity|]. split; [reflexivity|].
  destruct (subscribe_context_end_to_end fixture_env 2 "odometry" None
              fixture_server sample_client subscriptions_ok_fixture eq_refl)
    as [_ [(reply & Hran & _ & Hreturned & _)|
           (reply & code & text & Hran & _ & _ & Htext & _ & Hreturned & _)]].
  - change (snd (_handle_request fixture_env
                   (subscribe_context_request 2 "odometry" None)
                   fixture_server))
      with (Ret frame) in Hran.
    injection Hran as <-. discriminate Hreturned.
  - change (_handle_request fixture_env
              (subscribe_context_request 2 "odometry" None) fixture_server)
      with (fixture_server, Ret frame) in Hran.
    injection Hran as <-. injection Htext as <-. exact Hreturned.
Defined.

(** X30.  [ARPClient.unsubscribe_context] against the server.  After the
    call neither side holds the subscription: the client has dropped the
    callback, and the server has no entry for the source, also when it
    answers -40009, which the client does not look at.  The subscriptions
    and callbacks of other sources are as before. *)
Theorem unsubscribe_context_end_to_end (env : Env) (number : Z)
  (name : string) (server : ARPServer) (client : ARPClient) :
  subscriptions_ok server ->
  client_initialized client = true ->
  let ran :=
    _handle_request env
      (request number "arp.unsubscribeContext" (name_params name)) server in
  let returned := unsubscribe_context name client in
  _context_tasks (fst ran) !! name = None /\
  snd returned = inl tt /\
  (name ∉ _context_callbacks (fst returned)) /\
  (forall other,
      other <> name ->
      _context_tasks (fst ran) !! other = _context_tasks server !! other /\
      (other ∈ _context_callbacks (fst returned) <->
       other ∈ _context_callbacks client)) /\
  (_initialized server = false ->
   exists frame,
     ran = (server, Ret frame) /\ error_code_of frame = VInt (-40009)) /\
  subscriptions_ok (fst ran).
Proof.
  intros Hok Hclient ran returned.
  pose proof (request_keeps_subscriptions_ok env
                (request number "arp.unsubscribeContext" (name_params name))
                server Hok) as Hafter.
  destruct Hok as [Hclosed Hknown].
  subst returned. unfold unsubscribe_context. rewrite Hclient.
  cbn [negb fst snd _context_callbacks].
  assert (_context_tasks (fst ran) !! name = None /\
          (forall other,
              other <> name ->
              _context_tasks (fst ran) !! other =
              _context_tasks server !! other) /\
          (_initialized server = false ->
           exists frame,
             ran = (server, Ret frame) /\
             error_code_of frame = VInt (-40009))) as (Hgone & Hothers & Herr).
  { subst ran. destruct (_initialized server) eqn:Hready.
    - rewrite (request_dispatch env
                 (request number "arp.unsubscribeContext" (name_params name))
                 server "arp.unsubscribeContext" _handle_unsubscribe_context
                 Hready eq_refl eq_refl).
      rewrite reply_of_fst, unsubscribe_run.
      cbn [request msg_params default from_option id name_params p_name fst].
      destruct (_context_tasks server !! name) as [task|] eqn:Htask.
      + cbn [_context_tasks set_context_tasks set_event_loop].
        split; [apply lookup_delete_eq|]. split; [|done].
        intros other Hne. by rewrite lookup_delete_ne.
      + done.
    - destruct (message_cases env
                  (request number "arp.unsubscribeContext" (name_params name))
                  server)
        as [[Hnone _]|[(handler & _ & _ & _ & ->)|
                       (handler & _ & [Hinit|Hinit] & _)]];
        [done| |done|congruence].
      cbn [fst]. split; [by rewrite Hclosed|]. split; [done|].
      intros _. by eexists. }
  split; [done|]. split; [done|].
  split; [rewrite elem_of_difference, elem_of_singleton; tauto|].
  split; [|done].
  intros other Hne. split; [by apply Hothers|].
  rewrite elem_of_difference, elem_of_singleton. tauto.
Qed.

Lemma unsubscribe_context_end_to_end_witness :
  subscriptions_ok fixture_server /\
  client_initialized sample_client = true /\
  _context_tasks
    (fst (_handle_request fixture_env
            (request 2 "arp.unsubscribeContext" (name_params "odometry"))
            fixture_server))
    !! "odometry" = None.
Proof.
  split; [exact subscriptions_ok_fixture|]. split; [reflexivity|].
  destruct (unsubscribe_context_end_to_end fixture_env 2 "odometry"
              fixture_server sample_client subscriptions_ok_fixture eq_refl)
    as [Hgone _].
  exact Hgone.
Defined.
